(** * Release-bundle creation/update source resolution

    A shallow embedding of the source-resolution engine of the lifecycle
    commands (lifecycle/commands/createcommon.go, the update command and
    lifecycle/cli.go) together with the statements that the specification
    makes about it.

    Go strings are byte strings ([string] of [ascii]); a Go [error] is an
    optional message ([None] is [nil]); a Go map is a [gmap]; slices are
    lists.  Functions of the Go standard library and of the jfrog client
    libraries that the code calls are modelled in the first modules or taken
    as fields of an interface class when their body is not part of the
    repository. *)

From Stdlib Require Import String Ascii List ZArith Bool Lia.
From stdpp Require Import gmap strings list.


(** A Go [error]: [None] is [nil], [Some msg] an error whose [Error()] text
    is [msg]. *)
Definition error : Type := option string.

Definition is_err (e : error) : bool :=
  match e with Some _ => true | None => false end.

(** [len(s) > 0] on strings and slices. *)
Definition len_pos (s : string) : bool := negb (String.eqb s "").

Definition slice_len_pos {A} (l : list A) : bool :=
  match l with [] => false | _ :: _ => true end.

(* ------------------------------------------------------------------ *)
(** ** Go standard library: [strings] and [strconv] *)

Module GoStrings.

(** [strings.Split(s, sep)] for a one-byte separator, which is how this
    package calls it ("," and ";").  The result is never empty:
    [Split("", ",")] is [[""]]. *)
Fixpoint Split (s : string) (sep : ascii) : list string :=
  match s with
  | EmptyString => [EmptyString]
  | String c rest =>
      if Ascii.eqb c sep then EmptyString :: Split rest sep
      else match Split rest sep with
           | hd :: tl => String c hd :: tl
           | [] => [String c EmptyString]
           end
  end.

(** [strings.Contains(s, sep)] for a one-byte [sep]. *)
Fixpoint ContainsByte (s : string) (sep : ascii) : bool :=
  match s with
  | EmptyString => false
  | String c rest => Ascii.eqb c sep || ContainsByte rest sep
  end.

(** The two halves of [s] around the first occurrence of [sep]. *)
Fixpoint cut (s : string) (sep : ascii) : option (string * string) :=
  match s with
  | EmptyString => None
  | String c rest =>
      if Ascii.eqb c sep then Some (EmptyString, rest)
      else match cut rest sep with
           | Some (a, b) => Some (String c a, b)
           | None => None
           end
  end.

(** [strings.SplitN(s, sep, 2)] for a one-byte separator: at most two
    substrings, the second one being the unsplit remainder. *)
Definition SplitN2 (s : string) (sep : ascii) : list string :=
  match cut s sep with
  | Some (a, b) => [a; b]
  | None => [s]
  end.

Definition bytes (l : list nat) : string :=
  string_of_list_ascii (map ascii_of_nat l).

(** The UTF-8 encodings of the code points for which [unicode.IsSpace]
    holds: U+0009..U+000D, U+0020, U+0085, U+00A0, U+1680,
    U+2000..U+200A, U+2028, U+2029, U+202F, U+205F, U+3000. *)
Definition spaceRunes : list string :=
  map bytes
    [ [9]; [10]; [11]; [12]; [13]; [32];
      [194; 133]; [194; 160]; [225; 154; 128];
      [226; 128; 128]; [226; 128; 129]; [226; 128; 130]; [226; 128; 131];
      [226; 128; 132]; [226; 128; 133]; [226; 128; 134]; [226; 128; 135];
      [226; 128; 136]; [226; 128; 137]; [226; 128; 138];
      [226; 128; 168]; [226; 128; 169]; [226; 128; 175];
      [226; 129; 159]; [227; 128; 128] ].

Fixpoint stripPrefix (p s : string) : option string :=
  match p, s with
  | EmptyString, _ => Some s
  | String a p', String b s' =>
      if Ascii.eqb a b then stripPrefix p' s' else None
  | String _ _, EmptyString => None
  end.

(** Drops one leading white-space rune, if there is one. *)
Fixpoint dropSpaceRune (runes : list string) (s : string) : option string :=
  match runes with
  | [] => None
  | r :: runes' =>
      match stripPrefix r s with
      | Some s' => Some s'
      | None => dropSpaceRune runes' s
      end
  end.

Fixpoint trimLeftFuel (fuel : nat) (s : string) : string :=
  match fuel with
  | O => s
  | S fuel' =>
      match dropSpaceRune spaceRunes s with
      | Some s' => trimLeftFuel fuel' s'
      | None => s
      end
  end.

(** [strings.TrimLeftFunc(s, unicode.IsSpace)]: every dropped rune has at
    least one byte, so the length of [s] is fuel enough. *)
Definition TrimLeft (s : string) : string := trimLeftFuel (String.length s) s.

Definition rev_string (s : string) : string :=
  string_of_list_ascii (rev (list_ascii_of_string s)).

(** [strings.TrimRightFunc(s, unicode.IsSpace)]: the last rune of [s] is a
    white-space rune exactly when [s] ends with one of the encodings
    above, that is, when the reversed string starts with a reversed
    encoding. *)
Definition TrimRight (s : string) : string :=
  rev_string
    (let r := rev_string s in
     (fix go (fuel : nat) (t : string) : string :=
        match fuel with
        | O => t
        | S fuel' =>
            match dropSpaceRune (map rev_string spaceRunes) t with
            | Some t' => go fuel' t'
            | None => t
            end
        end) (String.length r) r).

(** [strings.TrimSpace]. *)
Definition TrimSpace (s : string) : string := TrimRight (TrimLeft s).

End GoStrings.

Module GoStrconv.

(** [strconv.Quote] decides printability from the Unicode tables; it is
    only used for the text of the error of [ParseBool]. *)
Class Quoting := { Quote : string -> string }.

(** [strconv.ParseBool]: the accepted spellings, and a [*NumError] for
    every other input (the returned value is then [false]). *)
Definition ParseBool `{Quoting} (str : string) : bool * error :=
  if existsb (String.eqb str) ["1"; "t"; "T"; "TRUE"; "true"; "True"] then (true, None)
  else if existsb (String.eqb str) ["0"; "f"; "F"; "FALSE"; "false"; "False"] then (false, None)
  else (false, Some ("strconv.ParseBool: parsing " +:+ Quote str +:+ ": invalid syntax")).

End GoStrconv.

(* ------------------------------------------------------------------ *)
(** ** jfrog-cli-core and jfrog-client-go helpers *)

Module Coreutils.
Import GoStrconv.

(** [coreutils.SumTrueValues]: the number of [true] entries. *)
Fixpoint SumTrueValues (boolArr : list bool) : nat :=
  match boolArr with
  | [] => 0
  | b :: rest => (if b then 1 else 0) + SumTrueValues rest
  end.

(** [strings.Join(elems, sep)]. *)
Fixpoint Join (elems : list string) (sep : string) : string :=
  match elems with
  | [] => ""
  | [e] => e
  | e :: rest => e +:+ sep +:+ Join rest sep
  end.

(** Modelled from the spec: [coreutils.ListToText] of jfrog-cli-core is not
    under src/.  It joins the names for a reader, "aql, artifacts and
    builds": a single element is returned as it is, otherwise all but the
    last element are joined with ", " and the last one follows " and ".
    The callers in this package pass a list with at least one element; the
    empty list is mapped to the empty string here. *)
Definition ListToText (l : list string) : string :=
  match l with
  | [] => ""
  | [e] => e
  | _ => Join (removelast l) ", " +:+ " and " +:+ List.last l ""
  end.

(** [clientutils.StringToBool]: the default for the empty string, else
    [strconv.ParseBool]. *)
Definition StringToBool `{Quoting} (boolVal : string) (defaultValue : bool) : bool * error :=
  if len_pos boolVal then ParseBool boolVal else (defaultValue, None).

End Coreutils.

(* ------------------------------------------------------------------ *)
(** ** Data model *)

Module Services.

(** [type SourceType string] of the lifecycle client, with its five
    constants. *)
Definition SourceType : Type := string.

Definition Aql : SourceType := "aql".
Definition Artifacts : SourceType := "artifacts".
Definition Builds : SourceType := "builds".
Definition ReleaseBundles : SourceType := "release_bundles".
Definition Packages : SourceType := "packages".

Record BuildSource := {
  BuildRepository : string;
  BuildName : string;
  BuildNumber : string;
  IncludeDependencies : bool
}.

Record ReleaseBundleSource := {
  ProjectKey : string;
  RepositoryKey : string;
  ReleaseBundleName : string;
  ReleaseBundleVersion : string
}.

Record ArtifactSource := {
  Path : string;
  Sha256 : string
}.

Record PackageSource := {
  PackageName : string;
  PackageVersion : string;
  PackageType : string;
  PackageRepositoryKey : string
}.

(** One entry of a multi-source request: the type tag and the payload
    slice of each kind (all but one stay empty). *)
Record RbSource := {
  RbSourceType : SourceType;
  RbBuilds : list BuildSource;
  RbReleaseBundles : list ReleaseBundleSource;
  RbArtifacts : list ArtifactSource;
  RbPackages : list PackageSource;
  RbAql : string
}.

End Services.

Module Spec.

(** The fields of [spec.File] that release-bundle creation reads. *)
Record File := {
  AqlItemsFind : string;
  Build : string;
  IncludeDeps : string;
  Bundle : string;
  Project : string;
  Package : string;
  Version : string;
  Type_ : string;
  RepoKey : string;
  Pattern : string;
  Exclusions : list string;
  Props : string;
  ExcludeProps : string;
  Recursive : string;
  PathMappingInput : string;
  PathMappingOutput : string;
  Target : string;
  SortOrder : string;
  SortBy : list string;
  ExcludeArtifacts : string;
  PublicGpgKey : string;
  Offset : Z;
  Limit : Z;
  Archive : string;
  Symlinks : string;
  Regexp : string;
  Ant : string;
  Explode : string;
  BypassArchiveInspection : string;
  Transitive : string
}.

(** [SpecFiles]: [Files] is a slice, [None] being the nil slice. *)
Record SpecFiles := { Files : option (list File) }.

(** Ranging over a nil slice ranges over nothing. *)
Definition files_of (s : SpecFiles) : list File := default [] (Files s).

End Spec.

(* ------------------------------------------------------------------ *)
(** ** createcommon.go: validation of spec files *)

Module Validation.
Import GoStrconv Coreutils Services Spec.

Definition missingCreationSourcesErrMsg : string :=
  "unexpected err while validating spec - could not detect any creation sources".
Definition multipleCreationSourcesErrMsg : string :=
  "multiple creation sources were detected in separate spec files. Only a single creation source should be provided. Detected:".
Definition singleAqlErrMsg : string :=
  "only a single aql query can be provided".
Definition unsupportedCreationSourceMethod : string :=
  "creation source 'package' is not supported in current version".

Definition unsupportedFieldsErrMsg : string :=
  "unsupported fields were provided in file spec. " +:+
  "release bundle creation file spec only supports the following fields: " +:+
  "'aql', 'build', 'includeDeps', 'bundle', 'project', 'pattern', 'exclusions', 'props', 'excludeProps' and 'recursive'".
Definition exactlyOneSourceErrMsg : string :=
  "exactly one creation source should be defined per file (aql, builds, release bundles or pattern (artifacts))".
Definition unexpectedSpecErrMsg : string := "unexpected err in spec validation".

Definition aqlFieldsErrMsg : string := "aql creation source supports no other fields".
Definition buildsFieldsErrMsg : string :=
  "builds creation source only supports the 'includeDeps' and 'project' fields".
Definition bundlesFieldsErrMsg : string :=
  "release bundles creation source only supports the 'project' field".
Definition artifactsFieldsErrMsg : string :=
  "release bundles creation source only supports the 'exclusions', 'props', 'excludeProps' and 'recursive' fields".
Definition packagesFieldsErrMsg : string :=
  "release bundles creation source only supports the 'version', 'type', 'repoKey' fields".

Definition validateCreationSource (unsupportedFields : list bool) (errMsg : string) : error :=
  if (0 <? SumTrueValues unsupportedFields)%nat then Some errMsg else None.

Section WithQuoting.
Context `{Quoting}.

(** The always-rejected fields of a file group. *)
Definition hasUnsupportedFields (file : File) : bool :=
  let isPathMapping := len_pos (PathMappingInput file) || len_pos (PathMappingOutput file) in
  let isTarget := len_pos (Target file) in
  let isSortOrder := len_pos (SortOrder file) in
  let isSortBy := slice_len_pos (SortBy file) in
  let isExcludeArtifacts := fst (StringToBool (ExcludeArtifacts file) false) in
  let isGPGKey := len_pos (PublicGpgKey file) in
  let isOffset := (0 <? Offset file)%Z in
  let isLimit := (0 <? Limit file)%Z in
  let isArchive := len_pos (Archive file) in
  let isSymlinks := fst (StringToBool (Symlinks file) false) in
  let isRegexp := String.eqb (Regexp file) "true" in
  let isAnt := String.eqb (Ant file) "true" in
  let isExplode := fst (StringToBool (Explode file) false) in
  let isBypassArchiveInspection := fst (StringToBool (BypassArchiveInspection file) false) in
  let isTransitive := fst (StringToBool (Transitive file) false) in
  isPathMapping || isTarget || isSortOrder || isSortBy || isExcludeArtifacts || isGPGKey
  || isOffset || isLimit || isSymlinks || isArchive || isAnt || isRegexp || isExplode
  || isBypassArchiveInspection || isTransitive.

(** The discriminators and field tests that [validateFile] computes
    first, under the names of its local variables. *)
Definition isAql (file : File) : bool := len_pos (AqlItemsFind file).
Definition isBuild (file : File) : bool := len_pos (Build file).
Definition isIncludeDeps (file : File) : bool := fst (StringToBool (IncludeDeps file) false).
Definition isBundle (file : File) : bool := len_pos (Bundle file).
Definition isProject (file : File) : bool := len_pos (Project file).
Definition isPackage (file : File) : bool := len_pos (Package file).
Definition isPattern (file : File) : bool := len_pos (Pattern file).
Definition isExclusions (file : File) : bool :=
  match Exclusions file with
  | [] => false
  | e :: _ => len_pos e
  end.
Definition isProps (file : File) : bool := len_pos (Props file).
Definition isExcludeProps (file : File) : bool := len_pos (ExcludeProps file).

Definition validateFile (file : File) (packageAndMultiSourceSupported : bool)
  : SourceType * error :=
  match StringToBool (Recursive file) true with
  | (_, Some err) =>
      ("", Some ("invalid value provided to the 'recursive' field. error: " +:+ err))
  | (isRecursive, None) =>
      if hasUnsupportedFields file then ("", Some unsupportedFieldsErrMsg)
      else if negb packageAndMultiSourceSupported
              && negb (SumTrueValues [isAql file; isBuild file; isBundle file; isPattern file]
                       =? 1)%nat
      then ("", Some exactlyOneSourceErrMsg)
      else if isAql file then
        (Aql, validateCreationSource
                [isIncludeDeps file; isProject file; isExclusions file; isProps file;
                 isExcludeProps file; negb isRecursive]
                aqlFieldsErrMsg)
      else if isBuild file then
        (Builds, validateCreationSource
                   [isExclusions file; isProps file; isExcludeProps file; negb isRecursive]
                   buildsFieldsErrMsg)
      else if isBundle file then
        (ReleaseBundles, validateCreationSource
                           [isIncludeDeps file; isExclusions file; isProps file;
                            isExcludeProps file; negb isRecursive]
                           bundlesFieldsErrMsg)
      else if isPattern file then
        (Artifacts, validateCreationSource [isIncludeDeps file; isProject file]
                      artifactsFieldsErrMsg)
      else if isPackage file then
        (Packages, validateCreationSource
                     [isIncludeDeps file; isExclusions file; isProps file;
                      isExcludeProps file; negb isRecursive; isProject file]
                     packagesFieldsErrMsg)
      else ("", Some unexpectedSpecErrMsg)
  end.

(** Fail-fast detection over the file groups, in order; a nil slice is
    the empty list. *)
Fixpoint detectSourceTypesFromSpec (files : list File) (multiSrcAndPackageSupported : bool)
  : list SourceType * error :=
  match files with
  | [] => ([], None)
  | file :: rest =>
      match validateFile file multiSrcAndPackageSupported with
      | (_, Some err) => ([], Some err)
      | (sourceType, None) =>
          match detectSourceTypesFromSpec rest multiSrcAndPackageSupported with
          | (l, None) => (sourceType :: l, None)
          | (_, Some err) => ([], Some err)
          end
      end
  end.

End WithQuoting.

(** [generateSingleCreationSourceErr]: every detected type, in order. *)
Definition generateSingleCreationSourceErr (detectedCreationSources : list SourceType) : error :=
  Some (multipleCreationSourcesErrMsg +:+ " '" +:+ ListToText detectedCreationSources +:+ "'").

(** The loop of [validateCreationSources] from index [i] on: [first] is
    [detectedCreationSources[0]], [all] the whole slice and [aqlSrcCnt]
    the count so far.  [inl err] is an early return, [inr cnt] the
    count when the loop ends. *)
Fixpoint validateLoop (all : list SourceType) (first : SourceType)
    (multipleSourcesAndPackagesSupported : bool)
    (rest : list SourceType) (aqlSrcCnt : nat) : error + nat :=
  match rest with
  | [] => inr aqlSrcCnt
  | src :: rest' =>
      let aqlSrcCnt := if String.eqb src Aql then S aqlSrcCnt else aqlSrcCnt in
      if negb multipleSourcesAndPackagesSupported && String.eqb src Packages then
        inl (Some unsupportedCreationSourceMethod)
      else if negb multipleSourcesAndPackagesSupported && negb (String.eqb src first) then
        inl (generateSingleCreationSourceErr all)
      else validateLoop all first multipleSourcesAndPackagesSupported rest' aqlSrcCnt
  end.

Definition validateCreationSources (detectedCreationSources : list SourceType)
    (multipleSourcesAndPackagesSupported : bool) : error :=
  match detectedCreationSources with
  | [] => Some missingCreationSourcesErrMsg
  | first :: _ =>
      match validateLoop detectedCreationSources first
              multipleSourcesAndPackagesSupported detectedCreationSources 0 with
      | inl err => err
      | inr aqlSrcCnt =>
          if (1 <? aqlSrcCnt)%nat then Some singleAqlErrMsg else None
      end
  end.

(** The number of AQL entries of a detected list, for the statements
    about the single-AQL check. *)
Definition aqlOccurrences (l : list SourceType) : nat :=
  length (List.filter (fun s => String.eqb s Aql) l).

Definition validateAndIdentifyRbCreationSpec `{Quoting} (files : list File)
    (multipleSourcesAndPackageSupported : bool) : list SourceType * error :=
  match files with
  | [] => ([], Some "spec must include at least one file group")
  | _ =>
      match detectSourceTypesFromSpec files multipleSourcesAndPackageSupported with
      | (_, Some err) => ([], Some err)
      | (detectedCreationSources, None) =>
          match validateCreationSources detectedCreationSources multipleSourcesAndPackageSupported with
          | Some err => ([], Some err)
          | None => (detectedCreationSources, None)
          end
      end
  end.

End Validation.

(* ------------------------------------------------------------------ *)
(** ** Results, the warning log and the collaborators *)

(** A call that returns a value or an error; the callers modelled here
    drop the value whenever the error is not nil. *)
Inductive result (A : Type) : Type :=
| Ok (a : A)
| Err (msg : string).
Arguments Ok {A} a.
Arguments Err {A} msg.

#[global] Instance result_ret : MRet result := fun A a => Ok a.
#[global] Instance result_bind : MBind result := fun A B k r =>
  match r with
  | Ok a => k a
  | Err msg => Err msg
  end.


(** A value together with the lines that [log.Warn] received, oldest
    first. *)
Definition Logged (A : Type) : Type := A * list string.

Module Legacy.

(** The deprecated builds-spec and release-bundles-spec JSON files. *)
Record SourceBuildSpec := {
  Name : string;
  Number : string;
  Project : string;
  IncludeDependencies : bool
}.

Record CreateFromBuildsSpec := { Builds : list SourceBuildSpec }.

Record SourceReleaseBundleSpec := {
  RbName : string;
  RbVersion : string;
  RbProject : string
}.

Record CreateFromReleaseBundlesSpec := { ReleaseBundles : list SourceReleaseBundleSpec }.

End Legacy.

(** The services outside this repository that source building calls; the
    server they talk to is part of the instance. *)
Class Collaborators := {
  (** [utils.GetBuildInfoRepositoryByProject]. *)
  GetBuildInfoRepositoryByProject : string -> string;
  (** [utils.ParseNameAndVersion(identifier, false)]. *)
  ParseNameAndVersion : string -> result (string * string);
  (** [getAqlService] followed by
      [utils.GetBuildNameAndNumberFromBuildIdentifier(identifier, project, _)]. *)
  GetBuildNameAndNumberFromBuildIdentifier : string -> string -> result (string * string);
  (** [getAqlService] followed by
      [utils.GetLatestBuildNumberFromArtifactory(name, project, _)]. *)
  GetLatestBuildNumberFromArtifactory : string -> string -> result string;
  (** The artifact search over pattern file groups, its rows converted by
      [aqlResultToArtifactsSource], the clean-up error joined. *)
  SearchFilesBySpecs : list Spec.File -> result (list Services.ArtifactSource);
  (** [fileutils.ReadFile] and [json.Unmarshal] of the legacy files. *)
  ReadBuildsSpec : string -> result Legacy.CreateFromBuildsSpec;
  ReadReleaseBundlesSpec : string -> result Legacy.CreateFromReleaseBundlesSpec
}.

(* ------------------------------------------------------------------ *)
(** ** createcommon.go: building sources *)

Module Commands.
Import GoStrings GoStrconv Coreutils Services Spec Validation.

Definition SourceTypeSet : Type := gmap string bool.

(** [m[k]] on a Go map: the zero value for a missing key. *)
Definition index (m : gmap string string) (k : string) : string := default "" (m !! k).
Definition handled (m : SourceTypeSet) (k : string) : bool := default false (m !! k).

Record ReleaseBundleCreateCommand := {
  rbProjectKey : string;
  spec : option SpecFiles;
  buildsSpecPath : string;
  releaseBundlesSpecPath : string;
  sourcesBuilds : string;
  sourcesReleaseBundles : string
}.

(** [rbc.spec.Files]; the paths modelled below read it after the nil
    check of [multiSourcesDefinedFromSpec]. *)
Definition specFiles (s : option SpecFiles) : list File :=
  match s with
  | Some s => files_of s
  | None => []
  end.

(** *** updateReleaseBundleRepoKeyWithProject *)

(** The body of the inner loop at [rb := &sources[i].ReleaseBundles[j]]. *)
Definition setRepositoryKey (rb : ReleaseBundleSource) : ReleaseBundleSource :=
  if negb (String.eqb (ProjectKey rb) "") then
    {| ProjectKey := ProjectKey rb;
       RepositoryKey := ProjectKey rb +:+ "-release-bundles-v2";
       ReleaseBundleName := ReleaseBundleName rb;
       ReleaseBundleVersion := ReleaseBundleVersion rb |}
  else rb.

(** [for j := range bundles]: the slice is updated in place, index by
    index. *)
Definition rewriteBundles (bundles : list ReleaseBundleSource) : list ReleaseBundleSource :=
  foldl (fun acc j => alter setRepositoryKey j acc) bundles (seq 0 (length bundles)).

Definition withReleaseBundles (s : RbSource) (bundles : list ReleaseBundleSource) : RbSource :=
  {| RbSourceType := RbSourceType s;
     RbBuilds := RbBuilds s;
     RbReleaseBundles := bundles;
     RbArtifacts := RbArtifacts s;
     RbPackages := RbPackages s;
     RbAql := RbAql s |}.

(** The Go function rewrites the slice it is given; the result here is
    that slice after the call, which is what [Run] sends on. *)
Definition updateReleaseBundleRepoKeyWithProject (sources : list RbSource) : list RbSource :=
  match sources with
  | [] => sources
  | first :: _ =>
      if negb (String.eqb (RbSourceType first) "release_bundles") then sources
      else
        foldl (fun acc i =>
                 alter (fun s => withReleaseBundles s (rewriteBundles (RbReleaseBundles s))) i acc)
              sources (seq 0 (length sources))
  end.

(** *** Sources from the command-line flags *)

Definition formatWarning : string := "Inappropriate format, it should be k=v".

(** One iteration of the loop of [parseKeyValueString]. *)
Definition parsePair (acc : Logged (gmap string string)) (pair : string)
  : Logged (gmap string string) :=
  match SplitN2 pair "="%char with
  | [k; v] => (<[TrimSpace k := TrimSpace v]> (fst acc), snd acc)
  | _ => (fst acc, snd acc ++ [formatWarning])
  end.

Definition parseKeyValueString (input : string) : Logged (gmap string string) :=
  foldl parsePair (∅, []) (Split input ","%char).

Section WithCollaborators.
Context `{Quoting} `{Collaborators}.

Definition buildsEntry (projectKey : string) (acc : Logged (list BuildSource)) (entry : string)
  : Logged (list BuildSource) :=
  let '(buildInfoMap, warnings) := parseKeyValueString entry in
  let includeDepStr := index buildInfoMap "include-deps" in
  let includeDep := fst (ParseBool includeDepStr) in
  (fst acc ++ [ {| BuildRepository := GetBuildInfoRepositoryByProject projectKey;
                   BuildName := index buildInfoMap "name";
                   BuildNumber := index buildInfoMap "id";
                   IncludeDependencies := includeDep |} ],
   snd acc ++ warnings).

Definition buildRbBuildsSources (sourcesStr projectKey : string) (sources : list RbSource)
  : Logged (list RbSource) :=
  let '(buildSources, warnings) :=
    foldl (buildsEntry projectKey) ([], []) (Split sourcesStr ";"%char) in
  (if slice_len_pos buildSources then
     sources ++ [ {| RbSourceType := "builds"; RbBuilds := buildSources;
                     RbReleaseBundles := []; RbArtifacts := []; RbPackages := [];
                     RbAql := "" |} ]
   else sources,
   warnings).

Definition bundlesEntry (projectKey : string) (acc : Logged (list ReleaseBundleSource))
    (entry : string) : Logged (list ReleaseBundleSource) :=
  let '(buildInfoMap, warnings) := parseKeyValueString entry in
  (fst acc ++ [ {| ProjectKey := projectKey;
                   RepositoryKey := "";
                   ReleaseBundleName := index buildInfoMap "name";
                   ReleaseBundleVersion := index buildInfoMap "version" |} ],
   snd acc ++ warnings).

Definition buildRbReleaseBundlesSources (sourcesStr projectKey : string)
    (sources : list RbSource) : Logged (list RbSource) :=
  let '(releaseBundleSources, warnings) :=
    foldl (bundlesEntry projectKey) ([], []) (Split sourcesStr ";"%char) in
  (if slice_len_pos releaseBundleSources then
     sources ++ [ {| RbSourceType := "release_bundles"; RbBuilds := [];
                     RbReleaseBundles := releaseBundleSources; RbArtifacts := [];
                     RbPackages := []; RbAql := "" |} ]
   else sources,
   warnings).

Definition buildReleaseBundleSourcesParams (rbc : ReleaseBundleCreateCommand)
  : Logged (list RbSource) :=
  let '(sources, w1) :=
    if negb (String.eqb (sourcesBuilds rbc) "") then
      buildRbBuildsSources (sourcesBuilds rbc) (rbProjectKey rbc) []
    else ([], []) in
  let '(sources, w2) :=
    if negb (String.eqb (sourcesReleaseBundles rbc) "") then
      buildRbReleaseBundlesSources (sourcesReleaseBundles rbc) (rbProjectKey rbc) sources
    else (sources, []) in
  (sources, w1 ++ w2).


(** *** Sources from the spec file and the legacy files *)

Fixpoint convertSpecToReleaseBundlesSource (files : list File)
  : result (list ReleaseBundleSource) :=
  match files with
  | [] => Ok []
  | file :: rest =>
      if String.eqb (Bundle file) "" then convertSpecToReleaseBundlesSource rest
      else
        nv ← ParseNameAndVersion (Bundle file);
        let '(bundleName, bundleVersion) := nv in
        if String.eqb bundleName "" || String.eqb bundleVersion "" then
          Err ("invalid release bundle source was provided. Both name and version are mandatory. Provided name: '"
               +:+ bundleName +:+ "', version: '" +:+ bundleVersion +:+ "'")
        else
          more ← convertSpecToReleaseBundlesSource rest;
          Ok ({| ProjectKey := Spec.Project file;
                 RepositoryKey := "";
                 ReleaseBundleName := bundleName;
                 ReleaseBundleVersion := bundleVersion |} :: more)
  end.

Definition getBuildDetailsFromIdentifier (buildIdentifier project : string)
  : result (string * string) :=
  nn ← GetBuildNameAndNumberFromBuildIdentifier buildIdentifier project;
  let '(buildName, buildNumber) := nn in
  if String.eqb buildName "" || String.eqb buildNumber "" then
    Err ("could not identify a build info by the '" +:+ buildIdentifier
         +:+ "' identifier in artifactory")
  else Ok (buildName, buildNumber).

Fixpoint convertSpecToBuildsSource (files : list File) : result (list BuildSource) :=
  match files with
  | [] => Ok []
  | file :: rest =>
      if String.eqb (Spec.Build file) "" then convertSpecToBuildsSource rest
      else
        nn ← getBuildDetailsFromIdentifier (Spec.Build file) (Spec.Project file);
        let '(buildName, buildNumber) := nn in
        match StringToBool (IncludeDeps file) false with
        | (_, Some err) => Err err
        | (isIncludeDeps, None) =>
            more ← convertSpecToBuildsSource rest;
            Ok ({| BuildRepository := GetBuildInfoRepositoryByProject (Spec.Project file);
                   BuildName := buildName;
                   BuildNumber := buildNumber;
                   IncludeDependencies := isIncludeDeps |} :: more)
        end
  end.

Definition convertToReleaseBundlesSource (bundles : Legacy.CreateFromReleaseBundlesSpec)
  : list ReleaseBundleSource :=
  map (fun rb => {| ProjectKey := Legacy.RbProject rb;
                    RepositoryKey := "";
                    ReleaseBundleName := Legacy.RbName rb;
                    ReleaseBundleVersion := Legacy.RbVersion rb |})
      (Legacy.ReleaseBundles bundles).

Definition getReleaseBundlesSourceFromBundlesSpec (rbc : ReleaseBundleCreateCommand)
  : result (list ReleaseBundleSource) :=
  releaseBundles ← ReadReleaseBundlesSpec (releaseBundlesSpecPath rbc);
  Ok (convertToReleaseBundlesSource releaseBundles).

Definition createReleaseBundleSourceFromSpec (rbc : ReleaseBundleCreateCommand)
  : result (list ReleaseBundleSource) :=
  if negb (String.eqb (releaseBundlesSpecPath rbc) "") then
    getReleaseBundlesSourceFromBundlesSpec rbc
  else convertSpecToReleaseBundlesSource (specFiles (spec rbc)).

Definition getLatestBuildNumberIfEmpty (buildName buildNumber project : string)
  : result string :=
  if negb (String.eqb buildNumber "") then Ok buildNumber
  else
    buildNumber ← GetLatestBuildNumberFromArtifactory buildName project;
    if String.eqb buildNumber "" then
      Err ("could not find a build info with name '" +:+ buildName +:+ "' in artifactory")
    else Ok buildNumber.

Fixpoint convertBuildsSpecToBuildsSource (builds : list Legacy.SourceBuildSpec)
  : result (list BuildSource) :=
  match builds with
  | [] => Ok []
  | build :: rest =>
      buildNumber ← getLatestBuildNumberIfEmpty (Legacy.Name build) (Legacy.Number build)
                      (Legacy.Project build);
      more ← convertBuildsSpecToBuildsSource rest;
      Ok ({| BuildRepository := GetBuildInfoRepositoryByProject (Legacy.Project build);
             BuildName := Legacy.Name build;
             BuildNumber := buildNumber;
             IncludeDependencies := Legacy.IncludeDependencies build |} :: more)
  end.

Definition getBuildSourceFromBuildsSpec (rbc : ReleaseBundleCreateCommand)
  : result (list BuildSource) :=
  builds ← ReadBuildsSpec (buildsSpecPath rbc);
  convertBuildsSpecToBuildsSource (Legacy.Builds builds).

Definition createBuildSourceFromSpec (rbc : ReleaseBundleCreateCommand)
  : result (list BuildSource) :=
  if negb (String.eqb (buildsSpecPath rbc) "") then getBuildSourceFromBuildsSpec rbc
  else convertSpecToBuildsSource (specFiles (spec rbc)).

Definition getArtifactFilesFromSpec (files : list File) : list File :=
  filter (fun file => negb (String.eqb (Pattern file) "")) files.

Definition createArtifactSourceFromSpec (files : list File) : result (list ArtifactSource) :=
  SearchFilesBySpecs (getArtifactFilesFromSpec files).

Definition createPackageSourceFromSpec (files : list File) : list PackageSource :=
  map (fun file => {| PackageName := Package file;
                      PackageVersion := Version file;
                      PackageType := Type_ file;
                      PackageRepositoryKey := RepoKey file |})
      (filter (fun file => negb (String.eqb (Package file) "")) files).

Fixpoint createAqlQueryFromSpec (files : list File) : string :=
  match files with
  | [] => ""
  | file :: rest =>
      if len_pos (AqlItemsFind file) then "items.find(" +:+ AqlItemsFind file +:+ ")"
      else createAqlQueryFromSpec rest
  end.

Definition mkSource (t : SourceType) (builds : list BuildSource)
    (bundles : list ReleaseBundleSource) (artifacts : list ArtifactSource)
    (packages : list PackageSource) (aql : string) : RbSource :=
  {| RbSourceType := t; RbBuilds := builds; RbReleaseBundles := bundles;
     RbArtifacts := artifacts; RbPackages := packages; RbAql := aql |}.

Definition appendReleaseBundlesSource (rbc : ReleaseBundleCreateCommand)
    (sources : list RbSource) : result (list RbSource) :=
  releaseBundleSources ← createReleaseBundleSourceFromSpec rbc;
  Ok (if slice_len_pos releaseBundleSources then
        sources ++ [mkSource ReleaseBundles [] releaseBundleSources [] [] ""]
      else sources).

Definition appendBuildsSource (rbc : ReleaseBundleCreateCommand)
    (sources : list RbSource) : result (list RbSource) :=
  buildsSource ← createBuildSourceFromSpec rbc;
  Ok (if slice_len_pos buildsSource then
        sources ++ [mkSource Services.Builds buildsSource [] [] [] ""]
      else sources).

Definition appendArtifactsSource (rbc : ReleaseBundleCreateCommand)
    (sources : list RbSource) : result (list RbSource) :=
  artifactsSource ← createArtifactSourceFromSpec (specFiles (spec rbc));
  Ok (if slice_len_pos artifactsSource then
        sources ++ [mkSource Artifacts [] [] artifactsSource [] ""]
      else sources).

Definition appendPackagesSource (rbc : ReleaseBundleCreateCommand)
    (sources : list RbSource) : list RbSource :=
  let packagesSource := createPackageSourceFromSpec (specFiles (spec rbc)) in
  if slice_len_pos packagesSource then
    sources ++ [mkSource Packages [] [] [] packagesSource ""]
  else sources.

Definition appendAqlSource (rbc : ReleaseBundleCreateCommand)
    (sources : list RbSource) : list RbSource :=
  sources ++ [mkSource Aql [] [] [] [] (createAqlQueryFromSpec (specFiles (spec rbc)))].

(** The loop of [buildReleaseBundleSourcesParamsFromSpec]: each source
    type is handled at its first occurrence only. *)
Fixpoint fromSpecLoop (rbc : ReleaseBundleCreateCommand) (detectedSources : list SourceType)
    (handledSources : SourceTypeSet) (sources : list RbSource) : result (list RbSource) :=
  match detectedSources with
  | [] => Ok sources
  | sourceType :: rest =>
      if handled handledSources sourceType then fromSpecLoop rbc rest handledSources sources
      else
        let handledSources := <[sourceType := true]> handledSources in
        if String.eqb sourceType ReleaseBundles then
          sources ← appendReleaseBundlesSource rbc sources;
          fromSpecLoop rbc rest handledSources sources
        else if String.eqb sourceType Services.Builds then
          sources ← appendBuildsSource rbc sources;
          fromSpecLoop rbc rest handledSources sources
        else if String.eqb sourceType Artifacts then
          sources ← appendArtifactsSource rbc sources;
          fromSpecLoop rbc rest handledSources sources
        else if String.eqb sourceType Packages then
          fromSpecLoop rbc rest handledSources (appendPackagesSource rbc sources)
        else if String.eqb sourceType Aql then
          fromSpecLoop rbc rest handledSources (appendAqlSource rbc sources)
        else Err ("unexpected source type: " +:+ sourceType)
  end.

Definition buildReleaseBundleSourcesParamsFromSpec (rbc : ReleaseBundleCreateCommand)
    (detectedSources : list SourceType) : result (list RbSource) :=
  fromSpecLoop rbc detectedSources ∅ [].

Definition atLeastASingleMultiSourceRBDefinedFromCommand (rbc : ReleaseBundleCreateCommand)
  : bool :=
  negb (String.eqb (sourcesReleaseBundles rbc) "") || negb (String.eqb (sourcesBuilds rbc) "").

Definition multiSourcesDefinedFromSpec (rbc : ReleaseBundleCreateCommand)
  : result (list SourceType) :=
  match spec rbc with
  | Some {| Files := Some files |} =>
      match detectSourceTypesFromSpec files true with
      | (_, Some err) => Err err
      | (detectedCreationSources, None) =>
          match validateCreationSources detectedCreationSources true with
          | Some err => Err err
          | None => Ok detectedCreationSources
          end
      end
  | _ => Err "no spec file input"
  end.

Definition getMultipleSourcesIfDefined (rbc : ReleaseBundleCreateCommand)
  : Logged (result (list RbSource)) :=
  if atLeastASingleMultiSourceRBDefinedFromCommand rbc then
    let '(sources, warnings) := buildReleaseBundleSourcesParams rbc in
    (Ok sources, warnings)
  else
    (detectedCreationSources ← multiSourcesDefinedFromSpec rbc;
     buildReleaseBundleSourcesParamsFromSpec rbc detectedCreationSources,
     []).

End WithCollaborators.

End Commands.

(* ------------------------------------------------------------------ *)
(** ** The update command *)

Module Update.
Import GoStrings GoStrconv Coreutils Services Spec Validation Commands.

Record ReleaseBundleUpdateCommand := {
  rbProjectKey : string;
  spec : option SpecFiles;
  sourcesBuilds : string;
  sourcesReleaseBundles : string
}.

Section WithCollaborators.
Context `{Quoting} `{Collaborators}.

Definition buildSourcesFromCommandFlags (rbu : ReleaseBundleUpdateCommand)
  : Logged (list RbSource) :=
  let '(sources, w1) :=
    if negb (String.eqb (sourcesBuilds rbu) "") then
      buildRbBuildsSources (sourcesBuilds rbu) (rbProjectKey rbu) []
    else ([], []) in
  let '(sources, w2) :=
    if negb (String.eqb (sourcesReleaseBundles rbu) "") then
      buildRbReleaseBundlesSources (sourcesReleaseBundles rbu) (rbProjectKey rbu) sources
    else (sources, []) in
  (sources, w1 ++ w2).

(** The loop of [convertSpecToSources]; the update command builds
    release bundles, builds and artifacts only. *)
Fixpoint convertLoop (files : list File) (detectedSources : list SourceType)
    (handledSources : SourceTypeSet) (sources : list RbSource) : result (list RbSource) :=
  match detectedSources with
  | [] => Ok sources
  | sourceType :: rest =>
      if handled handledSources sourceType then convertLoop files rest handledSources sources
      else
        let handledSources := <[sourceType := true]> handledSources in
        if String.eqb sourceType ReleaseBundles then
          rbSources ← convertSpecToReleaseBundlesSource files;
          convertLoop files rest handledSources
            (if slice_len_pos rbSources then
               sources ++ [mkSource ReleaseBundles [] rbSources [] [] ""]
             else sources)
        else if String.eqb sourceType Services.Builds then
          buildSources ← convertSpecToBuildsSource files;
          convertLoop files rest handledSources
            (if slice_len_pos buildSources then
               sources ++ [mkSource Services.Builds buildSources [] [] [] ""]
             else sources)
        else if String.eqb sourceType Artifacts then
          artifactSources ← createArtifactSourceFromSpec files;
          convertLoop files rest handledSources
            (if slice_len_pos artifactSources then
               sources ++ [mkSource Artifacts [] [] artifactSources [] ""]
             else sources)
        else Err ("unexpected source type: " +:+ sourceType)
  end.

Definition convertSpecToSources (files : list File) (detectedSources : list SourceType)
  : result (list RbSource) :=
  convertLoop files detectedSources ∅ [].

Definition buildSourcesFromSpec (files : list File) : result (list RbSource) :=
  match detectSourceTypesFromSpec files true with
  | (_, Some err) => Err err
  | (detectedSources, None) =>
      match validateCreationSources detectedSources true with
      | Some err => Err err
      | None => convertSpecToSources files detectedSources
      end
  end.

Definition getAddSources (rbu : ReleaseBundleUpdateCommand)
  : Logged (result (list RbSource)) :=
  if negb (String.eqb (sourcesBuilds rbu) "")
     || negb (String.eqb (sourcesReleaseBundles rbu) "") then
    let '(sources, warnings) := buildSourcesFromCommandFlags rbu in
    (Ok sources, warnings)
  else
    match spec rbu with
    | Some {| Files := Some files |} => (buildSourcesFromSpec files, [])
    | _ => (Err "no spec file or source flags provided", [])
    end.

End WithCollaborators.

End Update.

(* ------------------------------------------------------------------ *)
(** ** lifecycle/cli.go: the creation spec of the create command *)

Module Cli.
Import Spec.

(** [components.Context] of the plugin framework: the flags that were
    given on the command line, with their values. *)
Record Context := {
  stringFlags : gmap string string;
  boolFlags : gmap string bool
}.

Definition IsFlagSet (c : Context) (flagName : string) : bool :=
  match stringFlags c !! flagName with
  | Some _ => true
  | None => match boolFlags c !! flagName with
            | Some _ => true
            | None => false
            end
  end.

Definition GetStringFlagValue (c : Context) (flagName : string) : string :=
  default "" (stringFlags c !! flagName).

(** The names that cliutils/flagkit gives to the flags; the package is
    not under src/. *)
Class Flagkit := {
  Builds : string;
  ReleaseBundles : string;
  SourceTypeReleaseBundles : string;
  SourceTypeBuilds : string;
  BuildName : string;
  BuildNumber : string
}.

(** The helpers of jfrog-cli-core that read and build spec files. *)
Class SpecReader := {
  (** [commonCliUtils.GetSpec(c, true, false)]. *)
  GetSpec : Context -> result SpecFiles;
  (** [speccore.CreateSpecFromBuildNameNumberAndProject]. *)
  CreateSpecFromBuildNameNumberAndProject : string -> string -> string -> result SpecFiles;
  (** [pluginsCommon.GetProject]. *)
  GetProject : Context -> string
}.

(** The process environment read by [os.Getenv]: unset variables read as
    the empty string. *)
Definition Env : Type := gmap string string.

Definition Getenv (env : Env) (name : string) : string := default "" (env !! name).

(** [coreutils.BuildName] and [coreutils.BuildNumber]. *)
Definition envBuildName : string := "JFROG_CLI_BUILD_NAME".
Definition envBuildNumber : string := "JFROG_CLI_BUILD_NUMBER".

Definition missingSpecErrMsg : string :=
  "either the --spec flag must be provided, " +:+
  "or both --build-name and --build-number flags (or their corresponding environment variables " +:+
  "JFROG_CLI_BUILD_NAME and JFROG_CLI_BUILD_NUMBER) must be set".

Section WithFramework.
Context `{Flagkit} `{SpecReader}.

Definition getStringFlagOrEnv (env : Env) (c : Context) (flag envVar : string) : string :=
  if IsFlagSet c flag then GetStringFlagValue c flag else Getenv env envVar.

(** [(nil, nil)] is [Ok None]. *)
Definition getReleaseBundleCreationSpec (env : Env) (c : Context)
  : result (option SpecFiles) :=
  if IsFlagSet c Builds || IsFlagSet c ReleaseBundles then Ok None
  else if IsFlagSet c SourceTypeReleaseBundles || IsFlagSet c SourceTypeBuilds then Ok None
  else if IsFlagSet c "spec" then
    s ← GetSpec c; Ok (Some s)
  else
    let buildName := getStringFlagOrEnv env c BuildName envBuildName in
    let buildNumber := getStringFlagOrEnv env c BuildNumber envBuildNumber in
    if negb (String.eqb buildName "") && negb (String.eqb buildNumber "") then
      s ← CreateSpecFromBuildNameNumberAndProject buildName buildNumber (GetProject c);
      Ok (Some s)
    else Err missingSpecErrMsg.

End WithFramework.

End Cli.

(* ------------------------------------------------------------------ *)
(** ** Concrete inputs and collaborators used in the examples *)

Module Fixtures.
Import GoStrconv Services Spec Commands Cli.

(** Quoting of a string that needs no escape. *)
Definition plainQuote : Quoting :=
  {| Quote := fun s => String (ascii_of_nat 34) (s +:+ String (ascii_of_nat 34) "") |}.

(** A run without a reachable server: the pure helper answers, every
    remote call fails. *)
Definition offline : Collaborators := {|
  GetBuildInfoRepositoryByProject := fun projectKey =>
    (if String.eqb projectKey "" || String.eqb projectKey "default" then "artifactory"
     else projectKey) +:+ "-build-info";
  ParseNameAndVersion := fun _ => Err "offline";
  GetBuildNameAndNumberFromBuildIdentifier := fun _ _ => Err "offline";
  GetLatestBuildNumberFromArtifactory := fun _ _ => Err "offline";
  SearchFilesBySpecs := fun _ => Err "offline";
  ReadBuildsSpec := fun _ => Err "offline";
  ReadReleaseBundlesSpec := fun _ => Err "offline"
|}.

(** A file group with the fields that release-bundle creation supports;
    every other field has its zero value. *)
Definition fileGroup (aql build includeDeps bundle project package version pattern : string)
    (exclusions : list string) (props excludeProps recursive : string) : File := {|
  AqlItemsFind := aql; Spec.Build := build; IncludeDeps := includeDeps; Bundle := bundle;
  Project := project; Package := package; Version := version; Type_ := ""; RepoKey := "";
  Pattern := pattern; Exclusions := exclusions; Props := props; ExcludeProps := excludeProps;
  Recursive := recursive; PathMappingInput := ""; PathMappingOutput := "";
  Target := ""; SortOrder := ""; SortBy := []; ExcludeArtifacts := "";
  PublicGpgKey := ""; Offset := 0; Limit := 0; Archive := "";
  Symlinks := ""; Regexp := ""; Ant := ""; Explode := "";
  BypassArchiveInspection := ""; Transitive := "" |}.

(** [spec.File{Aql: utils.Aql{ItemsFind: "abc"}, Props: "prop"}]. *)
Definition aqlWithProps : File := fileGroup "abc" "" "" "" "" "" "" "" [] "prop" "" "".

(** [spec.File{Aql: utils.Aql{ItemsFind: "abc"}}]. *)
Definition aqlOnly : File := fileGroup "abc" "" "" "" "" "" "" "" [] "" "" "".

(** [spec.File{Build: "name/number", IncludeDeps: "true", Project: "project"}]. *)
Definition buildGroup : File :=
  fileGroup "" "name/number" "true" "" "project" "" "" "" [] "" "" "".

(** [spec.File{Bundle: "name/number", Project: "project"}]. *)
Definition bundleGroup : File := fileGroup "" "" "" "name/number" "project" "" "" "" [] "" "" "".

(** [spec.File{Pattern: "repo/path/file", Exclusions: []string{"exclude"},
    Props: "prop", ExcludeProps: "exclude prop", Recursive: "false"}]. *)
Definition artifactsGroup : File :=
  fileGroup "" "" "" "" "" "" "" "repo/path/file" ["exclude"] "prop" "exclude prop" "false".

(** [spec.File{Package: "abc", Version: "ver"}]. *)
Definition packageOnly : File := fileGroup "" "" "" "" "" "abc" "ver" "" [] "" "" "".

(** [spec.File{Aql: ..., Build: "name/number", Bundle: "name/number",
    Pattern: "repo/path/file"}]. *)
Definition fourSources : File :=
  fileGroup "abc" "name/number" "" "name/number" "" "" "" "repo/path/file" [] "" "" "".

(** [spec.File{PathMapping: utils.PathMapping{Input: "input"}, Target: "target"}]. *)
Definition pathMappingGroup : File := {|
  AqlItemsFind := ""; Spec.Build := ""; IncludeDeps := ""; Bundle := "";
  Project := ""; Package := ""; Version := ""; Type_ := ""; RepoKey := "";
  Pattern := ""; Exclusions := []; Props := ""; ExcludeProps := "";
  Recursive := ""; PathMappingInput := "input"; PathMappingOutput := "";
  Target := "target"; SortOrder := ""; SortBy := []; ExcludeArtifacts := "";
  PublicGpgKey := ""; Offset := 0; Limit := 0; Archive := "";
  Symlinks := ""; Regexp := ""; Ant := ""; Explode := "";
  BypassArchiveInspection := ""; Transitive := "" |}.

(** The flag names of the command line. *)
Definition flagNames : Flagkit := {|
  Builds := "builds";
  ReleaseBundles := "release-bundles";
  SourceTypeReleaseBundles := "source-type-release-bundles";
  SourceTypeBuilds := "source-type-builds";
  BuildName := "build-name";
  BuildNumber := "build-number"
|}.

(** A reader that finds no spec file and builds the one-group spec
    [{Build: name/number, Project: project}] for a build. *)
Definition noSpecFile : SpecReader := {|
  GetSpec := fun _ => Err "spec file not found";
  CreateSpecFromBuildNameNumberAndProject := fun buildName buildNumber project =>
    Ok {| Files := Some [ fileGroup "" (buildName +:+ "/" +:+ buildNumber) "" "" project
                            "" "" "" [] "" "" "" ] |};
  GetProject := fun c => GetStringFlagValue c "project"
|}.

(** A mixed list whose release-bundles entry is not the first one. *)
Definition mixedBuildsFirst : list RbSource :=
  [ mkSource "builds" [ {| BuildRepository := "artifactory-build-info";
                           Services.BuildName := "test-build"; Services.BuildNumber := "1";
                           IncludeDependencies := false |} ] [] [] [] "";
    mkSource "release_bundles" []
      [ {| ProjectKey := "myproject"; RepositoryKey := "";
           ReleaseBundleName := "bundle1"; ReleaseBundleVersion := "1.0.0" |} ] [] [] "" ].

(** A list that starts with a release-bundles entry. *)
Definition bundlesFirst : list RbSource :=
  [ mkSource "release_bundles" []
      [ {| ProjectKey := "project1"; RepositoryKey := "";
           ReleaseBundleName := "bundle1"; ReleaseBundleVersion := "1.0.0" |};
        {| ProjectKey := ""; RepositoryKey := "existing-repo";
           ReleaseBundleName := "bundle2"; ReleaseBundleVersion := "2.0.0" |} ] [] [] "";
    mkSource "builds" [ {| BuildRepository := "artifactory-build-info";
                           Services.BuildName := "test-build"; Services.BuildNumber := "1";
                           IncludeDependencies := false |} ] [] [] [] "" ].

(** A create command with both source flags and a spec file. *)
Definition createWithFlags (s : option SpecFiles) : ReleaseBundleCreateCommand := {|
  Commands.rbProjectKey := "my-project";
  Commands.spec := s;
  buildsSpecPath := "";
  releaseBundlesSpecPath := "";
  Commands.sourcesBuilds := "name=build1,id=123";
  Commands.sourcesReleaseBundles := "name=rb1,version=1.0"
|}.

(** An update command with the builds flag only. *)
Definition updateWithBuilds (s : option SpecFiles) : Update.ReleaseBundleUpdateCommand := {|
  Update.rbProjectKey := "";
  Update.spec := s;
  Update.sourcesBuilds := "name=b1,id=5";
  Update.sourcesReleaseBundles := ""
|}.

(** An update command with both source flags. *)
Definition updateWithFlags : Update.ReleaseBundleUpdateCommand := {|
  Update.rbProjectKey := "my-project";
  Update.spec := None;
  Update.sourcesBuilds := "name=build1,id=123";
  Update.sourcesReleaseBundles := "name=rb1,version=1.0"
|}.

(** Commands without source flags. *)
Definition createWithoutFlags (s : option SpecFiles) : ReleaseBundleCreateCommand := {|
  Commands.rbProjectKey := "";
  Commands.spec := s;
  buildsSpecPath := "";
  releaseBundlesSpecPath := "";
  Commands.sourcesBuilds := "";
  Commands.sourcesReleaseBundles := ""
|}.


End Fixtures.

(* ------------------------------------------------------------------ *)
(** ** common.go: repository keys, manifest paths, distribution rules *)

Module Common.

Definition rbV2manifestName : string := "release-bundle.json.evd".
Definition releaseBundlesV2 : string := "release-bundles-v2".
Definition minimalLifecycleArtifactoryVersion : string := "7.63.2".
Definition minArtifactoryVersionForMultiSourceAndPackagesSupport : string := "7.114.0".

Definition buildRepoKey (project : string) : string :=
  if String.eqb project "" || String.eqb project "default" then releaseBundlesV2
  else project +:+ "-" +:+ releaseBundlesV2.

Definition buildManifestPath (projectKey name version : string) : string :=
  buildRepoKey projectKey +:+ "/" +:+ name +:+ "/" +:+ version +:+ "/" +:+ rbV2manifestName.

(** [distribution.DistributionCommonParams]. *)
Record DistributionCommonParams := {
  SiteName : string;
  CityName : string;
  CountryCodes : list string
}.

(** The rules of a distribution spec: the rule type and its two methods
    belong to jfrog-cli-core. *)
Class DistributionRule := {
  Rule : Type;
  IsEmpty : Rule -> bool;
  ToDistributionCommonParams : Rule -> DistributionCommonParams
}.

Section WithRules.
Context `{DistributionRule}.



End WithRules.

End Common.

(* ------------------------------------------------------------------ *)
(** ** The create command: identification of the source and dispatch *)

Module Create.
Import GoStrings GoStrconv Coreutils Services Spec Validation Commands Common.

(** The version probe and the service handle of a run. *)
Class Platform := {
  (** [validateArtifactoryVersion(serverDetails, minVersion)]. *)
  validateArtifactoryVersion : string -> error;
  (** [utils.CreateLifecycleServiceManager], the only failure of
      [getPrerequisites]. *)
  CreateLifecycleServiceManager : error
}.

(** The source payload of the call that [Run] makes on the lifecycle
    service. *)
Inductive CreationRequest : Type :=
| FromAql (aql : string)
| FromArtifacts (artifacts : list ArtifactSource)
| FromBuilds (builds : list BuildSource)
| FromReleaseBundles (bundles : list ReleaseBundleSource)
| FromPackages (packages : list PackageSource)
| FromMultipleSources (sources : list RbSource).

(** The call that [Run] makes on the lifecycle service: the project key
    that [initPrerequisites] puts into the query parameters
    ([queryParams.ProjectKey]) and the source payload. Bundle name and
    version, the async parameter, signing key and draft flag come from fields
    that the command record here does not carry and are handed on as they
    are. *)
Record ServiceCall := {
  callProjectKey : string;
  callRequest : CreationRequest
}.

(** A single-source payload together with the query parameters that
    [Run] passes to each createFrom function. *)
Definition withQueryParams (rbc : ReleaseBundleCreateCommand) (r : result CreationRequest)
  : result ServiceCall :=
  match r with
  | Ok request => Ok {| callProjectKey := rbProjectKey rbc; callRequest := request |}
  | Err err => Err err
  end.

(** [isSingleSourceType]: [None] is the index panic on an empty slice. *)
Definition isSingleSourceType (sourceTypes : list SourceType) : option bool :=
  match sourceTypes with
  | [] => None
  | [_] => Some true
  | first :: rest => Some (forallb (fun t => String.eqb t first) rest)
  end.

(** [convertProjectKeyToRepositoryKey] of createfrombundles.go: a fresh
    slice, bundle by bundle. *)
Definition convertProjectKeyToRepositoryKey (rbSources : list ReleaseBundleSource)
  : list ReleaseBundleSource :=
  foldl (fun acc rb =>
           acc ++ [ if negb (String.eqb (ProjectKey rb) "") then
                      {| ProjectKey := ProjectKey rb;
                         RepositoryKey := ProjectKey rb +:+ "-release-bundles-v2";
                         ReleaseBundleName := ReleaseBundleName rb;
                         ReleaseBundleVersion := ReleaseBundleVersion rb |}
                    else rb ])
        [] rbSources.

Section WithCollaborators.
Context `{Quoting} `{Collaborators} `{Platform}.

Definition validateArtifactoryVersionSupported : error :=
  validateArtifactoryVersion minimalLifecycleArtifactoryVersion.

Definition ValidateFeatureSupportedVersion (minCommandVersion : string) : error :=
  validateArtifactoryVersion minCommandVersion.

(** The legacy paths are recorded first, and dropped when a spec is
    given. *)
Definition identifySourceTypeBySpecOrByLegacyCommands (rbc : ReleaseBundleCreateCommand)
    (multipleSourcesAndPackagesSupported : bool) : list SourceType * error :=
  let sourceTypes :=
    if negb (String.eqb (buildsSpecPath rbc) "") then [Services.Builds] else [] in
  let sourceTypes :=
    if negb (String.eqb (releaseBundlesSpecPath rbc) "") then
      sourceTypes ++ [Services.ReleaseBundles]
    else sourceTypes in
  match spec rbc with
  | Some s => validateAndIdentifyRbCreationSpec (files_of s) multipleSourcesAndPackagesSupported
  | None => (sourceTypes, None)
  end.

Definition createFromAql (rbc : ReleaseBundleCreateCommand) : result CreationRequest :=
  Ok (FromAql (createAqlQueryFromSpec (specFiles (spec rbc)))).

Definition createFromArtifacts (rbc : ReleaseBundleCreateCommand) : result CreationRequest :=
  artifactsSource ← createArtifactSourceFromSpec (specFiles (spec rbc));
  Ok (FromArtifacts artifactsSource).

Definition createFromBuilds (rbc : ReleaseBundleCreateCommand) : result CreationRequest :=
  buildsSource ← createBuildSourceFromSpec rbc;
  if (length buildsSource =? 0)%nat then
    Err "at least one build is expected in order to create a release bundle from builds"
  else Ok (FromBuilds buildsSource).

Definition createFromReleaseBundles (rbc : ReleaseBundleCreateCommand)
  : result CreationRequest :=
  releaseBundlesSource ← createReleaseBundleSourceFromSpec rbc;
  let releaseBundlesSource := convertProjectKeyToRepositoryKey releaseBundlesSource in
  if (length releaseBundlesSource =? 0)%nat then
    Err "at least one release bundle is expected in order to create a release bundle from release bundles"
  else Ok (FromReleaseBundles releaseBundlesSource).

Definition createFromPackages (rbc : ReleaseBundleCreateCommand) : result CreationRequest :=
  let packageSource := createPackageSourceFromSpec (specFiles (spec rbc)) in
  if (length packageSource =? 0)%nat then
    Err "at least one package is expected in order to create a release bundle from packages"
  else Ok (FromPackages packageSource).

(** The switch of [Run] on the single source type. *)
Definition dispatchSingleSource (rbc : ReleaseBundleCreateCommand) (sourceType : SourceType)
  : result CreationRequest :=
  if String.eqb sourceType Aql then createFromAql rbc
  else if String.eqb sourceType Artifacts then createFromArtifacts rbc
  else if String.eqb sourceType Services.Builds then createFromBuilds rbc
  else if String.eqb sourceType Services.ReleaseBundles then createFromReleaseBundles rbc
  else if String.eqb sourceType Packages then createFromPackages rbc
  else Err "unknown source for release bundle creation was provided".

(** [Run]: [Ok call] is the call on the lifecycle service that [Run]
    ends with (its answer is the result of [Run]), [Err] an error returned
    before any call. *)
Definition Run (rbc : ReleaseBundleCreateCommand) : Logged (result ServiceCall) :=
  match validateArtifactoryVersionSupported with
  | Some err => (Err err, [])
  | None =>
  match CreateLifecycleServiceManager with
  | Some err => (Err err, [])
  | None =>
      let isReleaseBundleCreationWithMultiSourcesSupported :=
        negb (is_err (ValidateFeatureSupportedVersion
                        minArtifactoryVersionForMultiSourceAndPackagesSupport)) in
      match identifySourceTypeBySpecOrByLegacyCommands rbc
              isReleaseBundleCreationWithMultiSourcesSupported with
      | (_, Some err) => (Err err, [])
      | (sourceTypes, None) =>
          match sourceTypes, isSingleSourceType sourceTypes with
          | first :: _, Some true =>
              (withQueryParams rbc (dispatchSingleSource rbc first), [])
          | _, _ =>
              if isReleaseBundleCreationWithMultiSourcesSupported then
                match getMultipleSourcesIfDefined rbc with
                | (Err err, warnings) => (Err err, warnings)
                | (Ok sources, warnings) =>
                    (Ok {| callProjectKey := rbProjectKey rbc;
                           callRequest :=
                             FromMultipleSources
                               (updateReleaseBundleRepoKeyWithProject sources) |},
                     warnings)
                end
              else
                (Err "release bundle creation failed, unable to identify source for creation", [])
          end
      end
  end
  end.

End WithCollaborators.

End Create.

(* ------------------------------------------------------------------ *)
(** ** The update command: Run *)

Module UpdateRun.
Import GoStrconv Services Spec Validation Commands Common Create Update.

Section WithCollaborators.
Context `{Quoting} `{Collaborators} `{Platform}.

(** [Run] of the update command: [Ok sources] is the call
    [UpdateReleaseBundleFromMultipleSources] with these sources. *)
Definition Run (rbu : ReleaseBundleUpdateCommand) : Logged (result (list RbSource)) :=
  match validateArtifactoryVersionSupported with
  | Some err => (Err err, [])
  | None =>
  match CreateLifecycleServiceManager with
  | Some err => (Err err, [])
  | None =>
      match getAddSources rbu with
      | (Err err, warnings) => (Err err, warnings)
      | (Ok addSources, warnings) =>
          if (length addSources =? 0)%nat then
            (Err "at least one source must be provided to update a release bundle", warnings)
          else (Ok addSources, warnings)
      end
  end
  end.

End WithCollaborators.

End UpdateRun.

(* ------------------------------------------------------------------ *)
(** ** lifecycle/cli.go: validation of the creation method *)

Module CliValidation.
Import Coreutils Spec Cli.

(** The line break of the two-line messages. *)
Definition newline : string := String (ascii_of_nat 10) "".

(** [createLifecycleDetailsByFlags] followed by the version probe for
    multiple sources. *)
Class FeatureProbe := {
  multipleSourcesSupported : Context -> error
}.

Section WithFramework.
Context `{Flagkit} `{FeatureProbe}.

(** areBuildFlagsSet checks if build-name or build-number flags are set. *)
Definition areBuildFlagsSet (c : Context) : bool :=
  IsFlagSet c BuildName || IsFlagSet c BuildNumber.

(** areBuildEnvVarsSet checks if build environment variables are set. *)
Definition areBuildEnvVarsSet (env : Env) : bool :=
  negb (String.eqb (Getenv env "JFROG_CLI_BUILD_NUMBER") "")
  && negb (String.eqb (Getenv env "JFROG_CLI_BUILD_NAME") "").

Definition validateSingleCreationMethod (methodCount : nat) : error :=
  if (1 <? methodCount)%nat then
    Some ("exactly one creation source must be supplied: --" +:+ "spec" +:+ ", --" +:+ Builds
          +:+ ", or --" +:+ ReleaseBundles +:+ "." +:+ newline
          +:+ "Opt to use the --" +:+ "spec" +:+ " option as the --" +:+ Builds
          +:+ " and --" +:+ ReleaseBundles +:+ " are deprecated")
  else None.

Definition validateCreationValuesPresence (env : Env) (c : Context) (methodCount : nat)
  : error :=
  if (methodCount =? 0)%nat then
    if negb (areBuildFlagsSet c) && negb (areBuildEnvVarsSet env) then
      Some "Either --build-name or JFROG_CLI_BUILD_NAME, and --build-number or JFROG_CLI_BUILD_NUMBER must be defined"
    else None
  else None.

Definition validateRegularMethods (env : Env) (c : Context) (methodCount : nat) : error :=
  match validateSingleCreationMethod methodCount with
  | Some err => Some err
  | None =>
      match validateCreationValuesPresence env c methodCount with
      | Some err => Some err
      | None => None
      end
  end.

Definition validateCreationMethods (env : Env) (c : Context)
    (regularMethodsCount multiSrcMethodsCount : nat) : error :=
  if (0 <? multiSrcMethodsCount)%nat then
    match multipleSourcesSupported c with
    | Some err => Some err
    | None =>
        if (0 <? regularMethodsCount)%nat then
          Some ("only multiple sources must be supplied: --" +:+ SourceTypeReleaseBundles
                +:+ ", --" +:+ SourceTypeBuilds +:+ "," +:+ newline
                +:+ "or one of: --" +:+ "spec" +:+ ", --" +:+ Builds +:+ " or --"
                +:+ ReleaseBundles)
        else None
    end
  else validateRegularMethods env c regularMethodsCount.

Definition assertValidCreationMethod (env : Env) (c : Context) : error :=
  let monoReleaseBundleSource :=
    [IsFlagSet c "spec"; IsFlagSet c Builds; IsFlagSet c ReleaseBundles] in
  let methodCount := SumTrueValues monoReleaseBundleSource in
  let multiReleaseBundleSources :=
    [IsFlagSet c SourceTypeReleaseBundles; IsFlagSet c SourceTypeBuilds] in
  let multiReleaseBundleSourcesCount := SumTrueValues multiReleaseBundleSources in
  validateCreationMethods env c methodCount multiReleaseBundleSourcesCount.

End WithFramework.

End CliValidation.

(* ------------------------------------------------------------------ *)
(** ** Further inputs and collaborators for the examples *)

Module MoreFixtures.
Import GoStrings GoStrconv Services Spec Commands Common Create Cli CliValidation Fixtures.

(** A server that resolves identifiers of the form name/number (or
    name/version) by splitting them, knows build number 7 as the latest of
    every build, finds no artifact and has no legacy files. *)
Definition splitting : Collaborators := {|
  GetBuildInfoRepositoryByProject := @GetBuildInfoRepositoryByProject offline;
  ParseNameAndVersion := fun identifier =>
    match cut identifier "/"%char with
    | Some nv => Ok nv
    | None => Err "No '/' is found in the bundle"
    end;
  GetBuildNameAndNumberFromBuildIdentifier := fun identifier _ =>
    match cut identifier "/"%char with
    | Some nn => Ok nn
    | None => Ok (identifier, "7")
    end;
  GetLatestBuildNumberFromArtifactory := fun _ _ => Ok "7";
  SearchFilesBySpecs := fun _ => Ok [];
  ReadBuildsSpec := fun _ => Err "no such file";
  ReadReleaseBundlesSpec := fun _ => Err "no such file"
|}.

(** A platform recent enough for multiple sources, and one that is not. *)
Definition recentPlatform : Platform := {|
  validateArtifactoryVersion := fun _ => None;
  CreateLifecycleServiceManager := None
|}.

Definition olderPlatform : Platform := {|
  validateArtifactoryVersion := fun minVersion =>
    if String.eqb minVersion minArtifactoryVersionForMultiSourceAndPackagesSupport then
      Some "Artifactory version 7.100.0 is below the minimum supported version 7.114.0"
    else None;
  CreateLifecycleServiceManager := None
|}.

Definition probeOk : FeatureProbe := {| multipleSourcesSupported := fun _ => None |}.

(** A create command with a spec and nothing else. *)
Definition createFromSpec (files : list File) : ReleaseBundleCreateCommand := {|
  Commands.rbProjectKey := "";
  Commands.spec := Some {| Files := Some files |};
  buildsSpecPath := "";
  releaseBundlesSpecPath := "";
  Commands.sourcesBuilds := "";
  Commands.sourcesReleaseBundles := ""
|}.

(** The same spec, with both source flags set besides. *)
Definition createFromSpecAndFlags (files : list File) : ReleaseBundleCreateCommand := {|
  Commands.rbProjectKey := "";
  Commands.spec := Some {| Files := Some files |};
  buildsSpecPath := "";
  releaseBundlesSpecPath := "";
  Commands.sourcesBuilds := "name=build1,id=123";
  Commands.sourcesReleaseBundles := "name=rb1,version=1.0"
|}.

(** A create command with the release-bundles flag and a project. *)
Definition createFromBundlesFlag : ReleaseBundleCreateCommand := {|
  Commands.rbProjectKey := "my-project";
  Commands.spec := None;
  buildsSpecPath := "";
  releaseBundlesSpecPath := "";
  Commands.sourcesBuilds := "";
  Commands.sourcesReleaseBundles := "name=rb1,version=1.0;name=rb2,version=2.0"
|}.

End MoreFixtures.

(* ------------------------------------------------------------------ *)
(** ** Notions used in the statements *)

Module Views.
Import GoStrings GoStrconv Coreutils Services Spec Validation Commands Common Create.

(** The five constants of the source type. *)
Definition knownTypes : list SourceType := [Aql; Artifacts; Builds; ReleaseBundles; Packages].

(** The source types that the update command can build. *)
Definition updatable : list SourceType := [ReleaseBundles; Services.Builds; Artifacts].

(** The distinct entries of a list of detected types, in the order of
    their first occurrence. *)
Fixpoint firstOccurrences (l : list SourceType) : list SourceType :=
  match l with
  | [] => []
  | t :: rest => t :: List.filter (fun u => negb (String.eqb u t)) (firstOccurrences rest)
  end.

Definition unhandled (m : SourceTypeSet) (t : SourceType) : bool := negb (handled m t).

(** What a loop over the detected types has appended when it ends: new
    sources that satisfy [P] and whose types follow the order of first
    detection of the types that were not handled before. *)
Definition appended (P : RbSource -> Prop) (detected : list SourceType) (m : SourceTypeSet)
    (acc sources : list RbSource) : Prop :=
  exists new, sources = acc ++ new /\
    sublist (RbSourceType <$> new) (List.filter (unhandled m) (firstOccurrences detected)) /\
    Forall P new.

Section WithCollaborators.
Context `{Quoting} `{Collaborators} `{Platform}.

(** A source that the create command builds from its spec (or, for
    builds and release bundles, from a legacy file when its path is set): it
    has one of the five types and holds the non-empty list built for that
    type, or the AQL query. *)
Definition createdFromSpec (rbc : ReleaseBundleCreateCommand) (s : RbSource) : Prop :=
  (exists bundles, createReleaseBundleSourceFromSpec rbc = Ok bundles /\ bundles <> [] /\
                   s = mkSource ReleaseBundles [] bundles [] [] "") \/
  (exists builds, createBuildSourceFromSpec rbc = Ok builds /\ builds <> [] /\
                  s = mkSource Services.Builds builds [] [] [] "") \/
  (exists artifacts, createArtifactSourceFromSpec (specFiles (spec rbc)) = Ok artifacts /\
                     artifacts <> [] /\ s = mkSource Artifacts [] [] artifacts [] "") \/
  (createPackageSourceFromSpec (specFiles (spec rbc)) <> [] /\
   s = mkSource Packages [] [] [] (createPackageSourceFromSpec (specFiles (spec rbc))) "") \/
  s = mkSource Aql [] [] [] [] (createAqlQueryFromSpec (specFiles (spec rbc))).

(** A source that the update command builds from the file groups of its
    spec. *)
Definition convertedFromSpec (files : list File) (s : RbSource) : Prop :=
  (exists bundles, convertSpecToReleaseBundlesSource files = Ok bundles /\ bundles <> [] /\
                   s = mkSource ReleaseBundles [] bundles [] [] "") \/
  (exists builds, convertSpecToBuildsSource files = Ok builds /\ builds <> [] /\
                  s = mkSource Services.Builds builds [] [] [] "") \/
  (exists artifacts, createArtifactSourceFromSpec files = Ok artifacts /\
                     artifacts <> [] /\ s = mkSource Artifacts [] [] artifacts [] "").

(** The capability flag that [Run] computes. *)
Definition multiSourcesSupported : bool :=
  negb (is_err (ValidateFeatureSupportedVersion
                  minArtifactoryVersionForMultiSourceAndPackagesSupport)).

(** The bundle and the build that one entry of a flag value stands
    for. *)
Definition bundleOfEntry (projectKey entry : string) : ReleaseBundleSource :=
  {| ProjectKey := projectKey; RepositoryKey := "";
     ReleaseBundleName := index (fst (parseKeyValueString entry)) "name";
     ReleaseBundleVersion := index (fst (parseKeyValueString entry)) "version" |}.

Definition buildOfEntry (projectKey entry : string) : BuildSource :=
  {| BuildRepository := GetBuildInfoRepositoryByProject projectKey;
     BuildName := index (fst (parseKeyValueString entry)) "name";
     BuildNumber := index (fst (parseKeyValueString entry)) "id";
     IncludeDependencies :=
       fst (ParseBool (index (fst (parseKeyValueString entry)) "include-deps")) |}.

End WithCollaborators.

End Views.

(* ------------------------------------------------------------------ *)
(** * Properties *)

(** ** The tests of the repository, evaluated on the embedding *)

Module RepositoryTests.
Import GoStrings GoStrconv Coreutils Services Spec Validation Commands Cli Fixtures.

Example strings_helpers :
  Split "a=1,b;c=2" ";"%char = ["a=1,b"; "c=2"] /\
  Split "" ","%char = [""] /\
  Split "a,,b," ","%char = ["a"; ""; "b"; ""] /\
  SplitN2 "k=v=w" "="%char = ["k"; "v=w"] /\
  SplitN2 "novalue" "="%char = ["novalue"] /\
  TrimSpace (bytes [32; 9; 194; 160] +:+ "id = 5" +:+ bytes [226; 128; 137; 10]) = "id = 5" /\
  TrimSpace (bytes [194] +:+ "x") = bytes [194] +:+ "x" /\
  ListToText ["aql"] = "aql" /\
  ListToText ["aql"; "artifacts"; "builds"] = "aql, artifacts and builds".
Proof. repeat split. Qed.

(** TestValidateCreationSources. *)
Example test_validateCreationSources :
  validateCreationSources [] false = Some missingCreationSourcesErrMsg /\
  validateCreationSources [Aql; Artifacts; Services.Builds] false
  = Some (multipleCreationSourcesErrMsg +:+ " 'aql, artifacts and builds'") /\
  validateCreationSources [Aql; Aql] false = Some singleAqlErrMsg /\
  validateCreationSources [Aql] false = None /\
  validateCreationSources [Artifacts; Artifacts] false = None /\
  validateCreationSources [Services.Builds; Services.Builds] false = None /\
  validateCreationSources [Services.ReleaseBundles; Services.ReleaseBundles] false = None /\
  validateCreationSources [Packages] false
  = Some "creation source 'package' is not supported in current version".
Proof. repeat split. Qed.

(** TestValidateCreationForMultipleSources. *)
Example test_validateCreationForMultipleSources :
  validateCreationSources [] true = Some missingCreationSourcesErrMsg /\
  validateCreationSources [Aql; Artifacts; Services.Builds; Services.ReleaseBundles] true = None /\
  validateCreationSources
    [Aql; Artifacts; Services.Builds; Services.ReleaseBundles; Services.ReleaseBundles;
     Packages; Packages] true = None /\
  validateCreationSources [Aql; Aql] true = Some singleAqlErrMsg /\
  validateCreationSources [Aql] true = None /\
  validateCreationSources [Packages; Packages] true = None.
Proof. repeat split. Qed.

(** TestValidateFile. *)
Example test_validateFile :
  @validateFile plainQuote aqlOnly false = (Aql, None) /\
  @validateFile plainQuote buildGroup false = (Services.Builds, None) /\
  @validateFile plainQuote bundleGroup false = (Services.ReleaseBundles, None) /\
  @validateFile plainQuote artifactsGroup false = (Artifacts, None) /\
  @validateFile plainQuote pathMappingGroup false = ("", Some unsupportedFieldsErrMsg) /\
  @validateFile plainQuote fourSources false = ("", Some exactlyOneSourceErrMsg) /\
  @validateFile plainQuote aqlWithProps false = (Aql, Some aqlFieldsErrMsg) /\
  @validateFile plainQuote (fileGroup "" "name/number" "" "" "" "" "" "" [] "" "" "false") false
  = (Services.Builds, Some buildsFieldsErrMsg) /\
  @validateFile plainQuote (fileGroup "" "" "true" "name/number" "" "" "" "" [] "" "" "") false
  = (Services.ReleaseBundles, Some bundlesFieldsErrMsg) /\
  @validateFile plainQuote (fileGroup "" "" "" "" "proj" "" "" "repo/path/file" [] "" "" "") false
  = (Artifacts, Some artifactsFieldsErrMsg) /\
  @validateFile plainQuote packageOnly false = ("", Some exactlyOneSourceErrMsg).
Proof. repeat split. Qed.

(** TestValidateFileForPackageAndMultipleSourceSupportedVer. *)
Example test_validateFile_multi_source :
  @validateFile plainQuote aqlOnly true = (Aql, None) /\
  @validateFile plainQuote packageOnly true = (Packages, None) /\
  @validateFile plainQuote fourSources true = (Aql, None) /\
  @validateFile plainQuote (fileGroup "" "" "" "" "" "abc" "" "" [] "" "" "false") true
  = (Packages, Some packagesFieldsErrMsg) /\
  @validateFile plainQuote (fileGroup "abc" "" "" "" "" "" "" "" [] "" "" "maybe") true
  = ("", Some ("invalid value provided to the 'recursive' field. error: "
               +:+ "strconv.ParseBool: parsing " +:+ @Quote plainQuote "maybe"
               +:+ ": invalid syntax")).
Proof. repeat split. Qed.

(** TestGetReleaseBundleCreationSpec: build name and number from the flags,
    from the environment, and missing. *)
Example test_getReleaseBundleCreationSpec :
  @getReleaseBundleCreationSpec flagNames noSpecFile ∅
    {| stringFlags := {[ "build-name" := "Common-builds"; "build-number" := "1.0.0" ]};
       boolFlags := ∅ |}
  = Ok (Some {| Files := Some [ fileGroup "" "Common-builds/1.0.0" "" "" "" "" "" "" [] "" "" "" ] |}) /\
  @getReleaseBundleCreationSpec flagNames noSpecFile
    {[ "JFROG_CLI_BUILD_NUMBER" := "2.0.0" ]}
    {| stringFlags := {[ "build-name" := "Common-builds" ]}; boolFlags := ∅ |}
  = Ok (Some {| Files := Some [ fileGroup "" "Common-builds/2.0.0" "" "" "" "" "" "" [] "" "" "" ] |}) /\
  @getReleaseBundleCreationSpec flagNames noSpecFile ∅
    {| stringFlags := ∅; boolFlags := ∅ |}
  = Err missingSpecErrMsg.
Proof. repeat split. Qed.

(** A flag value with two entries, spaces around a pair and two pairs
    without '='. *)
Example flag_value_with_malformed_pairs :
  @buildRbBuildsSources plainQuote offline "name=b1,oops, id = 5 ,include-deps=true;junk" "proj" []
  = ([ mkSource "builds"
         [ {| BuildRepository := "proj-build-info"; Services.BuildName := "b1";
              Services.BuildNumber := "5"; IncludeDependencies := true |};
           {| BuildRepository := "proj-build-info"; Services.BuildName := "";
              Services.BuildNumber := ""; IncludeDependencies := false |} ] [] [] [] "" ],
     [formatWarning; formatWarning]).
Proof. vm_compute. reflexivity. Qed.

End RepositoryTests.

Module ValidationFacts.
Import GoStrconv Coreutils Services Spec Validation Fixtures.

Lemma validateCreationSource_nil_iff (fields : list bool) (msg : string) :
  validateCreationSource fields msg = None <-> SumTrueValues fields = 0.
Proof.
  unfold validateCreationSource.
  destruct (SumTrueValues fields) as [|n]; simpl; split; intros E; try done.
Qed.

Lemma validateCreationSource_err (fields : list bool) (msg : string) :
  validateCreationSource fields msg = None \/ validateCreationSource fields msg = Some msg.
Proof. unfold validateCreationSource. destruct (0 <? _)%nat; auto. Qed.

Lemma SumTrueValues_all_false (fields : list bool) :
  SumTrueValues fields = 0 <-> Forall (fun b => b = false) fields.
Proof.
  induction fields as [|b fields IH]; simpl.
  - split; auto.
  - destruct b; simpl.
    + split; [lia | intros F; inversion F; discriminate].
    + rewrite IH. split; [intros F; constructor; auto | intros F; inversion F; auto].
Qed.

Section WithQuoting.
Context `{Quoting}.

Lemma validateFile_recursive_ok (file : File) (flag : bool) (isRecursive : bool) :
  StringToBool (Recursive file) true = (isRecursive, None) ->
  hasUnsupportedFields file = false ->
  SumTrueValues [isAql file; isBuild file; isBundle file; isPattern file] = 1 ->
  validateFile file flag =
    if isAql file then
      (Aql, validateCreationSource
              [isIncludeDeps file; isProject file; isExclusions file; isProps file;
               isExcludeProps file; negb isRecursive] aqlFieldsErrMsg)
    else if isBuild file then
      (Builds, validateCreationSource
                 [isExclusions file; isProps file; isExcludeProps file; negb isRecursive]
                 buildsFieldsErrMsg)
    else if isBundle file then
      (ReleaseBundles, validateCreationSource
                         [isIncludeDeps file; isExclusions file; isProps file;
                          isExcludeProps file; negb isRecursive] bundlesFieldsErrMsg)
    else
      (Artifacts, validateCreationSource [isIncludeDeps file; isProject file]
                    artifactsFieldsErrMsg).
Proof.
  intros Hrec Hunsup Hsum. unfold validateFile.
  rewrite Hrec, Hunsup, Hsum. simpl. rewrite andb_false_r.
  destruct (isAql file), (isBuild file), (isBundle file), (isPattern file);
    simpl in Hsum; try discriminate; reflexivity.
Qed.

Lemma validateFile_ambiguous (file : File) :
  1 < SumTrueValues [isAql file; isBuild file; isBundle file; isPattern file] ->
  is_err (snd (validateFile file false)) = true.
Proof.
  intros Hsum. unfold validateFile.
  destruct (StringToBool (Recursive file) true) as [r [e|]]; [reflexivity|].
  destruct (hasUnsupportedFields file); [reflexivity|].
  destruct (Nat.eqb_spec (SumTrueValues [isAql file; isBuild file; isBundle file; isPattern file]) 1)
    as [E|E]; [lia|]. reflexivity.
Qed.

(** C1, as amended: in single-source mode a file group without
    always-unsupported fields that populates more than one of aql, build,
    bundle and pattern is rejected; one that populates exactly one of them
    (with a valid 'recursive' value) yields the matching source type, and
    the error is nil exactly when none of the fields that this type does
    not support is populated, else it is the "only supports" error of the
    type. *)
Theorem validateFile_exclusivity (file : File) :
  hasUnsupportedFields file = false ->
  let populated := SumTrueValues [isAql file; isBuild file; isBundle file; isPattern file] in
  (1 < populated -> is_err (snd (validateFile file false)) = true) /\
  (populated = 1 ->
   forall isRecursive, StringToBool (Recursive file) true = (isRecursive, None) ->
    (isAql file = true ->
       fst (validateFile file false) = Aql /\
       (snd (validateFile file false) = None <->
          Forall (fun b => b = false)
            [isIncludeDeps file; isProject file; isExclusions file; isProps file;
             isExcludeProps file; negb isRecursive]) /\
       (snd (validateFile file false) = None \/
        snd (validateFile file false) = Some aqlFieldsErrMsg)) /\
    (isBuild file = true ->
       fst (validateFile file false) = Builds /\
       (snd (validateFile file false) = None <->
          Forall (fun b => b = false)
            [isExclusions file; isProps file; isExcludeProps file; negb isRecursive]) /\
       (snd (validateFile file false) = None \/
        snd (validateFile file false) = Some buildsFieldsErrMsg)) /\
    (isBundle file = true ->
       fst (validateFile file false) = ReleaseBundles /\
       (snd (validateFile file false) = None <->
          Forall (fun b => b = false)
            [isIncludeDeps file; isExclusions file; isProps file; isExcludeProps file;
             negb isRecursive]) /\
       (snd (validateFile file false) = None \/
        snd (validateFile file false) = Some bundlesFieldsErrMsg)) /\
    (isPattern file = true ->
       fst (validateFile file false) = Artifacts /\
       (snd (validateFile file false) = None <->
          Forall (fun b => b = false) [isIncludeDeps file; isProject file]) /\
       (snd (validateFile file false) = None \/
        snd (validateFile file false) = Some artifactsFieldsErrMsg))).
Proof.
  intros Hunsup populated. split.
  - apply validateFile_ambiguous.
  - intros Hsum isRecursive Hrec. subst populated.
    rewrite (validateFile_recursive_ok file false isRecursive Hrec Hunsup Hsum).
    destruct (isAql file), (isBuild file), (isBundle file), (isPattern file);
      simpl in Hsum; try discriminate;
      (split; [|split; [|split]]; intros Ht; try discriminate Ht; simpl;
       (split; [reflexivity
               | split; [rewrite validateCreationSource_nil_iff;
                         apply SumTrueValues_all_false
                        | apply validateCreationSource_err]])).
Qed.

(** C4, as amended: in single-source mode a file group whose only
    populated discriminator is the package field (no always-unsupported
    field, valid 'recursive' value) is rejected by validateFile with the
    generic "exactly one creation source" error; the distinct
    unsupported-package error is the one validateCreationSources returns
    for a detected Packages type. *)
Theorem validateFile_package_single_source_mode (file : File) (isRecursive : bool) :
  hasUnsupportedFields file = false ->
  StringToBool (Recursive file) true = (isRecursive, None) ->
  isAql file = false -> isBuild file = false -> isBundle file = false ->
  isPattern file = false -> isPackage file = true ->
  validateFile file false = ("", Some exactlyOneSourceErrMsg) /\
  validateAndIdentifyRbCreationSpec [file] false = ([], Some exactlyOneSourceErrMsg) /\
  validateCreationSources [Packages] false = Some unsupportedCreationSourceMethod.
Proof.
  intros Hunsup Hrec Haql Hbuild Hbundle Hpattern _.
  assert (Hv : validateFile file false = ("", Some exactlyOneSourceErrMsg)).
  { unfold validateFile. rewrite Hrec, Hunsup, Haql, Hbuild, Hbundle, Hpattern. reflexivity. }
  split; [exact Hv|]. split; [|reflexivity].
  unfold validateAndIdentifyRbCreationSpec, detectSourceTypesFromSpec.
  rewrite Hv. reflexivity.
Qed.

End WithQuoting.

(** *** validateCreationSources *)

Lemma eqb_Packages_false (s : SourceType) : s <> Packages -> String.eqb s Packages = false.
Proof. intros Hne. apply String.eqb_neq. exact Hne. Qed.

(** The loop passes over a run of elements equal to the first one. *)
Lemma validateLoop_run (all : list SourceType) (first : SourceType) (n : nat)
    (rest : list SourceType) (cnt : nat) :
  first <> Packages ->
  validateLoop all first false (replicate n first ++ rest) cnt =
  validateLoop all first false rest (cnt + (if String.eqb first Aql then n else 0)).
Proof.
  intros Hne. revert cnt. induction n as [|n IH]; intros cnt; simpl.
  - f_equal. destruct (String.eqb first Aql); lia.
  - rewrite (eqb_Packages_false first Hne), String.eqb_refl. simpl.
    rewrite IH. f_equal. destruct (String.eqb first Aql); lia.
Qed.

Lemma validateLoop_run_cons (all : list SourceType) (first : SourceType) (n : nat)
    (rest : list SourceType) :
  first <> Packages ->
  validateLoop all first false (first :: replicate n first ++ rest) 0 =
  validateLoop all first false rest (if String.eqb first Aql then S n else 0).
Proof. intros Hne. exact (validateLoop_run all first (S n) rest 0 Hne). Qed.

Lemma validateCreationSources_run (first : SourceType) (n : nat) (rest : list SourceType) :
  first <> Packages ->
  validateCreationSources (first :: replicate n first ++ rest) false =
  match validateLoop (first :: replicate n first ++ rest) first false rest
          (if String.eqb first Aql then S n else 0) with
  | inl err => err
  | inr aqlSrcCnt => if (1 <? aqlSrcCnt)%nat then Some singleAqlErrMsg else None
  end.
Proof.
  intros Hne.
  rewrite <- (validateLoop_run_cons (first :: replicate n first ++ rest) first n rest Hne).
  reflexivity.
Qed.

Lemma validateLoop_multi (all : list SourceType) (first : SourceType)
    (rest : list SourceType) (cnt : nat) :
  validateLoop all first true rest cnt = inr (cnt + aqlOccurrences rest).
Proof.
  revert cnt. induction rest as [|src rest IH]; intros cnt; simpl.
  - f_equal. unfold aqlOccurrences. simpl. lia.
  - rewrite IH. f_equal. unfold aqlOccurrences. simpl.
    destruct (String.eqb src Aql); simpl; lia.
Qed.

(** What the loop can return: one of the two early errors, or the number
    of AQL entries once every element was visited. *)
Lemma validateLoop_cases (all : list SourceType) (first : SourceType) (flag : bool)
    (rest : list SourceType) (cnt : nat) :
  validateLoop all first flag rest cnt = inl (Some unsupportedCreationSourceMethod) \/
  validateLoop all first flag rest cnt = inl (generateSingleCreationSourceErr all) \/
  validateLoop all first flag rest cnt = inr (cnt + aqlOccurrences rest).
Proof.
  revert cnt. induction rest as [|src rest IH]; intros cnt; simpl.
  - right; right. f_equal. unfold aqlOccurrences. simpl. lia.
  - destruct (negb flag && String.eqb src Packages); [auto|].
    destruct (negb flag && negb (String.eqb src first)); [auto|].
    destruct (IH (if String.eqb src Aql then S cnt else cnt)) as [E|[E|E]]; rewrite E; auto.
    right; right. f_equal. unfold aqlOccurrences. simpl.
    destruct (String.eqb src Aql); simpl; lia.
Qed.

Lemma multiple_sources_msg_not_single_aql (all : list SourceType) :
  generateSingleCreationSourceErr all <> Some singleAqlErrMsg.
Proof. unfold generateSingleCreationSourceErr. simpl. discriminate. Qed.

(** C2, as amended: [Builds, Packages] is rejected with the
    unsupported-package error in single-source mode and accepted in
    multi-source mode; in single-source mode a Packages entry triggers the
    unsupported-package error whenever every entry before it has the type
    of the first entry (however many Packages entries follow). *)
Theorem validateCreationSources_packages_gating :
  validateCreationSources [Builds; Packages] false = Some unsupportedCreationSourceMethod /\
  validateCreationSources [Builds; Packages] true = None /\
  (forall rest, validateCreationSources (Packages :: rest) false
                = Some unsupportedCreationSourceMethod) /\
  (forall first n rest,
      first <> Packages ->
      validateCreationSources (first :: replicate n first ++ Packages :: rest) false
      = Some unsupportedCreationSourceMethod).
Proof.
  split; [reflexivity|]. split; [reflexivity|]. split.
  - intros rest. reflexivity.
  - intros first n rest Hne.
    rewrite validateCreationSources_run by exact Hne. reflexivity.
Qed.


(** C7, as amended: a detected list with more than one AQL entry is
    rejected with "only a single aql query can be provided" in multi-source
    mode always, and in single-source mode when every entry is AQL (a mixed
    list is rejected there by an earlier check of the loop); with at most
    one AQL entry this error is never returned, in either mode. *)
Theorem validateCreationSources_single_aql (detected : list SourceType) :
  (1 < aqlOccurrences detected ->
     validateCreationSources detected true = Some singleAqlErrMsg) /\
  (1 < aqlOccurrences detected -> Forall (fun s => s = Aql) detected ->
     validateCreationSources detected false = Some singleAqlErrMsg) /\
  (aqlOccurrences detected <= 1 ->
     forall flag, validateCreationSources detected flag <> Some singleAqlErrMsg).
Proof.
  split; [|split].
  - intros Hcnt. destruct detected as [|first rest]; [unfold aqlOccurrences in Hcnt; simpl in Hcnt; lia|].
    unfold validateCreationSources. rewrite validateLoop_multi. simpl.
    destruct (Nat.ltb_spec 1 (aqlOccurrences (first :: rest))); [reflexivity | lia].
  - intros Hcnt Hall. destruct detected as [|first rest]; [unfold aqlOccurrences in Hcnt; simpl in Hcnt; lia|].
    assert (Hfirst : first = Aql) by (inversion Hall; assumption). subst first.
    assert (Hrest : rest = replicate (length rest) Aql ++ []).
    { rewrite app_nil_r. inversion Hall as [|x l _ Hl]; subst. clear -Hl.
      induction Hl as [|x l Hx _ IH]; simpl; congruence. }
    assert (Hlen : aqlOccurrences (Aql :: rest) = S (length rest)).
    { unfold aqlOccurrences. simpl. f_equal. inversion Hall as [|x l _ Hl]; subst. clear -Hl.
      induction Hl as [|x l Hx _ IH]; simpl; [reflexivity|]. subst x. simpl. congruence. }
    rewrite Hlen in Hcnt. revert Hrest Hcnt. generalize (length rest) as k.
    intros k Hrest Hcnt. rewrite Hrest.
    rewrite validateCreationSources_run by discriminate. simpl.
    destruct k as [|k]; [lia | reflexivity].
  - intros Hcnt flag. destruct detected as [|first rest]; [discriminate|].
    unfold validateCreationSources.
    destruct (validateLoop_cases (first :: rest) first flag (first :: rest) 0) as [E|[E|E]];
      rewrite E.
    + discriminate.
    + apply multiple_sources_msg_not_single_aql.
    + simpl. destruct (Nat.ltb_spec 1 (aqlOccurrences (first :: rest))); [lia | discriminate].
Qed.

(** *** Witnesses and counterexamples *)

Lemma validateFile_exclusivity_witness :
  @validateFile plainQuote aqlOnly false = (Aql, None).
Proof.
  destruct (@validateFile_exclusivity plainQuote aqlOnly eq_refl) as [_ Hone].
  destruct (Hone eq_refl true eq_refl) as [Haql _].
  destruct (Haql eq_refl) as (Hfst & Hsnd & _).
  assert (Hnil : snd (@validateFile plainQuote aqlOnly false) = None)
    by (apply Hsnd; repeat constructor).
  rewrite (surjective_pairing (@validateFile plainQuote aqlOnly false)).
  rewrite Hfst, Hnil. reflexivity.
Defined.

(** C1 as stated fails: a file group that populates the aql field only,
    together with 'props', has exactly one discriminator and no
    always-unsupported field, and is rejected. *)
Lemma validateFile_single_discriminator_rejected :
  @hasUnsupportedFields plainQuote aqlWithProps = false /\
  SumTrueValues [isAql aqlWithProps; isBuild aqlWithProps; isBundle aqlWithProps;
                 isPattern aqlWithProps] = 1 /\
  @validateFile plainQuote aqlWithProps false = (Aql, Some aqlFieldsErrMsg).
Proof. repeat split. Qed.

Lemma validateCreationSources_packages_gating_witness :
  validateCreationSources [Builds; Builds; Packages; Packages] false
  = Some unsupportedCreationSourceMethod.
Proof.
  destruct validateCreationSources_packages_gating as (_ & _ & _ & Hrun).
  apply (Hrun Builds 1 [Packages]). discriminate.
Defined.

(** C2 as stated fails: a Packages entry that follows an entry of another
    type than the first does not produce the unsupported-package error. *)
Lemma validateCreationSources_packages_after_mixed :
  In Packages [Aql; Builds; Packages] /\
  validateCreationSources [Aql; Builds; Packages] false
  = Some (multipleCreationSourcesErrMsg +:+ " 'aql, builds and packages'") /\
  validateCreationSources [Aql; Builds; Packages] false
  <> Some unsupportedCreationSourceMethod.
Proof. split; [simpl; auto|]. split; [reflexivity | discriminate]. Qed.



Lemma validateFile_package_single_source_mode_witness :
  @validateFile plainQuote packageOnly false = ("", Some exactlyOneSourceErrMsg).
Proof.
  apply (@validateFile_package_single_source_mode plainQuote packageOnly true);
    reflexivity.
Defined.

(** C4 as stated fails: the error that validateFile returns for a
    package-only file group is not the unsupported-package error. *)
Lemma validateFile_package_generic_error :
  @validateFile plainQuote packageOnly false = ("", Some exactlyOneSourceErrMsg) /\
  snd (@validateFile plainQuote packageOnly false) <> Some unsupportedCreationSourceMethod.
Proof. split; [reflexivity | vm_compute; discriminate]. Qed.

Lemma validateCreationSources_single_aql_witness :
  validateCreationSources [Aql; Aql] true = Some singleAqlErrMsg /\
  validateCreationSources [Aql; Aql] false = Some singleAqlErrMsg /\
  validateCreationSources [Aql; Builds] true <> Some singleAqlErrMsg.
Proof.
  split; [|split].
  - apply (proj1 (validateCreationSources_single_aql [Aql; Aql])).
    vm_compute. lia.
  - apply (proj1 (proj2 (validateCreationSources_single_aql [Aql; Aql]))).
    + vm_compute. lia.
    + repeat constructor.
  - apply (proj2 (proj2 (validateCreationSources_single_aql [Aql; Builds]))).
    vm_compute. lia.
Defined.

(** C7 as stated fails: in single-source mode a mixed list with two AQL
    entries is rejected by the uniform-type check, not by the AQL one. *)
Lemma validateCreationSources_two_aql_mixed :
  1 < aqlOccurrences [Aql; Builds; Aql] /\
  validateCreationSources [Aql; Builds; Aql] false <> Some singleAqlErrMsg.
Proof. split; [vm_compute; lia | vm_compute; discriminate]. Qed.

End ValidationFacts.

Module CommandsFacts.
Import GoStrings GoStrconv Coreutils Services Spec Validation Commands Fixtures.

(** *** In-place loops over the indices of a slice *)

Section IndexLoop.
Context {A : Type} (f : A -> A).

Lemma index_loop_lookup (n a : nat) (l : list A) (i : nat) :
  foldl (fun acc j => alter f j acc) l (seq a n) !! i =
  if decide (a <= i < a + n) then f <$> l !! i else l !! i.
Proof.
  revert a l. induction n as [|n IH]; intros a l; simpl.
  - case_decide; [lia | reflexivity].
  - rewrite IH. destruct (decide (i = a)) as [->|Hne].
    + rewrite decide_False by lia. rewrite decide_True by lia.
      apply list_lookup_alter_eq.
    + rewrite list_lookup_alter_ne by congruence.
      repeat case_decide; try reflexivity; lia.
Qed.

Lemma index_loop_fmap (l : list A) :
  foldl (fun acc j => alter f j acc) l (seq 0 (length l)) = f <$> l.
Proof.
  apply list_eq. intros i. rewrite index_loop_lookup, list_lookup_fmap.
  case_decide as Hi; [reflexivity|].
  rewrite (lookup_ge_None_2 l i) by lia. reflexivity.
Qed.
End IndexLoop.

Lemma rewriteBundles_fmap (bundles : list ReleaseBundleSource) :
  rewriteBundles bundles = setRepositoryKey <$> bundles.
Proof. apply index_loop_fmap. Qed.

Lemma updateReleaseBundleRepoKeyWithProject_first (first : RbSource) (rest : list RbSource) :
  RbSourceType first = "release_bundles" ->
  updateReleaseBundleRepoKeyWithProject (first :: rest) =
  (fun s => withReleaseBundles s (setRepositoryKey <$> RbReleaseBundles s)) <$> (first :: rest).
Proof.
  intros Ht. unfold updateReleaseBundleRepoKeyWithProject. rewrite Ht.
  change (negb (String.eqb "release_bundles" "release_bundles")) with false. cbv iota.
  rewrite index_loop_fmap. apply list_fmap_ext. intros _ s _.
  rewrite rewriteBundles_fmap. reflexivity.
Qed.

Lemma updateReleaseBundleRepoKeyWithProject_skip (sources : list RbSource) :
  (forall first, head sources = Some first -> RbSourceType first <> "release_bundles") ->
  updateReleaseBundleRepoKeyWithProject sources = sources.
Proof.
  intros Hfirst. destruct sources as [|first rest]; [reflexivity|].
  unfold updateReleaseBundleRepoKeyWithProject.
  specialize (Hfirst first eq_refl). apply String.eqb_neq in Hfirst.
  rewrite Hfirst. reflexivity.
Qed.

(** C5: the repository-key rewrite leaves the list as it is when the list
    is empty or its first entry is not of type "release_bundles"; when the
    first entry is of that type, every release bundle of every entry with a
    non-empty project key gets the repository key
    <project>-release-bundles-v2, and bundles without a project key and all
    other fields stay as they were. *)
Theorem updateReleaseBundleRepoKeyWithProject_frame (sources : list RbSource) :
  ((forall first, head sources = Some first -> RbSourceType first <> "release_bundles") ->
     updateReleaseBundleRepoKeyWithProject sources = sources) /\
  ((exists first, head sources = Some first /\ RbSourceType first = "release_bundles") ->
     length (updateReleaseBundleRepoKeyWithProject sources) = length sources /\
     forall i s, sources !! i = Some s ->
       exists s', updateReleaseBundleRepoKeyWithProject sources !! i = Some s' /\
         RbSourceType s' = RbSourceType s /\ RbBuilds s' = RbBuilds s /\
         RbArtifacts s' = RbArtifacts s /\ RbPackages s' = RbPackages s /\
         RbAql s' = RbAql s /\
         length (RbReleaseBundles s') = length (RbReleaseBundles s) /\
         forall j rb, RbReleaseBundles s !! j = Some rb ->
           exists rb', RbReleaseBundles s' !! j = Some rb' /\
             ProjectKey rb' = ProjectKey rb /\
             ReleaseBundleName rb' = ReleaseBundleName rb /\
             ReleaseBundleVersion rb' = ReleaseBundleVersion rb /\
             (ProjectKey rb <> "" ->
                RepositoryKey rb' = ProjectKey rb +:+ "-release-bundles-v2") /\
             (ProjectKey rb = "" -> rb' = rb)).
Proof.
  split; [apply updateReleaseBundleRepoKeyWithProject_skip|].
  intros (first & Hhead & Ht).
  destruct sources as [|first' rest]; [discriminate|].
  simpl in Hhead. injection Hhead as ->.
  rewrite (updateReleaseBundleRepoKeyWithProject_first first rest Ht).
  split; [apply length_fmap|].
  intros i s Hs. eexists. split; [rewrite list_lookup_fmap, Hs; reflexivity|].
  simpl. repeat split; [apply length_fmap|].
  intros j rb Hrb. exists (setRepositoryKey rb).
  split; [rewrite list_lookup_fmap, Hrb; reflexivity|].
  unfold setRepositoryKey.
  destruct (String.eqb_spec (ProjectKey rb) "") as [E|E]; simpl;
    repeat split; intros; congruence.
Qed.

Lemma updateReleaseBundleRepoKeyWithProject_frame_witness :
  updateReleaseBundleRepoKeyWithProject mixedBuildsFirst = mixedBuildsFirst /\
  length (updateReleaseBundleRepoKeyWithProject bundlesFirst) = length bundlesFirst.
Proof.
  split.
  - apply (proj1 (updateReleaseBundleRepoKeyWithProject_frame mixedBuildsFirst)).
    intros first Hhead. injection Hhead as <-. discriminate.
  - apply (proj2 (updateReleaseBundleRepoKeyWithProject_frame bundlesFirst)).
    eexists. split; reflexivity.
Defined.

Example updateReleaseBundleRepoKeyWithProject_bundles_first :
  updateReleaseBundleRepoKeyWithProject bundlesFirst
  = [ mkSource "release_bundles" []
        [ {| ProjectKey := "project1"; RepositoryKey := "project1-release-bundles-v2";
             ReleaseBundleName := "bundle1"; ReleaseBundleVersion := "1.0.0" |};
          {| ProjectKey := ""; RepositoryKey := "existing-repo";
             ReleaseBundleName := "bundle2"; ReleaseBundleVersion := "2.0.0" |} ] [] [] "";
      mkSource "builds" [ {| BuildRepository := "artifactory-build-info";
                             BuildName := "test-build"; BuildNumber := "1";
                             IncludeDependencies := false |} ] [] [] [] "" ].
Proof. reflexivity. Qed.

(** *** Sources from the command-line flags *)

Lemma Split_nonempty (s : string) (sep : ascii) : Split s sep <> [].
Proof.
  destruct s as [|c s]; simpl; [discriminate|].
  destruct (Ascii.eqb c sep); [discriminate|].
  destruct (Split s sep); discriminate.
Qed.






Section WithCollaborators.
Context `{Quoting} `{Collaborators}.

Lemma builds_loop_length (projectKey : string) (entries : list string)
    (acc : Logged (list BuildSource)) :
  length (fst (foldl (buildsEntry projectKey) acc entries))
  = length (fst acc) + length entries.
Proof.
  revert acc. induction entries as [|entry entries IH]; intros acc; simpl; [lia|].
  rewrite IH. unfold buildsEntry.
  destruct (parseKeyValueString entry) as [m w]. simpl.
  rewrite length_app. simpl. lia.
Qed.

Lemma bundles_loop_length (projectKey : string) (entries : list string)
    (acc : Logged (list ReleaseBundleSource)) :
  length (fst (foldl (bundlesEntry projectKey) acc entries))
  = length (fst acc) + length entries.
Proof.
  revert acc. induction entries as [|entry entries IH]; intros acc; simpl; [lia|].
  rewrite IH. unfold bundlesEntry.
  destruct (parseKeyValueString entry) as [m w]. simpl.
  rewrite length_app. simpl. lia.
Qed.



(** The builds builder always appends exactly one source of type
    "builds", with one build per ';'-separated entry. *)
Lemma buildRbBuildsSources_appends (sourcesStr projectKey : string)
    (sources : list RbSource) :
  exists buildSources warnings,
    buildRbBuildsSources sourcesStr projectKey sources
    = (sources ++ [mkSource "builds" buildSources [] [] [] ""], warnings) /\
    length buildSources = length (Split sourcesStr ";"%char).
Proof.
  unfold buildRbBuildsSources.
  pose proof (builds_loop_length projectKey (Split sourcesStr ";"%char) ([], [])) as Hlen.
  destruct (foldl (buildsEntry projectKey) ([], []) (Split sourcesStr ";"%char))
    as [buildSources warnings].
  simpl in Hlen. exists buildSources, warnings. split; [|exact Hlen].
  destruct buildSources as [|b bs]; [|reflexivity].
  pose proof (Split_nonempty sourcesStr ";"%char) as Hne.
  destruct (Split sourcesStr ";"%char); [congruence | discriminate].
Qed.

Lemma buildRbReleaseBundlesSources_appends (sourcesStr projectKey : string)
    (sources : list RbSource) :
  exists bundleSources warnings,
    buildRbReleaseBundlesSources sourcesStr projectKey sources
    = (sources ++ [mkSource "release_bundles" [] bundleSources [] [] ""], warnings) /\
    length bundleSources = length (Split sourcesStr ";"%char).
Proof.
  unfold buildRbReleaseBundlesSources.
  pose proof (bundles_loop_length projectKey (Split sourcesStr ";"%char) ([], [])) as Hlen.
  destruct (foldl (bundlesEntry projectKey) ([], []) (Split sourcesStr ";"%char))
    as [bundleSources warnings].
  simpl in Hlen. exists bundleSources, warnings. split; [|exact Hlen].
  destruct bundleSources as [|b bs]; [|reflexivity].
  pose proof (Split_nonempty sourcesStr ";"%char) as Hne.
  destruct (Split sourcesStr ";"%char); [congruence | discriminate].
Qed.


End WithCollaborators.

End CommandsFacts.

Module ResolutionFacts.
Import GoStrings GoStrconv Coreutils Services Spec Validation Commands Fixtures CommandsFacts.




Lemma flags_nonempty (builds bundles : string) :
  builds <> "" \/ bundles <> "" ->
  negb (String.eqb builds "") || negb (String.eqb bundles "") = true.
Proof.
  intros [E|E]; apply String.eqb_neq in E; rewrite E; simpl;
    [reflexivity | apply orb_true_r].
Qed.

Section WithCollaborators.
Context `{Quoting} `{Collaborators}.

Lemma create_flags_first (rbc : ReleaseBundleCreateCommand) :
  sourcesBuilds rbc <> "" \/ sourcesReleaseBundles rbc <> "" ->
  getMultipleSourcesIfDefined rbc
  = (Ok (fst (buildReleaseBundleSourcesParams rbc)),
     snd (buildReleaseBundleSourcesParams rbc)).
Proof.
  intros Hflags. unfold getMultipleSourcesIfDefined,
    atLeastASingleMultiSourceRBDefinedFromCommand.
  rewrite orb_comm, (flags_nonempty _ _ Hflags).
  destruct (buildReleaseBundleSourcesParams rbc); reflexivity.
Qed.

Lemma update_flags_first (rbu : Update.ReleaseBundleUpdateCommand) :
  Update.sourcesBuilds rbu <> "" \/ Update.sourcesReleaseBundles rbu <> "" ->
  Update.getAddSources rbu
  = (Ok (fst (Update.buildSourcesFromCommandFlags rbu)),
     snd (Update.buildSourcesFromCommandFlags rbu)).
Proof.
  intros Hflags. unfold Update.getAddSources.
  rewrite (flags_nonempty _ _ Hflags).
  destruct (Update.buildSourcesFromCommandFlags rbu); reflexivity.
Qed.

Lemma create_both_flags (rbc : ReleaseBundleCreateCommand) :
  sourcesBuilds rbc <> "" -> sourcesReleaseBundles rbc <> "" ->
  exists builds bundles warnings,
    buildReleaseBundleSourcesParams rbc
    = ([mkSource "builds" builds [] [] [] ""; mkSource "release_bundles" [] bundles [] [] ""],
       warnings).
Proof.
  intros Hb Hr. unfold buildReleaseBundleSourcesParams.
  apply String.eqb_neq in Hb, Hr. rewrite Hb, Hr. simpl.
  destruct (buildRbBuildsSources_appends (sourcesBuilds rbc) (rbProjectKey rbc) [])
    as (builds & w1 & -> & _).
  destruct (buildRbReleaseBundlesSources_appends (sourcesReleaseBundles rbc)
              (rbProjectKey rbc) ([] ++ [mkSource "builds" builds [] [] [] ""]))
    as (bundles & w2 & -> & _).
  exists builds, bundles, (w1 ++ w2). reflexivity.
Qed.

Lemma update_both_flags (rbu : Update.ReleaseBundleUpdateCommand) :
  Update.sourcesBuilds rbu <> "" -> Update.sourcesReleaseBundles rbu <> "" ->
  exists builds bundles warnings,
    Update.buildSourcesFromCommandFlags rbu
    = ([mkSource "builds" builds [] [] [] ""; mkSource "release_bundles" [] bundles [] [] ""],
       warnings).
Proof.
  intros Hb Hr. unfold Update.buildSourcesFromCommandFlags.
  apply String.eqb_neq in Hb, Hr. rewrite Hb, Hr. simpl.
  destruct (buildRbBuildsSources_appends (Update.sourcesBuilds rbu)
              (Update.rbProjectKey rbu) [])
    as (builds & w1 & -> & _).
  destruct (buildRbReleaseBundlesSources_appends (Update.sourcesReleaseBundles rbu)
              (Update.rbProjectKey rbu) ([] ++ [mkSource "builds" builds [] [] [] ""]))
    as (bundles & w2 & -> & _).
  exists builds, bundles, (w1 ++ w2). reflexivity.
Qed.

(** C10: when both source flags are non-empty, the list assembled for
    create and for update is the builds source followed by the
    release-bundles source, so its first entry has type "builds" and the
    repository-key rewrite leaves the list as it is. *)
Theorem flag_sources_builds_first :
  (forall rbc : ReleaseBundleCreateCommand,
      sourcesBuilds rbc <> "" -> sourcesReleaseBundles rbc <> "" ->
      exists b r warnings,
        getMultipleSourcesIfDefined rbc = (Ok [b; r], warnings) /\
        RbSourceType b = "builds" /\ RbSourceType r = "release_bundles" /\
        updateReleaseBundleRepoKeyWithProject [b; r] = [b; r]) /\
  (forall rbu : Update.ReleaseBundleUpdateCommand,
      Update.sourcesBuilds rbu <> "" -> Update.sourcesReleaseBundles rbu <> "" ->
      exists b r warnings,
        Update.getAddSources rbu = (Ok [b; r], warnings) /\
        RbSourceType b = "builds" /\ RbSourceType r = "release_bundles" /\
        updateReleaseBundleRepoKeyWithProject [b; r] = [b; r]).
Proof.
  split.
  - intros rbc Hb Hr.
    destruct (create_both_flags rbc Hb Hr) as (builds & bundles & w & E).
    eexists _, _, w. rewrite create_flags_first by (left; exact Hb). rewrite E.
    repeat split.
  - intros rbu Hb Hr.
    destruct (update_both_flags rbu Hb Hr) as (builds & bundles & w & E).
    eexists _, _, w. rewrite update_flags_first by (left; exact Hb). rewrite E.
    repeat split.
Qed.

End WithCollaborators.



Lemma flag_sources_builds_first_witness :
  (exists b r warnings,
      @getMultipleSourcesIfDefined plainQuote offline (createWithFlags None)
      = (Ok [b; r], warnings) /\
      RbSourceType b = "builds" /\ RbSourceType r = "release_bundles" /\
      updateReleaseBundleRepoKeyWithProject [b; r] = [b; r]) /\
  (exists b r warnings,
      @Update.getAddSources plainQuote offline updateWithFlags = (Ok [b; r], warnings) /\
      RbSourceType b = "builds" /\ RbSourceType r = "release_bundles" /\
      updateReleaseBundleRepoKeyWithProject [b; r] = [b; r]).
Proof.
  split.
  - apply (proj1 (@flag_sources_builds_first plainQuote offline)); discriminate.
  - apply (proj2 (@flag_sources_builds_first plainQuote offline)); discriminate.
Defined.

Example update_scenario_C :
  @Update.getAddSources plainQuote offline (updateWithBuilds None)
  = (Ok [ mkSource "builds" [ {| BuildRepository := "artifactory-build-info";
                                 BuildName := "b1"; BuildNumber := "5";
                                 IncludeDependencies := false |} ] [] [] [] "" ], []).
Proof. vm_compute. reflexivity. Qed.

End ResolutionFacts.

Module CliFacts.
Import Spec Cli Fixtures.

Section WithFramework.
Context `{Flagkit} `{SpecReader}.

(** C8, as amended: when none of the builds, release-bundles and
    source-type flags is set (with one of them the function returns no
    spec and no error), a set spec flag makes the result the spec that
    GetSpec reads, whatever the build-name and build-number flags and the
    environment are; without the spec flag, when the build name or the
    build number (each taken from its flag if set, else from
    JFROG_CLI_BUILD_NAME / JFROG_CLI_BUILD_NUMBER) is empty, the result is
    the fixed error naming the spec flag, both build flags and both
    environment variables. *)
Theorem getReleaseBundleCreationSpec_precedence (env : Env) (c : Context) :
  IsFlagSet c Builds = false -> IsFlagSet c ReleaseBundles = false ->
  IsFlagSet c SourceTypeReleaseBundles = false -> IsFlagSet c SourceTypeBuilds = false ->
  (IsFlagSet c "spec" = true ->
     getReleaseBundleCreationSpec env c = (s ← GetSpec c; Ok (Some s))) /\
  (IsFlagSet c "spec" = false ->
     getStringFlagOrEnv env c BuildName "JFROG_CLI_BUILD_NAME" = "" \/
     getStringFlagOrEnv env c BuildNumber "JFROG_CLI_BUILD_NUMBER" = "" ->
     getReleaseBundleCreationSpec env c = Err missingSpecErrMsg) /\
  missingSpecErrMsg
  = "either the --spec flag must be provided, or both --build-name and --build-number flags (or their corresponding environment variables JFROG_CLI_BUILD_NAME and JFROG_CLI_BUILD_NUMBER) must be set".
Proof.
  intros Hb Hr Hsr Hsb. unfold getReleaseBundleCreationSpec.
  rewrite Hb, Hr, Hsr, Hsb. simpl. split; [|split; [|reflexivity]].
  - intros ->. reflexivity.
  - intros -> Hmissing. unfold envBuildName, envBuildNumber.
    destruct Hmissing as [-> | ->]; simpl; [reflexivity|].
    rewrite andb_false_r. reflexivity.
Qed.

End WithFramework.

Lemma getReleaseBundleCreationSpec_precedence_witness :
  @getReleaseBundleCreationSpec flagNames noSpecFile ∅
    {| stringFlags := {[ "spec" := "spec.json"; "build-name" := "b"; "build-number" := "1" ]};
       boolFlags := ∅ |}
  = Err "spec file not found" /\
  @getReleaseBundleCreationSpec flagNames noSpecFile ∅
    {| stringFlags := {[ "build-name" := "Common-builds" ]}; boolFlags := ∅ |}
  = Err missingSpecErrMsg.
Proof.
  split.
  - apply (@getReleaseBundleCreationSpec_precedence flagNames noSpecFile ∅
             {| stringFlags := {[ "spec" := "spec.json"; "build-name" := "b";
                                  "build-number" := "1" ]};
                boolFlags := ∅ |}); reflexivity.
  - apply (@getReleaseBundleCreationSpec_precedence flagNames noSpecFile ∅
             {| stringFlags := {[ "build-name" := "Common-builds" ]}; boolFlags := ∅ |});
      try reflexivity.
    right. reflexivity.
Defined.

(** C8 as stated fails: with the deprecated builds flag set, and neither a
    spec flag nor a build name and number, the function returns no spec and
    no error. *)
Lemma getReleaseBundleCreationSpec_builds_flag_no_error :
  let c := {| stringFlags := {[ "builds" := "/path/to/file" ]}; boolFlags := ∅ |} in
  IsFlagSet c "spec" = false /\
  @getStringFlagOrEnv ∅ c "build-name" "JFROG_CLI_BUILD_NAME" = "" /\
  @getStringFlagOrEnv ∅ c "build-number" "JFROG_CLI_BUILD_NUMBER" = "" /\
  @getReleaseBundleCreationSpec flagNames noSpecFile ∅ c = Ok None.
Proof. repeat split. Qed.

End CliFacts.

Module DetectionFacts.
Import GoStrconv Coreutils Services Spec Validation Commands Fixtures MoreFixtures Views.
Import ValidationFacts.

Section WithQuoting.
Context `{Quoting}.

(** Chooses the disjunct that holds by computation. *)
Ltac pick_case :=
  first [ left; repeat split; reflexivity
        | right; pick_case
        | repeat split; reflexivity ].

(** What an accepted file group looks like: the switch of [validateFile]
    read backwards. *)
Lemma validateFile_accepted (file : File) (flag : bool) (t : SourceType) :
  validateFile file flag = (t, None) ->
  (flag = false ->
     SumTrueValues [isAql file; isBuild file; isBundle file; isPattern file] = 1) /\
  ((t = Aql /\ isAql file = true) \/
   (t = Builds /\ isAql file = false /\ isBuild file = true) \/
   (t = ReleaseBundles /\ isAql file = false /\ isBuild file = false /\ isBundle file = true) \/
   (t = Artifacts /\ isAql file = false /\ isBuild file = false /\ isBundle file = false
    /\ isPattern file = true) \/
   (t = Packages /\ isAql file = false /\ isBuild file = false /\ isBundle file = false
    /\ isPattern file = false /\ isPackage file = true)).
Proof.
  unfold validateFile.
  destruct (StringToBool (Recursive file) true) as [isRecursive [e|]]; [discriminate|].
  destruct (hasUnsupportedFields file); [discriminate|].
  destruct flag; simpl.
  - destruct (isAql file), (isBuild file), (isBundle file), (isPattern file),
      (isPackage file); simpl; try discriminate;
      (intros E; injection E as <- _; split; [discriminate | pick_case]).
  - destruct (isAql file), (isBuild file), (isBundle file), (isPattern file); simpl;
      try discriminate;
      (intros E; injection E as <- _; split; [intros _; reflexivity | pick_case]).
Qed.

Lemma validateFile_single_then_multi (file : File) (t : SourceType) :
  validateFile file false = (t, None) -> validateFile file true = (t, None).
Proof.
  unfold validateFile.
  destruct (StringToBool (Recursive file) true) as [isRecursive [e|]]; [discriminate|].
  destruct (hasUnsupportedFields file); [discriminate|].
  destruct (SumTrueValues [isAql file; isBuild file; isBundle file; isPattern file] =? 1)%nat;
    cbn [negb andb]; [intros E; exact E | discriminate].
Qed.

Lemma detect_inv (files : list File) (flag : bool) (l : list SourceType) :
  detectSourceTypesFromSpec files flag = (l, None) ->
  Forall2 (fun file t => validateFile file flag = (t, None)) files l.
Proof.
  revert l. induction files as [|file files IH]; intros l; simpl.
  - intros E. injection E as <-. constructor.
  - destruct (validateFile file flag) as [t [e|]] eqn:Ev; [discriminate|].
    destruct (detectSourceTypesFromSpec files flag) as [l' [e|]]; [discriminate|].
    intros E. injection E as <-. constructor; [exact Ev | apply IH; reflexivity].
Qed.

Lemma detect_complete (files : list File) (flag : bool) (l : list SourceType) :
  Forall2 (fun file t => validateFile file flag = (t, None)) files l ->
  detectSourceTypesFromSpec files flag = (l, None).
Proof.
  induction 1 as [|file t files l Ev _ IH]; simpl; [reflexivity|].
  rewrite Ev, IH. reflexivity.
Qed.

Lemma detect_error_no_types (files : list File) (flag : bool) (l : list SourceType)
    (e : string) :
  detectSourceTypesFromSpec files flag = (l, Some e) -> l = [].
Proof.
  destruct files as [|file files]; simpl; [discriminate|].
  destruct (validateFile file flag) as [t [e'|]]; [congruence|].
  destruct (detectSourceTypesFromSpec files flag) as [l' [e'|]]; congruence.
Qed.

(** X1: a successful detection returns one source type per file group, in
    order, each the type validateFile gives to its group and one of the five
    constants; without multi-source support no group is ever detected as
    packages; a failed detection returns no types. *)
Theorem detectSourceTypesFromSpec_types (files : list File) (flag : bool)
    (l : list SourceType) :
  detectSourceTypesFromSpec files flag = (l, None) ->
  Forall2 (fun file t => validateFile file flag = (t, None)) files l /\
  length l = length files /\
  Forall (fun t => In t knownTypes) l /\
  (flag = false -> ~ In Packages l).
Proof.
  intros E. apply detect_inv in E. split; [exact E|].
  split; [symmetry; eapply Forall2_length; exact E|]. split.
  - induction E as [|file t files l Ev _ IH]; constructor; [|exact IH].
    apply validateFile_accepted in Ev. unfold knownTypes. simpl.
    destruct Ev as [_ [[-> _]|[[-> _]|[[-> _]|[[-> _]|[-> _]]]]]]; tauto.
  - intros ->. induction E as [|file t files l Ev _ IH]; simpl; [tauto|].
    intros [Hp|Hin]; [|exact (IH Hin)]. subst t.
    apply validateFile_accepted in Ev. destruct Ev as [Hsum Hcase].
    specialize (Hsum eq_refl).
    destruct Hcase as [[Ht _]|[[Ht _]|[[Ht _]|[[Ht _]|(_ & Ha & Hb & Hc & Hd & _)]]]];
      try discriminate Ht.
    rewrite Ha, Hb, Hc, Hd in Hsum. discriminate.
Qed.

End WithQuoting.

(** *** Which detected lists validateCreationSources accepts *)

Lemma aqlOccurrences_cons (t : SourceType) (l : list SourceType) :
  aqlOccurrences (t :: l) = (if String.eqb t Aql then 1 else 0) + aqlOccurrences l.
Proof. unfold aqlOccurrences. simpl. destruct (String.eqb t Aql); reflexivity. Qed.

Lemma aqlOccurrences_replicate (n : nat) (t : SourceType) :
  aqlOccurrences (replicate n t) = if String.eqb t Aql then n else 0.
Proof.
  induction n as [|n IH]; simpl; [destruct (String.eqb t Aql); reflexivity|].
  rewrite aqlOccurrences_cons, IH. destruct (String.eqb t Aql); reflexivity.
Qed.

(** When the loop runs to its end in single-source mode, every element
    it saw has the type of the first one and is not packages. *)
Lemma validateLoop_single_end (all : list SourceType) (first : SourceType)
    (rest : list SourceType) (cnt k : nat) :
  validateLoop all first false rest cnt = inr k ->
  rest = replicate (length rest) first /\ (rest <> [] -> first <> Packages).
Proof.
  revert cnt. induction rest as [|src rest IH]; intros cnt; simpl.
  - intros _. split; [reflexivity | congruence].
  - destruct (String.eqb_spec src Packages) as [Ep|Ep]; [discriminate|].
    destruct (String.eqb_spec src first) as [Ef|Ef]; [|discriminate]. simpl.
    intros E. apply IH in E. destruct E as [Hrep _]. subst src.
    split; [f_equal; exact Hrep | intros _; exact Ep].
Qed.

Lemma accepted_multi (l : list SourceType) :
  validateCreationSources l true = None <-> l <> [] /\ aqlOccurrences l <= 1.
Proof.
  destruct l as [|first rest]; [split; [discriminate | intros [E _]; congruence]|].
  unfold validateCreationSources. rewrite validateLoop_multi. simpl.
  destruct (Nat.ltb_spec 1 (aqlOccurrences (first :: rest))) as [Hlt|Hle].
  - split; [discriminate | intros [_ Hle]; lia].
  - split; [intros _; split; [discriminate | exact Hle] | reflexivity].
Qed.

Lemma accepted_single (l : list SourceType) :
  validateCreationSources l false = None <->
  exists first n, l = first :: replicate n first /\ first <> Packages /\
                  (first = Aql -> n = 0).
Proof.
  split.
  - destruct l as [|first rest]; [discriminate|].
    unfold validateCreationSources.
    destruct (validateLoop (first :: rest) first false (first :: rest) 0) as [e|k] eqn:E.
    + destruct (validateLoop_cases (first :: rest) first false (first :: rest) 0)
        as [E'|[E'|E']]; rewrite E' in E; try discriminate;
        injection E as <-; discriminate.
    + pose proof (validateLoop_single_end _ _ _ _ _ E) as [Hrep Hne].
      destruct (validateLoop_cases (first :: rest) first false (first :: rest) 0)
        as [E'|[E'|E']]; rewrite E' in E; try discriminate.
      injection E as <-. simpl.
      destruct (Nat.ltb_spec 1 (aqlOccurrences (first :: rest))) as [Hlt|Hle];
        [discriminate|]. intros _.
      simpl in Hrep. injection Hrep as Hrest.
      exists first, (length rest). split; [congruence|].
      split; [apply Hne; discriminate|].
      intros ->. rewrite Hrest, aqlOccurrences_cons, aqlOccurrences_replicate in Hle.
      simpl in Hle. lia.
  - intros (first & n & -> & Hne & Haql).
    pose proof (validateCreationSources_run first n [] Hne) as E.
    rewrite app_nil_r in E. rewrite E. simpl.
    destruct (String.eqb_spec first Aql) as [Ea|Ea]; [|reflexivity].
    rewrite (Haql Ea). reflexivity.
Qed.

(** X2: in single-source mode validateCreationSources accepts exactly the
    non-empty lists whose entries all have the type of the first, that type
    not being packages, and of a single entry when the type is aql; in
    multi-source mode it accepts exactly the non-empty lists with at most
    one aql entry. *)
Theorem validateCreationSources_accepts (l : list SourceType) :
  (validateCreationSources l false = None <->
   exists first n, l = first :: replicate n first /\ first <> Packages /\
                   (first = Aql -> n = 0)) /\
  (validateCreationSources l true = None <-> l <> [] /\ aqlOccurrences l <= 1).
Proof. split; [apply accepted_single | apply accepted_multi]. Qed.

Lemma validateCreationSources_single_then_multi (l : list SourceType) :
  validateCreationSources l false = None -> validateCreationSources l true = None.
Proof.
  intros E. apply accepted_single in E. destruct E as (first & n & -> & _ & Haql).
  apply accepted_multi. split; [discriminate|].
  change (first :: replicate n first) with (replicate (S n) first).
  rewrite aqlOccurrences_replicate.
  destruct (String.eqb_spec first Aql) as [Ea|Ea]; [rewrite (Haql Ea)|]; lia.
Qed.

Section Pipeline.
Context `{Quoting}.

Lemma detect_single_then_multi (files : list File) (l : list SourceType) :
  detectSourceTypesFromSpec files false = (l, None) ->
  detectSourceTypesFromSpec files true = (l, None).
Proof.
  intros E. apply detect_complete. apply detect_inv in E.
  induction E as [|file t files l Ev _ IH]; constructor; [|exact IH].
  apply validateFile_single_then_multi. exact Ev.
Qed.

Lemma identify_inv (files : list File) (flag : bool) (l : list SourceType) :
  validateAndIdentifyRbCreationSpec files flag = (l, None) ->
  files <> [] /\ detectSourceTypesFromSpec files flag = (l, None) /\
  validateCreationSources l flag = None.
Proof.
  unfold validateAndIdentifyRbCreationSpec.
  destruct files as [|file files]; [discriminate|].
  destruct (detectSourceTypesFromSpec (file :: files) flag) as [l' [e|]]; [discriminate|].
  destruct (validateCreationSources l' flag) as [e|] eqn:Ev; [discriminate|].
  intros E. injection E as <-. split; [discriminate|]. split; [reflexivity | exact Ev].
Qed.

Lemma identify_complete (files : list File) (flag : bool) (l : list SourceType) :
  files <> [] -> detectSourceTypesFromSpec files flag = (l, None) ->
  validateCreationSources l flag = None ->
  validateAndIdentifyRbCreationSpec files flag = (l, None).
Proof.
  intros Hne Ed Ev. unfold validateAndIdentifyRbCreationSpec.
  destruct files as [|file files]; [congruence|]. rewrite Ed, Ev. reflexivity.
Qed.

(** X3: what is accepted without multi-source support is accepted with
    it, with the same result: a file group that validateFile accepts in
    single-source mode gets the same type in multi-source mode, and a spec
    that validateAndIdentifyRbCreationSpec accepts in single-source mode
    yields the same detected types in multi-source mode. *)
Theorem single_source_acceptance_carries_over :
  (forall file t, validateFile file false = (t, None) -> validateFile file true = (t, None)) /\
  (forall files l,
      validateAndIdentifyRbCreationSpec files false = (l, None) ->
      validateAndIdentifyRbCreationSpec files true = (l, None)).
Proof.
  split; [exact validateFile_single_then_multi|].
  intros files l E. apply identify_inv in E. destruct E as (Hne & Ed & Ev).
  apply identify_complete; [exact Hne | apply detect_single_then_multi; exact Ed|].
  apply validateCreationSources_single_then_multi. exact Ev.
Qed.

(** The AQL entries of the detected list are the file groups with an AQL
    query. *)
Lemma aql_entries_are_aql_groups (files : list File) (flag : bool) (l : list SourceType) :
  Forall2 (fun file t => validateFile file flag = (t, None)) files l ->
  aqlOccurrences l = length (List.filter isAql files).
Proof.
  induction 1 as [|file t files l Ev _ IH]; [reflexivity|].
  rewrite aqlOccurrences_cons, IH. simpl.
  apply validateFile_accepted in Ev.
  destruct Ev as [_ [[-> ->]|[(-> & -> & _)|[(-> & -> & _)|[(-> & -> & _)|(-> & -> & _)]]]]];
    reflexivity.
Qed.

Lemma createAqlQueryFromSpec_unique (files : list File) (file : File) :
  length (List.filter isAql files) <= 1 ->
  In file files -> isAql file = true ->
  createAqlQueryFromSpec files = "items.find(" +:+ AqlItemsFind file +:+ ")".
Proof.
  induction files as [|f files IH]; simpl; [tauto|].
  change (len_pos (AqlItemsFind f)) with (isAql f).
  destruct (isAql f) eqn:Ef; simpl; intros Hlen [->|Hin] Ha.
  - reflexivity.
  - exfalso. assert (Hin' : In file (List.filter isAql files))
      by (apply filter_In; split; assumption).
    destruct (List.filter isAql files); [exact Hin' | simpl in Hlen; lia].
  - congruence.
  - apply IH; assumption.
Qed.

(** X4: a spec that validateAndIdentifyRbCreationSpec accepts, in either
    mode, has at most one file group with an AQL query, and
    createAqlQueryFromSpec returns items.find(<query>) for the query of that
    group. *)
Theorem accepted_spec_has_one_aql_query (files : list File) (flag : bool)
    (l : list SourceType) :
  validateAndIdentifyRbCreationSpec files flag = (l, None) ->
  length (List.filter isAql files) <= 1 /\
  forall file, In file files -> isAql file = true ->
    createAqlQueryFromSpec files = "items.find(" +:+ AqlItemsFind file +:+ ")".
Proof.
  intros E. apply identify_inv in E. destruct E as (_ & Ed & Ev).
  apply detect_inv in Ed.
  assert (Hle : length (List.filter isAql files) <= 1).
  { rewrite <- (aql_entries_are_aql_groups files flag l Ed).
    destruct flag.
    - apply accepted_multi in Ev. tauto.
    - apply validateCreationSources_single_then_multi, accepted_multi in Ev. tauto. }
  split; [exact Hle|]. intros file Hin Ha.
  apply createAqlQueryFromSpec_unique; assumption.
Qed.

End Pipeline.
Lemma detectSourceTypesFromSpec_types_witness :
  @detectSourceTypesFromSpec plainQuote [buildGroup; artifactsGroup] false
  = ([Services.Builds; Artifacts], None) /\
  Forall2 (fun file t => @validateFile plainQuote file false = (t, None))
    [buildGroup; artifactsGroup] [Services.Builds; Artifacts] /\
  ~ In Packages [Services.Builds; Artifacts].
Proof.
  split; [reflexivity|].
  destruct (@detectSourceTypesFromSpec_types plainQuote [buildGroup; artifactsGroup] false
              [Services.Builds; Artifacts] eq_refl) as (Hall & _ & _ & Hno).
  split; [exact Hall | exact (Hno eq_refl)].
Defined.

Lemma single_source_acceptance_carries_over_witness :
  @validateFile plainQuote buildGroup true = (Services.Builds, None) /\
  @validateAndIdentifyRbCreationSpec plainQuote [buildGroup; buildGroup] true
  = ([Services.Builds; Services.Builds], None).
Proof.
  destruct (@single_source_acceptance_carries_over plainQuote) as [Hfile Hspec].
  split.
  - apply Hfile. reflexivity.
  - apply Hspec. reflexivity.
Defined.

Lemma accepted_spec_has_one_aql_query_witness :
  @validateAndIdentifyRbCreationSpec plainQuote [buildGroup; aqlOnly] true
  = ([Services.Builds; Aql], None) /\
  length (List.filter isAql [buildGroup; aqlOnly]) <= 1 /\
  createAqlQueryFromSpec [buildGroup; aqlOnly] = "items.find(abc)".
Proof.
  split; [reflexivity|].
  destruct (@accepted_spec_has_one_aql_query plainQuote [buildGroup; aqlOnly] true
              [Services.Builds; Aql] eq_refl) as [Hlen Hquery].
  split; [exact Hlen|].
  apply (Hquery aqlOnly); [right; left; reflexivity | reflexivity].
Defined.

End DetectionFacts.

Module RunFacts.
Import GoStrings GoStrconv Coreutils Services Spec Validation Commands Common Create.
Import Fixtures MoreFixtures Views ValidationFacts CommandsFacts ResolutionFacts DetectionFacts.

(** A loop that appends one element per iteration is a map. *)
Lemma foldl_snoc_fmap {A B} (f : A -> B) (l : list A) (acc : list B) :
  foldl (fun acc x => acc ++ [f x]) acc l = acc ++ (f <$> l).
Proof.
  revert acc. induction l as [|x l IH]; intros acc; simpl.
  - symmetry. apply app_nil_r.
  - rewrite IH, <- app_assoc. reflexivity.
Qed.

Lemma convertProjectKeyToRepositoryKey_fmap (bundles : list ReleaseBundleSource) :
  convertProjectKeyToRepositoryKey bundles = setRepositoryKey <$> bundles.
Proof. exact (foldl_snoc_fmap setRepositoryKey bundles []). Qed.

Lemma setRepositoryKey_idempotent (rb : ReleaseBundleSource) :
  setRepositoryKey (setRepositoryKey rb) = setRepositoryKey rb.
Proof.
  unfold setRepositoryKey.
  destruct (String.eqb (ProjectKey rb) "") eqn:E; simpl; rewrite E; reflexivity.
Qed.

(** The rewrite on a list made of one release-bundles source. *)
Lemma single_bundles_source_rewrite (bundles : list ReleaseBundleSource) :
  updateReleaseBundleRepoKeyWithProject [mkSource "release_bundles" [] bundles [] [] ""]
  = [mkSource "release_bundles" [] (convertProjectKeyToRepositoryKey bundles) [] [] ""].
Proof.
  rewrite updateReleaseBundleRepoKeyWithProject_first by reflexivity.
  rewrite convertProjectKeyToRepositoryKey_fmap. reflexivity.
Qed.

(** X5: convertProjectKeyToRepositoryKey, used when creating from release
    bundles alone, computes what updateReleaseBundleRepoKeyWithProject
    computes on a multi-source list made of that one release-bundles
    source. *)
Theorem repository_key_paths_agree (bundles : list ReleaseBundleSource) :
  updateReleaseBundleRepoKeyWithProject [mkSource "release_bundles" [] bundles [] [] ""]
  = [mkSource "release_bundles" [] (convertProjectKeyToRepositoryKey bundles) [] [] ""].
Proof. exact (single_bundles_source_rewrite bundles). Qed.

(** X6: the repository-key rewrite is idempotent: applying it to its own
    result changes nothing. *)
Theorem updateReleaseBundleRepoKeyWithProject_idempotent (sources : list RbSource) :
  updateReleaseBundleRepoKeyWithProject (updateReleaseBundleRepoKeyWithProject sources)
  = updateReleaseBundleRepoKeyWithProject sources.
Proof.
  destruct sources as [|first rest]; [reflexivity|].
  destruct (String.eqb_spec (RbSourceType first) "release_bundles") as [Et|Et].
  - rewrite (updateReleaseBundleRepoKeyWithProject_first first rest Et).
    set (g := fun s => withReleaseBundles s (setRepositoryKey <$> RbReleaseBundles s)).
    change (g <$> first :: rest) with (g first :: (g <$> rest)).
    rewrite (updateReleaseBundleRepoKeyWithProject_first (g first) (g <$> rest) Et).
    fold g. change (g first :: (g <$> rest)) with (g <$> first :: rest).
    rewrite <- list_fmap_compose.
    apply list_fmap_ext. intros _ s _. unfold compose, g, withReleaseBundles. simpl.
    f_equal. rewrite <- list_fmap_compose.
    apply list_fmap_ext. intros _ rb _. apply setRepositoryKey_idempotent.
  - assert (E : updateReleaseBundleRepoKeyWithProject (first :: rest) = first :: rest).
    { apply updateReleaseBundleRepoKeyWithProject_skip.
      intros f Hf. injection Hf as <-. exact Et. }
    rewrite E. exact E.
Qed.

Section WithCollaborators.
Context `{Quoting} `{Collaborators} `{Platform}.

(** How [Run] can end with a call on the service. *)
Lemma Run_inv (rbc : ReleaseBundleCreateCommand) (call : ServiceCall)
    (warnings : list string) :
  Run rbc = (Ok call, warnings) ->
  callProjectKey call = rbProjectKey rbc /\
  ((exists first rest,
       identifySourceTypeBySpecOrByLegacyCommands rbc multiSourcesSupported
       = (first :: rest, None) /\
       isSingleSourceType (first :: rest) = Some true /\
       dispatchSingleSource rbc first = Ok (callRequest call) /\ warnings = []) \/
   (multiSourcesSupported = true /\
    exists sources,
      getMultipleSourcesIfDefined rbc = (Ok sources, warnings) /\
      callRequest call
      = FromMultipleSources (updateReleaseBundleRepoKeyWithProject sources))).
Proof.
  unfold Run. fold multiSourcesSupported.
  destruct validateArtifactoryVersionSupported; [discriminate|].
  destruct CreateLifecycleServiceManager; [discriminate|].
  destruct (identifySourceTypeBySpecOrByLegacyCommands rbc multiSourcesSupported)
    as [sourceTypes [e|]]; [discriminate|].
  assert (Hmulti :
    (if multiSourcesSupported then
       match getMultipleSourcesIfDefined rbc with
       | (Err err, w) => (Err err, w)
       | (Ok sources, w) =>
           (Ok {| callProjectKey := rbProjectKey rbc;
                  callRequest :=
                    FromMultipleSources (updateReleaseBundleRepoKeyWithProject sources) |},
            w)
       end
     else (Err "release bundle creation failed, unable to identify source for creation", []))
    = (Ok call, warnings) ->
    callProjectKey call = rbProjectKey rbc /\
    multiSourcesSupported = true /\
    exists sources,
      getMultipleSourcesIfDefined rbc = (Ok sources, warnings) /\
      callRequest call
      = FromMultipleSources (updateReleaseBundleRepoKeyWithProject sources)).
  { destruct multiSourcesSupported; [|discriminate].
    destruct (getMultipleSourcesIfDefined rbc) as [[sources|err] w]; [|discriminate].
    intros E. injection E as <- <-. split; [reflexivity|]. split; [reflexivity|].
    exists sources. split; reflexivity. }
  destruct sourceTypes as [|first rest];
    [intros E; destruct (Hmulti E) as [Hk Hm]; split; [exact Hk | right; exact Hm]|].
  destruct (isSingleSourceType (first :: rest)) as [[|]|] eqn:Es;
    try (intros E; destruct (Hmulti E) as [Hk Hm]; split; [exact Hk | right; exact Hm]).
  unfold withQueryParams.
  destruct (dispatchSingleSource rbc first) as [request|err] eqn:Ed; [|discriminate].
  intros E. injection E as <- <-. split; [reflexivity|].
  left. exists first, rest. repeat split; reflexivity || assumption.
Qed.

(** What each branch of the switch can send. *)
Lemma dispatchSingleSource_inv (rbc : ReleaseBundleCreateCommand) (t : SourceType)
    (request : CreationRequest) :
  dispatchSingleSource rbc t = Ok request ->
  (t = Aql /\ exists aql, request = FromAql aql) \/
  (t = Artifacts /\ exists l, request = FromArtifacts l) \/
  (t = Services.Builds /\ exists l, request = FromBuilds l /\ l <> []) \/
  (t = Services.ReleaseBundles /\
   exists l, request = FromReleaseBundles (setRepositoryKey <$> l) /\ l <> []) \/
  (t = Packages /\
   exists l, request = FromPackages l /\ l <> [] /\
             l = createPackageSourceFromSpec (specFiles (spec rbc))).
Proof.
  unfold dispatchSingleSource.
  destruct (String.eqb_spec t Aql) as [->|_].
  { unfold createFromAql. intros E. injection E as <-. left. eauto. }
  destruct (String.eqb_spec t Artifacts) as [->|_].
  { unfold createFromArtifacts.
    destruct (createArtifactSourceFromSpec _) as [l|e]; simpl; [|discriminate].
    intros E. injection E as <-. right; left. eauto. }
  destruct (String.eqb_spec t Services.Builds) as [->|_].
  { unfold createFromBuilds.
    destruct (createBuildSourceFromSpec rbc) as [l|e]; simpl; [|discriminate].
    destruct l as [|b l]; simpl; [discriminate|].
    intros E. injection E as <-. do 2 right; left. split; [reflexivity|].
    eexists. split; [reflexivity | discriminate]. }
  destruct (String.eqb_spec t Services.ReleaseBundles) as [->|_].
  { unfold createFromReleaseBundles.
    destruct (createReleaseBundleSourceFromSpec rbc) as [l|e]; simpl; [|discriminate].
    rewrite convertProjectKeyToRepositoryKey_fmap.
    destruct l as [|b l]; simpl; [discriminate|].
    intros E. injection E as <-. do 3 right; left. split; [reflexivity|].
    exists (b :: l). split; [reflexivity | discriminate]. }
  destruct (String.eqb_spec t Packages) as [->|_]; [|discriminate].
  unfold createFromPackages.
  destruct (createPackageSourceFromSpec (specFiles (spec rbc))) as [|p l] eqn:Ep; simpl;
    [discriminate|].
  intros E. injection E as <-. do 4 right. split; [reflexivity|].
  exists (p :: l). split; [reflexivity|]. split; [discriminate | reflexivity].
Qed.

(** The first identified type without multi-source support is never
    packages. *)
Lemma identify_single_mode_first (rbc : ReleaseBundleCreateCommand) (first : SourceType)
    (rest : list SourceType) :
  identifySourceTypeBySpecOrByLegacyCommands rbc false = (first :: rest, None) ->
  first <> Packages.
Proof.
  unfold identifySourceTypeBySpecOrByLegacyCommands.
  destruct (spec rbc) as [s|].
  - intros E. apply identify_inv in E. destruct E as (_ & _ & Ev).
    apply accepted_single in Ev. destruct Ev as (f & n & El & Hne & _).
    injection El as -> _. exact Hne.
  - destruct (String.eqb (buildsSpecPath rbc) ""),
      (String.eqb (releaseBundlesSpecPath rbc) ""); simpl;
      intros E; injection E as <- _ || discriminate E; discriminate.
Qed.

(** X7: on a platform without multi-source support the create command
    never sends a multi-source request and never a packages request. *)
Theorem Run_without_multi_source_support (rbc : ReleaseBundleCreateCommand)
    (call : ServiceCall) (warnings : list string) :
  multiSourcesSupported = false ->
  Run rbc = (Ok call, warnings) ->
  (forall sources, callRequest call <> FromMultipleSources sources) /\
  (forall packages, callRequest call <> FromPackages packages).
Proof.
  intros Hflag E. apply Run_inv in E.
  destruct E as [_ [(first & rest & Ei & _ & Ed & _) | [Hm _]]]; [|congruence].
  rewrite Hflag in Ei. apply identify_single_mode_first in Ei.
  apply dispatchSingleSource_inv in Ed.
  destruct Ed as [[_ [a ->]]|[[_ [l ->]]|[[_ (l & -> & _)]|[[_ (l & -> & _)]|[Ht _]]]]];
    try (split; intros; discriminate).
  congruence.
Qed.

(** X8: the create command never sends an empty request for builds,
    release bundles or packages: such a request has at least one entry, every
    release bundle with a project key carries the repository key
    <project>-release-bundles-v2, and every package has a name. *)
Theorem Run_requests_not_empty (rbc : ReleaseBundleCreateCommand)
    (call : ServiceCall) (warnings : list string) :
  Run rbc = (Ok call, warnings) ->
  (forall builds, callRequest call = FromBuilds builds -> builds <> []) /\
  (forall bundles, callRequest call = FromReleaseBundles bundles ->
     bundles <> [] /\
     Forall (fun rb => ProjectKey rb <> "" ->
                       RepositoryKey rb = ProjectKey rb +:+ "-release-bundles-v2") bundles) /\
  (forall packages, callRequest call = FromPackages packages ->
     packages <> [] /\ Forall (fun p => PackageName p <> "") packages).
Proof.
  intros E. apply Run_inv in E.
  destruct E as [_ [(first & rest & _ & _ & Ed & _) | [_ (sources & _ & ->)]]];
    [|repeat split; intros; discriminate].
  apply dispatchSingleSource_inv in Ed.
  destruct Ed as [[_ [a ->]]|[[_ [l ->]]|[[_ (l & -> & Hl)]|[[_ (l & -> & Hl)]
                 |[_ (l & -> & Hl & El)]]]]];
    (split; [|split]); intros x Ex; try discriminate Ex; injection Ex as <-.
  - exact Hl.
  - split; [destruct l; [congruence | discriminate]|].
    apply Forall_fmap, Forall_forall. intros rb _. simpl. unfold setRepositoryKey.
    destruct (String.eqb_spec (ProjectKey rb) ""); simpl; [congruence | reflexivity].
  - split; [exact Hl|]. rewrite El. unfold createPackageSourceFromSpec.
    apply List.Forall_map, List.Forall_forall. intros file Hin. simpl.
    apply list_elem_of_In in Hin. apply list_elem_of_filter in Hin.
    destruct Hin as [Hp _]. intros Ep. rewrite Ep in Hp. exact Hp.
Qed.

(** X9: when the spec or the legacy paths identify a single source type,
    the create command sends the single-source request built from them,
    with the project key of the command as query parameter, and does not read
    the source flags: two commands that differ in the source flags only end
    in the same way. *)
Theorem Run_single_source_ignores_flags (rbc rbc' : ReleaseBundleCreateCommand)
    (first : SourceType) (rest : list SourceType) :
  rbProjectKey rbc' = rbProjectKey rbc ->
  spec rbc' = spec rbc -> buildsSpecPath rbc' = buildsSpecPath rbc ->
  releaseBundlesSpecPath rbc' = releaseBundlesSpecPath rbc ->
  identifySourceTypeBySpecOrByLegacyCommands rbc multiSourcesSupported
  = (first :: rest, None) ->
  isSingleSourceType (first :: rest) = Some true ->
  Run rbc' = Run rbc /\
  (validateArtifactoryVersionSupported = None -> CreateLifecycleServiceManager = None ->
   Run rbc = (withQueryParams rbc (dispatchSingleSource rbc first), [])).
Proof.
  intros Ep Es Eb Er Ei Hsingle.
  assert (Ei' : identifySourceTypeBySpecOrByLegacyCommands rbc' multiSourcesSupported
                = (first :: rest, None)).
  { rewrite <- Ei. unfold identifySourceTypeBySpecOrByLegacyCommands.
    rewrite Es, Eb, Er. reflexivity. }
  assert (Ed : withQueryParams rbc' (dispatchSingleSource rbc' first)
               = withQueryParams rbc (dispatchSingleSource rbc first)).
  { unfold withQueryParams, dispatchSingleSource, createFromAql, createFromArtifacts,
      createFromBuilds, createFromReleaseBundles, createFromPackages,
      createBuildSourceFromSpec, createReleaseBundleSourceFromSpec,
      getBuildSourceFromBuildsSpec, getReleaseBundlesSourceFromBundlesSpec.
    rewrite Ep, Es, Eb, Er. reflexivity. }
  assert (Erun : forall c, identifySourceTypeBySpecOrByLegacyCommands c multiSourcesSupported
                           = (first :: rest, None) ->
                           Run c = (match validateArtifactoryVersionSupported with
                                    | Some err => Err err
                                    | None =>
                                        match CreateLifecycleServiceManager with
                                        | Some err => Err err
                                        | None =>
                                            withQueryParams c (dispatchSingleSource c first)
                                        end
                                    end, [])).
  { intros c Ec. unfold Run. fold multiSourcesSupported. rewrite Ec, Hsingle.
    destruct validateArtifactoryVersionSupported; [reflexivity|].
    destruct CreateLifecycleServiceManager; reflexivity. }
  rewrite (Erun rbc Ei), (Erun rbc' Ei'), Ed. split; [reflexivity|].
  intros -> ->. reflexivity.
Qed.

Lemma bundles_loop_fmap (projectKey : string) (entries : list string)
    (acc : Logged (list ReleaseBundleSource)) :
  foldl (bundlesEntry projectKey) acc entries
  = (fst acc ++ (bundleOfEntry projectKey <$> entries),
     snd acc ++ concat (map (fun entry => snd (parseKeyValueString entry)) entries)).
Proof.
  revert acc. induction entries as [|entry entries IH]; intros acc; simpl.
  - rewrite !app_nil_r. destruct acc; reflexivity.
  - rewrite IH. unfold bundlesEntry, bundleOfEntry.
    destruct (parseKeyValueString entry) as [m w]. simpl.
    rewrite <- !app_assoc. reflexivity.
Qed.

Lemma builds_loop_fmap (projectKey : string) (entries : list string)
    (acc : Logged (list BuildSource)) :
  foldl (buildsEntry projectKey) acc entries
  = (fst acc ++ (buildOfEntry projectKey <$> entries),
     snd acc ++ concat (map (fun entry => snd (parseKeyValueString entry)) entries)).
Proof.
  revert acc. induction entries as [|entry entries IH]; intros acc; simpl.
  - rewrite !app_nil_r. destruct acc; reflexivity.
  - rewrite IH. unfold buildsEntry, buildOfEntry.
    destruct (parseKeyValueString entry) as [m w]. simpl.
    rewrite <- !app_assoc. reflexivity.
Qed.

(** Both flag builders as maps over the entries. *)
Lemma flag_builders_fmap (sourcesStr projectKey : string) (sources : list RbSource) :
  buildRbBuildsSources sourcesStr projectKey sources
  = (sources ++ [mkSource "builds"
                   (buildOfEntry projectKey <$> Split sourcesStr ";"%char) [] [] [] ""],
     concat (map (fun entry => snd (parseKeyValueString entry))
               (Split sourcesStr ";"%char))) /\
  buildRbReleaseBundlesSources sourcesStr projectKey sources
  = (sources ++ [mkSource "release_bundles" []
                   (bundleOfEntry projectKey <$> Split sourcesStr ";"%char) [] [] ""],
     concat (map (fun entry => snd (parseKeyValueString entry))
               (Split sourcesStr ";"%char))).
Proof.
  pose proof (Split_nonempty sourcesStr ";"%char) as Hne.
  unfold buildRbBuildsSources, buildRbReleaseBundlesSources.
  rewrite builds_loop_fmap, bundles_loop_fmap. simpl.
  destruct (Split sourcesStr ";"%char) as [|entry entries]; [congruence|].
  split; reflexivity.
Qed.

(** X10: the two flag builders work entry by entry: the one source they
    append holds, in order, one build (one bundle) per ';'-separated entry,
    each computed from its own entry and the project key alone, and the log
    is the concatenation of the logs of the entries. *)
Theorem flag_builders_entrywise (sourcesStr projectKey : string) (sources : list RbSource) :
  buildRbBuildsSources sourcesStr projectKey sources
  = (sources ++ [mkSource "builds"
                   (buildOfEntry projectKey <$> Split sourcesStr ";"%char) [] [] [] ""],
     concat (map (fun entry => snd (parseKeyValueString entry))
               (Split sourcesStr ";"%char))) /\
  buildRbReleaseBundlesSources sourcesStr projectKey sources
  = (sources ++ [mkSource "release_bundles" []
                   (bundleOfEntry projectKey <$> Split sourcesStr ";"%char) [] [] ""],
     concat (map (fun entry => snd (parseKeyValueString entry))
               (Split sourcesStr ";"%char))).
Proof. exact (flag_builders_fmap sourcesStr projectKey sources). Qed.

(** X11: a create command that is given the release-bundles flag alone,
    on a platform with multi-source support, sends one release-bundles
    source with one bundle per ';'-separated entry; every bundle carries the
    project key of the command and, when that key is not empty, the
    repository key <project>-release-bundles-v2. *)
Theorem Run_release_bundles_flag_alone (rbc : ReleaseBundleCreateCommand) :
  spec rbc = None -> buildsSpecPath rbc = "" -> releaseBundlesSpecPath rbc = "" ->
  sourcesBuilds rbc = "" -> sourcesReleaseBundles rbc <> "" ->
  validateArtifactoryVersionSupported = None -> CreateLifecycleServiceManager = None ->
  multiSourcesSupported = true ->
  exists bundles,
    fst (Run rbc)
    = Ok {| callProjectKey := rbProjectKey rbc;
            callRequest :=
              FromMultipleSources [mkSource "release_bundles" [] bundles [] [] ""] |} /\
    length bundles = length (Split (sourcesReleaseBundles rbc) ";"%char) /\
    Forall (fun rb =>
              ProjectKey rb = rbProjectKey rbc /\
              RepositoryKey rb = if String.eqb (rbProjectKey rbc) "" then ""
                                 else rbProjectKey rbc +:+ "-release-bundles-v2") bundles.
Proof.
  intros Es Eb Er Esb Hflag Ev Em Hmulti.
  assert (Eg : getMultipleSourcesIfDefined rbc
               = (Ok [mkSource "release_bundles" []
                        (bundleOfEntry (rbProjectKey rbc)
                           <$> Split (sourcesReleaseBundles rbc) ";"%char) [] [] ""],
                  concat (map (fun entry => snd (parseKeyValueString entry))
                            (Split (sourcesReleaseBundles rbc) ";"%char)))).
  { rewrite create_flags_first by (right; exact Hflag).
    unfold buildReleaseBundleSourcesParams. rewrite Esb.
    apply String.eqb_neq in Hflag. rewrite Hflag.
    cbn [String.eqb negb].
    rewrite (proj2 (flag_builders_fmap _ _ _)). reflexivity. }
  assert (Erun : Run rbc
                 = (Ok {| callProjectKey := rbProjectKey rbc;
                          callRequest :=
                            FromMultipleSources
                              (updateReleaseBundleRepoKeyWithProject
                                 [mkSource "release_bundles" []
                                    (bundleOfEntry (rbProjectKey rbc)
                                       <$> Split (sourcesReleaseBundles rbc) ";"%char)
                                    [] [] ""]) |},
                    concat (map (fun entry => snd (parseKeyValueString entry))
                              (Split (sourcesReleaseBundles rbc) ";"%char)))).
  { unfold Run. fold multiSourcesSupported.
    rewrite Ev, Em, Hmulti. unfold identifySourceTypeBySpecOrByLegacyCommands.
    rewrite Es, Eb, Er. cbn [String.eqb negb isSingleSourceType].
    rewrite Eg. reflexivity. }
  rewrite Erun, single_bundles_source_rewrite, convertProjectKeyToRepositoryKey_fmap.
  eexists. split; [reflexivity|]. split; [rewrite !length_fmap; reflexivity|].
  apply Forall_fmap, Forall_fmap, Forall_forall. intros entry _.
  unfold setRepositoryKey, bundleOfEntry. simpl.
  destruct (String.eqb (rbProjectKey rbc) ""); simpl; split; reflexivity.
Qed.

End WithCollaborators.
Lemma Run_without_multi_source_support_witness :
  @multiSourcesSupported olderPlatform = false /\
  (exists call,
      @Create.Run plainQuote splitting olderPlatform (createFromSpec [buildGroup])
      = (Ok call, []) /\
      (forall sources, callRequest call <> FromMultipleSources sources) /\
      (forall packages, callRequest call <> FromPackages packages)).
Proof.
  split; [reflexivity|]. eexists. split; [reflexivity|].
  apply (@Run_without_multi_source_support plainQuote splitting olderPlatform
           (createFromSpec [buildGroup]) _ []); reflexivity.
Defined.

Lemma Run_requests_not_empty_witness :
  exists bundles,
    @Create.Run plainQuote splitting recentPlatform (createFromSpec [bundleGroup])
    = (Ok {| callProjectKey := ""; callRequest := FromReleaseBundles bundles |}, []) /\
    bundles <> [] /\
    Forall (fun rb => ProjectKey rb <> "" ->
                      RepositoryKey rb = ProjectKey rb +:+ "-release-bundles-v2") bundles.
Proof.
  eexists. split; [reflexivity|].
  destruct (@Run_requests_not_empty plainQuote splitting recentPlatform
              (createFromSpec [bundleGroup]) _ [] eq_refl) as (_ & Hbundles & _).
  apply Hbundles. reflexivity.
Defined.

Lemma Run_single_source_ignores_flags_witness :
  @Create.Run plainQuote splitting recentPlatform (createFromSpecAndFlags [buildGroup])
  = @Create.Run plainQuote splitting recentPlatform (createFromSpec [buildGroup]) /\
  @Create.Run plainQuote splitting recentPlatform (createFromSpec [buildGroup])
  = (withQueryParams (createFromSpec [buildGroup])
       (@dispatchSingleSource plainQuote splitting (createFromSpec [buildGroup])
          Services.Builds),
     []).
Proof.
  destruct (@Run_single_source_ignores_flags plainQuote splitting recentPlatform
              (createFromSpec [buildGroup]) (createFromSpecAndFlags [buildGroup])
              Services.Builds [] eq_refl eq_refl eq_refl eq_refl eq_refl eq_refl)
    as [Hsame Hrun].
  split; [exact Hsame | exact (Hrun eq_refl eq_refl)].
Defined.

Lemma Run_release_bundles_flag_alone_witness :
  exists bundles,
    fst (@Create.Run plainQuote splitting recentPlatform createFromBundlesFlag)
    = Ok {| callProjectKey := "my-project";
            callRequest :=
              FromMultipleSources [mkSource "release_bundles" [] bundles [] [] ""] |} /\
    length bundles = 2 /\
    Forall (fun rb => ProjectKey rb = "my-project" /\
                      RepositoryKey rb = "my-project-release-bundles-v2") bundles.
Proof.
  apply (@Run_release_bundles_flag_alone plainQuote splitting recentPlatform
           createFromBundlesFlag); try reflexivity. discriminate.
Defined.

End RunFacts.

Module SpecSourcesFacts.
Import GoStrings GoStrconv Coreutils Services Spec Validation Commands Common Create.
Import Fixtures MoreFixtures Views.

Lemma filter_sublist {A} (f : A -> bool) (l : list A) : sublist (List.filter f l) l.
Proof.
  induction l as [|x l IH]; simpl; [constructor|].
  destruct (f x); [apply sublist_skip | apply sublist_cons]; exact IH.
Qed.

Lemma filter_filter {A} (f g : A -> bool) (l : list A) :
  List.filter f (List.filter g l) = List.filter (fun x => g x && f x) l.
Proof.
  induction l as [|x l IH]; simpl; [reflexivity|].
  destruct (g x); simpl; [destruct (f x); rewrite IH; reflexivity | exact IH].
Qed.

Lemma firstOccurrences_sublist (l : list SourceType) : sublist (firstOccurrences l) l.
Proof.
  induction l as [|t l IH]; simpl; [constructor|].
  apply sublist_skip. transitivity (firstOccurrences l); [apply filter_sublist | exact IH].
Qed.

Lemma filter_NoDup {A} (f : A -> bool) (l : list A) : NoDup l -> NoDup (List.filter f l).
Proof.
  induction 1 as [|x l Hnin _ IH]; simpl; [constructor|].
  destruct (f x); [|exact IH]. constructor; [|exact IH].
  intros Hin. apply Hnin. apply list_elem_of_In, List.filter_In in Hin.
  apply list_elem_of_In. tauto.
Qed.

Lemma firstOccurrences_NoDup (l : list SourceType) : NoDup (firstOccurrences l).
Proof.
  induction l as [|t l IH]; simpl; constructor.
  - intros Hin. apply list_elem_of_In, List.filter_In in Hin. destruct Hin as [_ Hne].
    rewrite String.eqb_refl in Hne. discriminate.
  - apply filter_NoDup. exact IH.
Qed.

Lemma unhandled_empty (l : list SourceType) : List.filter (unhandled ∅) l = l.
Proof.
  induction l as [|t l IH]; simpl; [reflexivity|].
  assert (E : unhandled ∅ t = true).
  { unfold unhandled, handled, SourceTypeSet. rewrite lookup_empty. reflexivity. }
  rewrite E, IH. reflexivity.
Qed.

(** A type that was handled before adds nothing. *)
Lemma unhandled_skip (m : SourceTypeSet) (x : SourceType) (detected : list SourceType) :
  handled m x = true ->
  List.filter (unhandled m) (firstOccurrences (x :: detected))
  = List.filter (unhandled m) (firstOccurrences detected).
Proof.
  intros Hx. simpl. unfold unhandled at 1. rewrite Hx. simpl.
  rewrite filter_filter. apply List.filter_ext. intros u.
  destruct (String.eqb_spec u x) as [->|_]; simpl; [|reflexivity].
  unfold unhandled. rewrite Hx. reflexivity.
Qed.

(** A type that was not handled before comes first, and is handled from
    then on. *)
Lemma unhandled_step (m : SourceTypeSet) (x : SourceType) (detected : list SourceType) :
  handled m x = false ->
  List.filter (unhandled m) (firstOccurrences (x :: detected))
  = x :: List.filter (unhandled (<[x := true]> m)) (firstOccurrences detected).
Proof.
  intros Hx. simpl. unfold unhandled at 1. rewrite Hx. simpl. f_equal.
  rewrite filter_filter. apply List.filter_ext. intros u.
  unfold unhandled, handled, SourceTypeSet.
  destruct (String.eqb_spec u x) as [->|Hne]; simpl.
  - rewrite lookup_insert_eq. reflexivity.
  - rewrite lookup_insert_ne by congruence. reflexivity.
Qed.

Lemma appended_done (P : RbSource -> Prop) (m : SourceTypeSet) (acc : list RbSource) :
  appended P [] m acc acc.
Proof.
  exists []. rewrite app_nil_r. repeat split; constructor.
Qed.

Lemma appended_skip (P : RbSource -> Prop) (x : SourceType) (detected : list SourceType)
    (m : SourceTypeSet) (acc sources : list RbSource) :
  handled m x = true ->
  appended P detected m acc sources -> appended P (x :: detected) m acc sources.
Proof.
  intros Hx (new & -> & Hsub & Hall). exists new.
  rewrite (unhandled_skip m x detected Hx). repeat split; assumption.
Qed.

Lemma appended_step (P : RbSource -> Prop) (x : SourceType) (detected : list SourceType)
    (m : SourceTypeSet) (acc acc' sources : list RbSource) :
  handled m x = false ->
  (acc' = acc \/ exists src, acc' = acc ++ [src] /\ RbSourceType src = x /\ P src) ->
  appended P detected (<[x := true]> m) acc' sources ->
  appended P (x :: detected) m acc sources.
Proof.
  intros Hx Hacc (new & -> & Hsub & Hall). unfold appended.
  rewrite (unhandled_step m x detected Hx).
  destruct Hacc as [->|(src & -> & Hsrc & Hp)].
  - exists new. repeat split; [apply sublist_cons; exact Hsub | exact Hall].
  - exists (src :: new). rewrite <- app_assoc. split; [reflexivity|].
    rewrite fmap_cons, Hsrc. split; [apply sublist_skip; exact Hsub|].
    constructor; assumption.
Qed.

(** What the invariant says of a loop that starts with nothing handled
    and nothing appended. *)
Lemma appended_from_start (P : RbSource -> Prop) (detected : list SourceType)
    (sources : list RbSource) :
  appended P detected ∅ [] sources ->
  sublist (RbSourceType <$> sources) (firstOccurrences detected) /\
  NoDup (RbSourceType <$> sources) /\
  sublist (RbSourceType <$> sources) detected /\
  Forall P sources.
Proof.
  intros (new & -> & Hsub & Hall). rewrite unhandled_empty in Hsub. simpl.
  split; [exact Hsub|]. split; [|split; [|exact Hall]].
  - eapply sublist_NoDup; [apply firstOccurrences_NoDup | exact Hsub].
  - transitivity (firstOccurrences detected); [exact Hsub | apply firstOccurrences_sublist].
Qed.

Lemma nonempty_slice {A} (l : list A) :
  slice_len_pos l = true -> l <> [].
Proof. destruct l; [discriminate | discriminate]. Qed.

Section WithCollaborators.
Context `{Quoting} `{Collaborators}.

Lemma fromSpecLoop_appended (rbc : ReleaseBundleCreateCommand) (detected : list SourceType)
    (m : SourceTypeSet) (acc sources : list RbSource) :
  fromSpecLoop rbc detected m acc = Ok sources ->
  appended (createdFromSpec rbc) detected m acc sources.
Proof.
  revert m acc. induction detected as [|x detected IH]; intros m acc; simpl.
  - intros E. injection E as <-. apply appended_done.
  - destruct (handled m x) eqn:Hx; [intros E; apply (appended_skip _ _ _ _ _ _ Hx), IH, E|].
    destruct (String.eqb_spec x ReleaseBundles) as [Ex|_].
    { unfold appendReleaseBundlesSource.
      destruct (createReleaseBundleSourceFromSpec rbc) as [l|e] eqn:El; simpl; [|discriminate].
      intros E. apply IH in E. eapply appended_step; [exact Hx | | exact E].
      destruct (slice_len_pos l) eqn:Hl; [right | left; reflexivity].
      eexists. split; [reflexivity|]. split; [symmetry; exact Ex|].
      left. exists l. split; [exact El|]. split; [apply nonempty_slice, Hl | reflexivity]. }
    destruct (String.eqb_spec x Services.Builds) as [Ex|_].
    { unfold appendBuildsSource.
      destruct (createBuildSourceFromSpec rbc) as [l|e] eqn:El; simpl; [|discriminate].
      intros E. apply IH in E. eapply appended_step; [exact Hx | | exact E].
      destruct (slice_len_pos l) eqn:Hl; [right | left; reflexivity].
      eexists. split; [reflexivity|]. split; [symmetry; exact Ex|].
      right; left. exists l. split; [exact El|]. split; [apply nonempty_slice, Hl | reflexivity]. }
    destruct (String.eqb_spec x Artifacts) as [Ex|_].
    { unfold appendArtifactsSource.
      destruct (createArtifactSourceFromSpec _) as [l|e] eqn:El; simpl; [|discriminate].
      intros E. apply IH in E. eapply appended_step; [exact Hx | | exact E].
      destruct (slice_len_pos l) eqn:Hl; [right | left; reflexivity].
      eexists. split; [reflexivity|]. split; [symmetry; exact Ex|].
      do 2 right; left. exists l. split; [exact El|]. split; [apply nonempty_slice, Hl | reflexivity]. }
    destruct (String.eqb_spec x Packages) as [Ex|_].
    { intros E. apply IH in E. eapply appended_step; [exact Hx | | exact E].
      unfold appendPackagesSource.
      destruct (slice_len_pos (createPackageSourceFromSpec (specFiles (spec rbc)))) eqn:Hl;
        [right | left; reflexivity].
      eexists. split; [reflexivity|]. split; [symmetry; exact Ex|].
      do 3 right; left. split; [apply nonempty_slice, Hl | reflexivity]. }
    destruct (String.eqb_spec x Aql) as [Ex|_]; [|discriminate].
    intros E. apply IH in E. eapply appended_step; [exact Hx | | exact E].
    right. eexists. split; [reflexivity|]. split; [symmetry; exact Ex|].
    do 4 right. reflexivity.
Qed.

(** X12: the sources that the create command builds from a spec have
    pairwise distinct types, in the order in which the types were first
    detected: a type detected for several file groups gives one source. *)
Theorem buildReleaseBundleSourcesParamsFromSpec_one_source_per_type
    (rbc : ReleaseBundleCreateCommand) (detected : list SourceType)
    (sources : list RbSource) :
  buildReleaseBundleSourcesParamsFromSpec rbc detected = Ok sources ->
  NoDup (RbSourceType <$> sources) /\ sublist (RbSourceType <$> sources) detected /\
  sublist (RbSourceType <$> sources) (firstOccurrences detected).
Proof.
  intros E. apply fromSpecLoop_appended, appended_from_start in E. tauto.
Qed.

Lemma convertLoop_appended (files : list File) (detected : list SourceType)
    (m : SourceTypeSet) (acc sources : list RbSource) :
  (forall t, handled m t = true -> In t updatable) ->
  Update.convertLoop files detected m acc = Ok sources ->
  appended (convertedFromSpec files) detected m acc sources /\
  Forall (fun t => In t updatable) detected.
Proof.
  revert m acc. induction detected as [|x detected IH]; intros m acc Hm; simpl.
  - intros E. injection E as <-. split; [apply appended_done | constructor].
  - destruct (handled m x) eqn:Hx.
    { intros E. apply (IH _ _ Hm) in E. destruct E as [Ha Hall].
      split; [apply (appended_skip _ _ _ _ _ _ Hx), Ha|].
      constructor; [apply Hm, Hx | exact Hall]. }
    assert (Hm' : In x updatable ->
                  forall t, handled (<[x := true]> m) t = true -> In t updatable).
    { intros Hin t. unfold handled, SourceTypeSet in *.
      destruct (decide (x = t)) as [<-|Hne]; [intros _; exact Hin|].
      rewrite lookup_insert_ne by exact Hne. apply Hm. }
    destruct (String.eqb_spec x ReleaseBundles) as [Ex|_].
    { destruct (convertSpecToReleaseBundlesSource files) as [l|e] eqn:El; simpl;
        [|discriminate].
      assert (Hin : In x updatable) by (rewrite Ex; simpl; tauto).
      intros E. apply (IH _ _ (Hm' Hin)) in E. destruct E as [Ha Hall].
      split; [|constructor; assumption].
      eapply appended_step; [exact Hx | | exact Ha].
      destruct (slice_len_pos l) eqn:Hl; [right | left; reflexivity].
      eexists. split; [reflexivity|]. split; [symmetry; exact Ex|].
      left. exists l. split; [exact El|]. split; [apply nonempty_slice, Hl | reflexivity]. }
    destruct (String.eqb_spec x Services.Builds) as [Ex|_].
    { destruct (convertSpecToBuildsSource files) as [l|e] eqn:El; simpl; [|discriminate].
      assert (Hin : In x updatable) by (rewrite Ex; simpl; tauto).
      intros E. apply (IH _ _ (Hm' Hin)) in E. destruct E as [Ha Hall].
      split; [|constructor; assumption].
      eapply appended_step; [exact Hx | | exact Ha].
      destruct (slice_len_pos l) eqn:Hl; [right | left; reflexivity].
      eexists. split; [reflexivity|]. split; [symmetry; exact Ex|].
      right; left. exists l. split; [exact El|]. split; [apply nonempty_slice, Hl | reflexivity]. }
    destruct (String.eqb_spec x Artifacts) as [Ex|_]; [|discriminate].
    destruct (createArtifactSourceFromSpec files) as [l|e] eqn:El; simpl; [|discriminate].
    assert (Hin : In x updatable) by (rewrite Ex; simpl; tauto).
    intros E. apply (IH _ _ (Hm' Hin)) in E. destruct E as [Ha Hall].
    split; [|constructor; assumption].
    eapply appended_step; [exact Hx | | exact Ha].
    destruct (slice_len_pos l) eqn:Hl; [right | left; reflexivity].
    eexists. split; [reflexivity|]. split; [symmetry; exact Ex|].
    do 2 right. exists l. split; [exact El|]. split; [apply nonempty_slice, Hl | reflexivity].
Qed.

Lemma nothing_handled (t : SourceType) : handled ∅ t = true -> In t updatable.
Proof. unfold handled, SourceTypeSet. rewrite lookup_empty. discriminate. Qed.

(** X13: the update command builds sources from a spec only when every
    detected type is release bundles, builds or artifacts (an aql or packages
    file group makes it fail); the sources it builds have pairwise distinct
    types, in the order of first detection. *)
Theorem convertSpecToSources_updatable (files : list File) (detected : list SourceType)
    (sources : list RbSource) :
  Update.convertSpecToSources files detected = Ok sources ->
  Forall (fun t => In t updatable) detected /\
  NoDup (RbSourceType <$> sources) /\ sublist (RbSourceType <$> sources) detected /\
  sublist (RbSourceType <$> sources) (firstOccurrences detected).
Proof.
  intros E. apply (convertLoop_appended _ _ _ _ _ nothing_handled) in E.
  destruct E as [Ha Hall]. apply appended_from_start in Ha. tauto.
Qed.

(** X14: when convertSpecToReleaseBundlesSource succeeds, its result has
    one bundle per file group with a bundle field, in order: name and version
    are the two non-empty parts that ParseNameAndVersion returns for the
    field, the project key is that of the group and no repository key is
    set. *)
Theorem convertSpecToReleaseBundlesSource_result (files : list File)
    (bundles : list ReleaseBundleSource) :
  convertSpecToReleaseBundlesSource files = Ok bundles ->
  Forall2 (fun file rb =>
             ParseNameAndVersion (Bundle file)
             = Ok (ReleaseBundleName rb, ReleaseBundleVersion rb) /\
             ReleaseBundleName rb <> "" /\ ReleaseBundleVersion rb <> "" /\
             ProjectKey rb = Spec.Project file /\ RepositoryKey rb = "")
          (List.filter (fun file => negb (String.eqb (Bundle file) "")) files) bundles.
Proof.
  revert bundles. induction files as [|file files IH]; intros bundles; simpl.
  - intros E. injection E as <-. constructor.
  - destruct (String.eqb (Bundle file) "") eqn:Eb; simpl; [apply IH|].
    destruct (ParseNameAndVersion (Bundle file)) as [[name version]|e] eqn:Ep; simpl;
      [|discriminate].
    destruct (String.eqb_spec name "") as [En|En]; simpl; [discriminate|].
    destruct (String.eqb_spec version "") as [Ev|Ev]; simpl; [discriminate|].
    destruct (convertSpecToReleaseBundlesSource files) as [more|e]; simpl; [|discriminate].
    intros E. injection E as <-. constructor; [|apply IH; reflexivity].
    simpl. repeat split; assumption.
Qed.

(** X15: when convertSpecToBuildsSource succeeds, its result has one
    build per file group with a build field, in order, each with a non-empty
    name and a non-empty number (those the identifier resolves to), the
    build-info repository of the group's project and the parsed includeDeps
    value of the group. *)
Theorem convertSpecToBuildsSource_result (files : list File) (builds : list BuildSource) :
  convertSpecToBuildsSource files = Ok builds ->
  Forall2 (fun file b =>
             GetBuildNameAndNumberFromBuildIdentifier (Spec.Build file) (Spec.Project file)
             = Ok (Services.BuildName b, Services.BuildNumber b) /\
             Services.BuildName b <> "" /\ Services.BuildNumber b <> "" /\
             BuildRepository b = GetBuildInfoRepositoryByProject (Spec.Project file) /\
             StringToBool (IncludeDeps file) false = (Services.IncludeDependencies b, None))
          (List.filter (fun file => negb (String.eqb (Spec.Build file) "")) files) builds.
Proof.
  revert builds. induction files as [|file files IH]; intros builds; simpl.
  - intros E. injection E as <-. constructor.
  - destruct (String.eqb (Spec.Build file) "") eqn:Eb; simpl; [apply IH|].
    unfold getBuildDetailsFromIdentifier.
    destruct (GetBuildNameAndNumberFromBuildIdentifier (Spec.Build file) (Spec.Project file))
      as [[name number]|e] eqn:Ep; simpl; [|discriminate].
    destruct (String.eqb_spec name "") as [En|En]; simpl; [discriminate|].
    destruct (String.eqb_spec number "") as [Ev|Ev]; simpl; [discriminate|].
    destruct (StringToBool (IncludeDeps file) false) as [deps [e|]] eqn:Ed; [discriminate|].
    destruct (convertSpecToBuildsSource files) as [more|e]; simpl; [|discriminate].
    intros E. injection E as <-. constructor; [|apply IH; reflexivity].
    simpl. repeat split; assumption.
Qed.

(** X16: the conversion of a legacy builds spec keeps every build name
    and every explicit build number as given; when it succeeds every build
    has a non-empty number, and when every build of the file has a number it
    succeeds without asking the server. *)
Theorem convertBuildsSpecToBuildsSource_result (legacy : list Legacy.SourceBuildSpec) :
  (forall builds,
      convertBuildsSpecToBuildsSource legacy = Ok builds ->
      Forall2 (fun build b =>
                 Services.BuildName b = Legacy.Name build /\
                 Services.BuildNumber b <> "" /\
                 (Legacy.Number build <> "" -> Services.BuildNumber b = Legacy.Number build) /\
                 Services.IncludeDependencies b = Legacy.IncludeDependencies build)
              legacy builds) /\
  (Forall (fun build => Legacy.Number build <> "") legacy ->
   convertBuildsSpecToBuildsSource legacy
   = Ok ((fun build =>
            {| BuildRepository := GetBuildInfoRepositoryByProject (Legacy.Project build);
               Services.BuildName := Legacy.Name build;
               Services.BuildNumber := Legacy.Number build;
               Services.IncludeDependencies := Legacy.IncludeDependencies build |})
         <$> legacy)).
Proof.
  split.
  - induction legacy as [|build legacy IH]; intros builds; simpl.
    + intros E. injection E as <-. constructor.
    + unfold getLatestBuildNumberIfEmpty.
      destruct (String.eqb_spec (Legacy.Number build) "") as [En|En]; simpl.
      * destruct (GetLatestBuildNumberFromArtifactory _ _) as [number|e]; simpl;
          [|discriminate].
        destruct (String.eqb_spec number "") as [Ev|Ev]; simpl; [discriminate|].
        destruct (convertBuildsSpecToBuildsSource legacy) as [more|e]; simpl; [|discriminate].
        intros E. injection E as <-. constructor; [|apply IH; reflexivity].
        simpl. repeat split; [exact Ev | congruence].
      * destruct (convertBuildsSpecToBuildsSource legacy) as [more|e]; simpl; [|discriminate].
        intros E. injection E as <-. constructor; [|apply IH; reflexivity].
        simpl. repeat split; assumption.
  - induction 1 as [|build legacy Hn _ IH]; simpl; [reflexivity|].
    unfold getLatestBuildNumberIfEmpty.
    apply String.eqb_neq in Hn. rewrite Hn. simpl. rewrite IH. reflexivity.
Qed.

End WithCollaborators.
Lemma buildReleaseBundleSourcesParamsFromSpec_one_source_per_type_witness :
  exists sources,
    @buildReleaseBundleSourcesParamsFromSpec plainQuote splitting
      (createFromSpec [buildGroup; bundleGroup; buildGroup])
      [Services.Builds; Services.ReleaseBundles; Services.Builds] = Ok sources /\
    RbSourceType <$> sources = ["builds"; "release_bundles"] /\
    firstOccurrences [Services.Builds; Services.ReleaseBundles; Services.Builds]
    = ["builds"; "release_bundles"] /\
    NoDup (RbSourceType <$> sources) /\
    sublist (RbSourceType <$> sources)
      [Services.Builds; Services.ReleaseBundles; Services.Builds] /\
    sublist (RbSourceType <$> sources)
      (firstOccurrences [Services.Builds; Services.ReleaseBundles; Services.Builds]).
Proof.
  eexists. split; [vm_compute; reflexivity|]. split; [reflexivity|].
  split; [reflexivity|].
  apply (@buildReleaseBundleSourcesParamsFromSpec_one_source_per_type plainQuote splitting
           (createFromSpec [buildGroup; bundleGroup; buildGroup])
           [Services.Builds; Services.ReleaseBundles; Services.Builds]).
  vm_compute. reflexivity.
Defined.

Lemma convertSpecToSources_updatable_witness :
  exists sources,
    @Update.convertSpecToSources plainQuote splitting [buildGroup; bundleGroup; buildGroup]
      [Services.Builds; Services.ReleaseBundles; Services.Builds] = Ok sources /\
    RbSourceType <$> sources = ["builds"; "release_bundles"] /\
    Forall (fun t => In t updatable)
      [Services.Builds; Services.ReleaseBundles; Services.Builds] /\
    NoDup (RbSourceType <$> sources) /\
    sublist (RbSourceType <$> sources)
      [Services.Builds; Services.ReleaseBundles; Services.Builds] /\
    sublist (RbSourceType <$> sources)
      (firstOccurrences [Services.Builds; Services.ReleaseBundles; Services.Builds]).
Proof.
  eexists. split; [vm_compute; reflexivity|]. split; [reflexivity|].
  apply (@convertSpecToSources_updatable plainQuote splitting
           [buildGroup; bundleGroup; buildGroup]
           [Services.Builds; Services.ReleaseBundles; Services.Builds]).
  vm_compute. reflexivity.
Defined.

Lemma convertSpecToReleaseBundlesSource_result_witness :
  exists bundles,
    @convertSpecToReleaseBundlesSource splitting [bundleGroup; buildGroup] = Ok bundles /\
    Forall2 (fun file rb =>
               @ParseNameAndVersion splitting (Bundle file)
               = Ok (ReleaseBundleName rb, ReleaseBundleVersion rb) /\
               ReleaseBundleName rb <> "" /\ ReleaseBundleVersion rb <> "" /\
               ProjectKey rb = Spec.Project file /\ RepositoryKey rb = "")
            [bundleGroup] bundles.
Proof.
  eexists. split; [reflexivity|].
  apply (@convertSpecToReleaseBundlesSource_result splitting [bundleGroup; buildGroup]).
  reflexivity.
Defined.

Lemma convertSpecToBuildsSource_result_witness :
  exists builds,
    @convertSpecToBuildsSource plainQuote splitting [bundleGroup; buildGroup] = Ok builds /\
    Forall2 (fun file b =>
               @GetBuildNameAndNumberFromBuildIdentifier splitting
                 (Spec.Build file) (Spec.Project file)
               = Ok (Services.BuildName b, Services.BuildNumber b) /\
               Services.BuildName b <> "" /\ Services.BuildNumber b <> "" /\
               BuildRepository b
               = @GetBuildInfoRepositoryByProject splitting (Spec.Project file) /\
               @StringToBool plainQuote (IncludeDeps file) false
               = (Services.IncludeDependencies b, None))
            [buildGroup] builds.
Proof.
  eexists. split; [reflexivity|].
  apply (@convertSpecToBuildsSource_result plainQuote splitting [bundleGroup; buildGroup]).
  reflexivity.
Defined.

Lemma convertBuildsSpecToBuildsSource_result_witness :
  @convertBuildsSpecToBuildsSource offline
    [ {| Legacy.Name := "b1"; Legacy.Number := "3"; Legacy.Project := "p";
         Legacy.IncludeDependencies := true |} ]
  = Ok [ {| BuildRepository := "p-build-info"; Services.BuildName := "b1";
            Services.BuildNumber := "3"; Services.IncludeDependencies := true |} ].
Proof.
  apply (proj2 (@convertBuildsSpecToBuildsSource_result offline
                  [ {| Legacy.Name := "b1"; Legacy.Number := "3"; Legacy.Project := "p";
                       Legacy.IncludeDependencies := true |} ])).
  repeat constructor. discriminate.
Defined.

End SpecSourcesFacts.

Module UpdateRunFacts.
Import GoStrings GoStrconv Coreutils Services Spec Validation Commands Common Create.
Import Fixtures MoreFixtures CommandsFacts ResolutionFacts RunFacts.

Section WithCollaborators.
Context `{Quoting} `{Collaborators} `{Platform}.

Lemma buildSourcesFromCommandFlags_not_empty (rbu : Update.ReleaseBundleUpdateCommand) :
  Update.sourcesBuilds rbu <> "" \/ Update.sourcesReleaseBundles rbu <> "" ->
  fst (Update.buildSourcesFromCommandFlags rbu) <> [].
Proof.
  intros Hflags. unfold Update.buildSourcesFromCommandFlags.
  destruct (String.eqb_spec (Update.sourcesBuilds rbu) "") as [Eb|Eb];
    destruct (String.eqb_spec (Update.sourcesReleaseBundles rbu) "") as [Er|Er];
    cbn [negb]; try tauto;
    rewrite ?(proj1 (flag_builders_fmap _ _ _)),
            ?(proj2 (flag_builders_fmap _ _ _)); simpl; discriminate.
Qed.

(** X17: an update that is given a non-empty source flag, on a supported
    platform, always sends the sources built from the flags, and at least
    one: it cannot fail for a lack of sources, and the spec is not read. *)
Theorem update_with_flags_sends_sources (rbu : Update.ReleaseBundleUpdateCommand) :
  Update.sourcesBuilds rbu <> "" \/ Update.sourcesReleaseBundles rbu <> "" ->
  validateArtifactoryVersionSupported = None -> CreateLifecycleServiceManager = None ->
  UpdateRun.Run rbu
  = (Ok (fst (Update.buildSourcesFromCommandFlags rbu)),
     snd (Update.buildSourcesFromCommandFlags rbu)) /\
  fst (Update.buildSourcesFromCommandFlags rbu) <> [].
Proof.
  intros Hflags Ev Em.
  pose proof (buildSourcesFromCommandFlags_not_empty rbu Hflags) as Hne.
  split; [|exact Hne].
  unfold UpdateRun.Run. rewrite Ev, Em, (update_flags_first rbu Hflags).
  destruct (fst (Update.buildSourcesFromCommandFlags rbu)); [congruence | reflexivity].
Qed.

End WithCollaborators.
Lemma update_with_flags_sends_sources_witness :
  @UpdateRun.Run plainQuote offline recentPlatform (updateWithBuilds None)
  = (Ok (fst (@Update.buildSourcesFromCommandFlags plainQuote offline (updateWithBuilds None))),
     snd (@Update.buildSourcesFromCommandFlags plainQuote offline (updateWithBuilds None))) /\
  fst (@Update.buildSourcesFromCommandFlags plainQuote offline (updateWithBuilds None)) <> [].
Proof.
  apply (@update_with_flags_sends_sources plainQuote offline recentPlatform
           (updateWithBuilds None)); [left; discriminate | reflexivity | reflexivity].
Defined.

End UpdateRunFacts.

Module CommonFacts.
Import GoStrings Services Spec Commands Common Create Fixtures MoreFixtures.

Lemma string_length_append (a b : string) :
  String.length (a +:+ b) = String.length a + String.length b.
Proof. induction a as [|c a IH]; simpl; [reflexivity | rewrite IH; reflexivity]. Qed.

(** A shared suffix can be cancelled. *)
Lemma append_cancel_r (a b s : string) : a +:+ s = b +:+ s -> a = b.
Proof.
  revert b. induction a as [|c a IH]; intros [|d b] E; simpl in E.
  - reflexivity.
  - exfalso. apply (f_equal String.length) in E.
    change (String.length s = S (String.length (b +:+ s))) in E.
    rewrite string_length_append in E. lia.
  - exfalso. apply (f_equal String.length) in E.
    change (S (String.length (a +:+ s)) = String.length s) in E.
    rewrite string_length_append in E. lia.
  - injection E as -> E. f_equal. apply IH. exact E.
Qed.

Lemma buildRepoKey_named (project : string) :
  project <> "" -> project <> "default" ->
  buildRepoKey project = project +:+ "-release-bundles-v2".
Proof.
  unfold buildRepoKey. intros H1 H2.
  apply String.eqb_neq in H1. apply String.eqb_neq in H2. rewrite H1, H2. reflexivity.
Qed.

Lemma buildRepoKey_default (project : string) :
  project = "" \/ project = "default" -> buildRepoKey project = "release-bundles-v2".
Proof. intros [->| ->]; reflexivity. Qed.

Lemma named_key_not_default (project : string) :
  project +:+ "-release-bundles-v2" <> "release-bundles-v2".
Proof.
  intros E. apply (f_equal String.length) in E.
  rewrite string_length_append in E. simpl in E. lia.
Qed.

Lemma default_project_dec (project : string) :
  (project = "" \/ project = "default") \/ (project <> "" /\ project <> "default").
Proof.
  destruct (String.eqb_spec project ""); [tauto|].
  destruct (String.eqb_spec project "default"); tauto.
Qed.

(** X18: buildRepoKey maps the empty project and the project "default"
    to the same repository, and otherwise tells projects apart: two projects
    have the same repository key exactly when they are equal or each of them
    is one of those two. *)
Theorem buildRepoKey_separates_projects (p q : string) :
  buildRepoKey p = buildRepoKey q <->
  p = q \/ ((p = "" \/ p = "default") /\ (q = "" \/ q = "default")).
Proof.
  destruct (default_project_dec p) as [Hp|[Hp1 Hp2]],
           (default_project_dec q) as [Hq|[Hq1 Hq2]].
  - rewrite (buildRepoKey_default p Hp), (buildRepoKey_default q Hq). tauto.
  - rewrite (buildRepoKey_default p Hp), (buildRepoKey_named q Hq1 Hq2). split.
    + intros E. symmetry in E. destruct (named_key_not_default q E).
    + intros [->|[_ Hq]]; tauto.
  - rewrite (buildRepoKey_named p Hp1 Hp2), (buildRepoKey_default q Hq). split.
    + intros E. destruct (named_key_not_default p E).
    + intros [->|[Hp _]]; tauto.
  - rewrite (buildRepoKey_named p Hp1 Hp2), (buildRepoKey_named q Hq1 Hq2). split.
    + intros E. left. exact (append_cancel_r p q _ E).
    + intros [->|[Hp _]]; [reflexivity | tauto].
Qed.

(** X19: for a bundle with a project key, the repository key that the
    rewrite of source lists assigns is the one buildRepoKey computes for that
    project, except for the project key "default", which buildRepoKey maps
    to the unprefixed repository and the rewrite does not. *)
Theorem rewrite_agrees_with_buildRepoKey (rb : ReleaseBundleSource) :
  ProjectKey rb <> "" ->
  (RepositoryKey (setRepositoryKey rb) = buildRepoKey (ProjectKey rb)
   <-> ProjectKey rb <> "default").
Proof.
  intros Hne. unfold setRepositoryKey, buildRepoKey.
  apply String.eqb_neq in Hne. rewrite Hne. simpl.
  destruct (String.eqb_spec (ProjectKey rb) "default") as [Ed|Ed].
  - rewrite Ed. split; [discriminate | congruence].
  - split; [intros _; exact Ed | reflexivity].
Qed.

Section WithRules.
Context `{DistributionRule}.


End WithRules.
Lemma rewrite_agrees_with_buildRepoKey_witness :
  RepositoryKey (setRepositoryKey {| ProjectKey := "project1"; RepositoryKey := "";
                                     ReleaseBundleName := "bundle1";
                                     ReleaseBundleVersion := "1.0.0" |})
  = buildRepoKey "project1" /\
  RepositoryKey (setRepositoryKey {| ProjectKey := "default"; RepositoryKey := "";
                                     ReleaseBundleName := "bundle1";
                                     ReleaseBundleVersion := "1.0.0" |})
  <> buildRepoKey "default".
Proof.
  split.
  - apply (rewrite_agrees_with_buildRepoKey
             {| ProjectKey := "project1"; RepositoryKey := "";
                ReleaseBundleName := "bundle1"; ReleaseBundleVersion := "1.0.0" |});
      discriminate.
  - intros E.
    apply (rewrite_agrees_with_buildRepoKey
             {| ProjectKey := "default"; RepositoryKey := "";
                ReleaseBundleName := "bundle1"; ReleaseBundleVersion := "1.0.0" |})
      in E; [apply E; reflexivity | discriminate].
Defined.

End CommonFacts.

Module ParseFacts.
Import GoStrings Services Spec Commands Fixtures MoreFixtures CommandsFacts.

Lemma Split_append (a b : string) (sep : ascii) :
  Split (a +:+ String sep b) sep = Split a sep ++ Split b sep.
Proof.
  induction a as [|c a IH]; simpl.
  - rewrite Ascii.eqb_refl. reflexivity.
  - rewrite IH. destruct (Ascii.eqb c sep); [reflexivity|].
    pose proof (Split_nonempty a sep) as Hne.
    destruct (Split a sep); [congruence | reflexivity].
Qed.

Lemma Split_single (s : string) (sep : ascii) :
  ContainsByte s sep = false -> Split s sep = [s].
Proof.
  induction s as [|c s IH]; simpl; [reflexivity|].
  destruct (Ascii.eqb c sep); simpl; [discriminate|].
  intros E. rewrite (IH E). reflexivity.
Qed.

Lemma ContainsByte_append (a b : string) (sep : ascii) :
  ContainsByte (a +:+ b) sep = ContainsByte a sep || ContainsByte b sep.
Proof.
  induction a as [|c a IH]; simpl; [reflexivity|].
  rewrite IH. apply orb_assoc.
Qed.

Lemma cut_first (k v : string) (sep : ascii) :
  ContainsByte k sep = false -> cut (k +:+ String sep v) sep = Some (k, v).
Proof.
  induction k as [|c k IH]; simpl.
  - rewrite Ascii.eqb_refl. reflexivity.
  - destruct (Ascii.eqb c sep); simpl; [discriminate|].
    intros E. rewrite (IH E). reflexivity.
Qed.

Lemma foldl_app_one {A B} (f : A -> B -> A) (l : list B) (x : B) (a : A) :
  foldl f a (l ++ [x]) = f (foldl f a l) x.
Proof. revert a. induction l as [|y l IH]; intros a; simpl; [reflexivity | apply IH]. Qed.

(** X21: a pair is split at its first '=' only, so the value may contain
    '='; key and value are stored trimmed, and a pair that comes later in the
    input replaces what earlier pairs gave to the same key. *)
Theorem parseKeyValueString_last_pair (input k v : string) :
  ContainsByte k "="%char = false ->
  ContainsByte k ","%char = false -> ContainsByte v ","%char = false ->
  parseKeyValueString (input +:+ "," +:+ k +:+ "=" +:+ v)
  = (<[TrimSpace k := TrimSpace v]> (fst (parseKeyValueString input)),
     snd (parseKeyValueString input)) /\
  index (fst (parseKeyValueString (input +:+ "," +:+ k +:+ "=" +:+ v))) (TrimSpace k)
  = TrimSpace v.
Proof.
  intros Hk Hkc Hvc.
  assert (E : parseKeyValueString (input +:+ "," +:+ k +:+ "=" +:+ v)
              = (<[TrimSpace k := TrimSpace v]> (fst (parseKeyValueString input)),
                 snd (parseKeyValueString input))).
  { unfold parseKeyValueString.
    change (input +:+ "," +:+ k +:+ "=" +:+ v)
      with (input +:+ String ","%char (k +:+ String "="%char v)).
    rewrite Split_append.
    rewrite (Split_single (k +:+ String "="%char v)).
    - rewrite foldl_app_one. unfold parsePair at 1, SplitN2.
      rewrite (cut_first k v "="%char Hk). reflexivity.
    - rewrite ContainsByte_append. simpl. rewrite Hkc, Hvc. reflexivity. }
  split; [exact E|]. rewrite E. unfold index. simpl.
  rewrite lookup_insert_eq. reflexivity.
Qed.

Lemma parseKeyValueString_last_pair_witness :
  parseKeyValueString "name=a,id=1,name= b=c "
  = (<["name" := "b=c"]> (fst (parseKeyValueString "name=a,id=1")), []) /\
  index (fst (parseKeyValueString "name=a,id=1,name= b=c ")) "name" = "b=c".
Proof.
  apply (parseKeyValueString_last_pair "name=a,id=1" "name" " b=c "); reflexivity.
Defined.

End ParseFacts.

Module CliValidationFacts.
Import Coreutils Spec Cli CliValidation Fixtures MoreFixtures.

Section WithFramework.
Context `{Flagkit} `{SpecReader} `{FeatureProbe}.

(** The decision of [assertValidCreationMethod] by cases. *)
Lemma assertValidCreationMethod_cases (env : Env) (c : Context) :
  let methodCount :=
    SumTrueValues [IsFlagSet c "spec"; IsFlagSet c Builds; IsFlagSet c ReleaseBundles] in
  let multiCount :=
    SumTrueValues [IsFlagSet c SourceTypeReleaseBundles; IsFlagSet c SourceTypeBuilds] in
  assertValidCreationMethod env c = None <->
  (0 < multiCount /\ multipleSourcesSupported c = None /\ methodCount = 0) \/
  (multiCount = 0 /\ methodCount = 1) \/
  (multiCount = 0 /\ methodCount = 0 /\
   (areBuildFlagsSet c = true \/ areBuildEnvVarsSet env = true)).
Proof.
  intros methodCount multiCount.
  unfold assertValidCreationMethod, validateCreationMethods, validateRegularMethods,
    validateSingleCreationMethod, validateCreationValuesPresence.
  fold methodCount multiCount.
  destruct (0 <? multiCount)%nat eqn:Em.
  - apply Nat.ltb_lt in Em.
    destruct (multipleSourcesSupported c) as [e|].
    + split; [discriminate|]. intros [(_ & Hs & _)|[[Hm _]|[Hm _]]]; [discriminate|lia|lia].
    + destruct (0 <? methodCount)%nat eqn:Er.
      * apply Nat.ltb_lt in Er. split; [discriminate|].
        intros [(_ & _ & Hr)|[[Hm _]|[Hm _]]]; lia.
      * apply Nat.ltb_ge in Er. split; [|reflexivity]. intros _. left.
        repeat split; [exact Em | lia].
  - apply Nat.ltb_ge in Em.
    destruct (1 <? methodCount)%nat eqn:E1.
    + apply Nat.ltb_lt in E1. split; [discriminate|].
      intros [(Hm & _)|[[_ Hr]|(_ & Hr & _)]]; lia.
    + apply Nat.ltb_ge in E1.
      destruct (methodCount =? 0)%nat eqn:E0.
      * apply Nat.eqb_eq in E0.
        destruct (areBuildFlagsSet c), (areBuildEnvVarsSet env); cbn [negb andb].
        all: split;
          [ intros E;
            first [ discriminate E
                  | right; right; split; [lia | split; [exact E0 | tauto]] ]
          | intros [(Hm & _)|[[_ Hr]|(_ & _ & [Hb|Hb])]];
            try lia; try discriminate Hb; reflexivity ].
      * apply Nat.eqb_neq in E0. split; [|reflexivity].
        intros _. right. left. split; lia.
Qed.

(** X22: assertValidCreationMethod accepts a context in three cases
    only: a source flag is set, the server supports multiple sources and none
    of --spec, --builds, --release-bundles is set; or no source flag is set and
    exactly one of those three is; or none of the five is set and a build flag
    or both build environment variables are present. *)
Theorem assertValidCreationMethod_accepts (env : Env) (c : Context) :
  let methodCount :=
    SumTrueValues [IsFlagSet c "spec"; IsFlagSet c Builds; IsFlagSet c ReleaseBundles] in
  let multiCount :=
    SumTrueValues [IsFlagSet c SourceTypeReleaseBundles; IsFlagSet c SourceTypeBuilds] in
  assertValidCreationMethod env c = None <->
  (0 < multiCount /\ multipleSourcesSupported c = None /\ methodCount = 0) \/
  (multiCount = 0 /\ methodCount = 1) \/
  (multiCount = 0 /\ methodCount = 0 /\
   (areBuildFlagsSet c = true \/ areBuildEnvVarsSet env = true)).
Proof. exact (assertValidCreationMethod_cases env c). Qed.

(** X23: in a context that assertValidCreationMethod accepts, a --spec
    flag is never dropped: getReleaseBundleCreationSpec returns what reading
    the spec file gives, an error of the reader included. *)
Theorem accepted_spec_flag_is_read (env : Env) (c : Context) :
  assertValidCreationMethod env c = None ->
  IsFlagSet c "spec" = true ->
  getReleaseBundleCreationSpec env c = (s ← GetSpec c; Ok (Some s)).
Proof.
  intros Hv Hs. apply assertValidCreationMethod_cases in Hv.
  unfold getReleaseBundleCreationSpec. rewrite Hs in *.
  destruct (IsFlagSet c Builds), (IsFlagSet c ReleaseBundles),
    (IsFlagSet c SourceTypeReleaseBundles), (IsFlagSet c SourceTypeBuilds);
    simpl in Hv; try reflexivity; exfalso;
    destruct Hv as [(Ha & _ & Hb)|[[Ha Hb]|(Ha & Hb & _)]]; lia.
Qed.

(** X24: the validation asks for less than the creation of the spec
    does. With none of the five source options and no build number, neither
    as a flag nor in the environment, a --build-name flag alone passes
    assertValidCreationMethod, and getReleaseBundleCreationSpec then fails
    with the missing-spec message. *)
Theorem build_name_alone_passes_validation (env : Env) (c : Context) :
  IsFlagSet c "spec" = false ->
  IsFlagSet c Builds = false -> IsFlagSet c ReleaseBundles = false ->
  IsFlagSet c SourceTypeReleaseBundles = false -> IsFlagSet c SourceTypeBuilds = false ->
  IsFlagSet c BuildName = true ->
  IsFlagSet c BuildNumber = false -> Getenv env envBuildNumber = "" ->
  assertValidCreationMethod env c = None /\
  getReleaseBundleCreationSpec env c = Err missingSpecErrMsg.
Proof.
  intros Hs Hb Hr Hmr Hmb Hn Hnum Henv. split.
  - unfold assertValidCreationMethod, validateCreationMethods, validateRegularMethods,
      validateSingleCreationMethod, validateCreationValuesPresence, areBuildFlagsSet.
    rewrite Hs, Hb, Hr, Hmr, Hmb, Hn. reflexivity.
  - unfold getReleaseBundleCreationSpec, getStringFlagOrEnv.
    rewrite Hs, Hb, Hr, Hmr, Hmb, Hn, Hnum, Henv. simpl.
    rewrite andb_false_r. reflexivity.
Qed.

End WithFramework.
Lemma accepted_spec_flag_is_read_witness :
  @assertValidCreationMethod flagNames probeOk ∅
    {| stringFlags := {["spec" := "spec.json"]}; boolFlags := ∅ |} = None /\
  @getReleaseBundleCreationSpec flagNames noSpecFile ∅
    {| stringFlags := {["spec" := "spec.json"]}; boolFlags := ∅ |}
  = Err "spec file not found".
Proof.
  split; [reflexivity|].
  apply (@accepted_spec_flag_is_read flagNames noSpecFile probeOk ∅
           {| stringFlags := {["spec" := "spec.json"]}; boolFlags := ∅ |});
    reflexivity.
Defined.

Lemma build_name_alone_passes_validation_witness :
  @assertValidCreationMethod flagNames probeOk ∅
    {| stringFlags := {["build-name" := "b1"]}; boolFlags := ∅ |} = None /\
  @getReleaseBundleCreationSpec flagNames noSpecFile ∅
    {| stringFlags := {["build-name" := "b1"]}; boolFlags := ∅ |}
  = Err missingSpecErrMsg.
Proof.
  apply (@build_name_alone_passes_validation flagNames noSpecFile probeOk ∅
           {| stringFlags := {["build-name" := "b1"]}; boolFlags := ∅ |});
    reflexivity.
Defined.

End CliValidationFacts.

Module PrecedenceFacts.
Import GoStrings GoStrconv Coreutils Services Spec Validation Commands Common Create.
Import Fixtures MoreFixtures Views.
Import ValidationFacts CommandsFacts ResolutionFacts DetectionFacts SpecSourcesFacts.


Section WithCollaborators.
Context `{Quoting} `{Collaborators}.









Section WithPlatform.
Context `{Platform}.


End WithPlatform.
End WithCollaborators.




End PrecedenceFacts.
